(** * Task manager agent: the task store, the tool dispatcher and the agent loop

    A shallow embedding of [task.py], [todo_service.py] and [agent_service.py].

    - A [Task] is the dataclass of [task.py]; enums are inductive types with
      their string values, dates are (year, month, day) triples with the
      validity check of [datetime.date].
    - The module-level list [todo_service.tasks] is the state; every service
      function is a computation in a state-and-exception monad [M] that
      returns the outcome (a value or a raised exception) together with the
      list as it is after the call, so that "raises and leaves the list
      alone" is a statement to be proved and not a by-product of the model.
    - The argument bag of a tool call is a Python [dict] (insertion ordered,
      unique keys), modelled as an association list.  The tool schemas
      declare every parameter with JSON type string, and the embedding
      covers the payloads that decode to an object whose values are
      strings; the dispatcher then overwrites some entries with enum
      members, dates or [None].  A payload that decodes to anything else (a
      null, a number or a list under a key, or a value that is no object)
      is outside the embedding, and every statement about a decoded bag is
      a statement about bags of strings.  What the filter of [update_task]
      does to a [None], which is where a null would matter, is stated on
      the dict the filter receives ([drop_none]).
    - Library functions whose exact behaviour lies outside the repository
      ([str.lower], [repr], [date.fromisoformat], [json.loads],
      [json.dumps] and the chat completion client) are section variables.
      The messages of the exceptions that Python itself raises (enum
      lookup, keyword binding) are those of CPython 3.10 to 3.12. *)

From Stdlib Require Import List String Ascii ZArith Lia Bool DecimalString.
Import ListNotations.
Local Open Scope string_scope.
Local Open Scope Z_scope.

(** ** task.py *)

Inductive TaskType := BUG | FEATURE | IMPROVEMENT | TASK.

Inductive TaskStatus := PENDING | IN_PROGRESS | DONE | CANCELLED.

Module TaskType.

Definition value (t : TaskType) : string :=
  match t with
  | BUG => "bug"
  | FEATURE => "feature"
  | IMPROVEMENT => "improvement"
  | TASK => "task"
  end.

(** Iteration order of the class, [for t in TaskType]. *)
Definition members : list TaskType := [BUG; FEATURE; IMPROVEMENT; TASK].

Definition eqb (a b : TaskType) : bool :=
  match a, b with
  | BUG, BUG | FEATURE, FEATURE | IMPROVEMENT, IMPROVEMENT | TASK, TASK => true
  | _, _ => false
  end.

(** Lookup by value, the successful part of [TaskType(s)]. *)
Definition of_value (s : string) : option TaskType :=
  find (fun m => String.eqb (value m) s) members.

End TaskType.

Module TaskStatus.

Definition value (s : TaskStatus) : string :=
  match s with
  | PENDING => "pending"
  | IN_PROGRESS => "in_progress"
  | DONE => "done"
  | CANCELLED => "cancelled"
  end.

Definition members : list TaskStatus := [PENDING; IN_PROGRESS; DONE; CANCELLED].

Definition eqb (a b : TaskStatus) : bool :=
  match a, b with
  | PENDING, PENDING | IN_PROGRESS, IN_PROGRESS | DONE, DONE
  | CANCELLED, CANCELLED => true
  | _, _ => false
  end.

Definition of_value (s : string) : option TaskStatus :=
  find (fun m => String.eqb (value m) s) members.

End TaskStatus.

(** [datetime.date]: a proleptic Gregorian calendar day. *)
Module Date.

Record t := mk { year : Z; month : Z; day : Z }.

Definition MINYEAR : Z := 1.
Definition MAXYEAR : Z := 9999.

Definition is_leap (y : Z) : bool :=
  (y mod 4 =? 0) && (negb (y mod 100 =? 0) || (y mod 400 =? 0)).

Definition days_in_month (y m : Z) : Z :=
  match m with
  | 1 | 3 | 5 | 7 | 8 | 10 | 12 => 31
  | 4 | 6 | 9 | 11 => 30
  | 2 => if is_leap y then 29 else 28
  | _ => 0
  end.

(** The dates that exist as [date] objects. *)
Definition valid (d : t) : bool :=
  (MINYEAR <=? year d) && (year d <=? MAXYEAR) &&
  (1 <=? month d) && (month d <=? 12) &&
  (1 <=? day d) && (day d <=? days_in_month (year d) (month d)).

Definition digit_char (n : Z) : ascii := ascii_of_nat (48 + Z.to_nat n).

Definition char_digit (c : ascii) : option Z :=
  let n := Z.of_nat (nat_of_ascii c) in
  if (48 <=? n) && (n <=? 57) then Some (n - 48) else None.

(** ["%02d"] and ["%04d"] on the numbers a date holds. *)
Definition pad2 (n : Z) : string :=
  String (digit_char (n / 10)) (String (digit_char (n mod 10)) EmptyString).

Definition pad4 (n : Z) : string :=
  String (digit_char (n / 1000))
    (String (digit_char ((n / 100) mod 10))
       (String (digit_char ((n / 10) mod 10))
          (String (digit_char (n mod 10)) EmptyString))).

(** [d.isoformat()], ["%04d-%02d-%02d"]. *)
Definition isoformat (d : t) : string :=
  pad4 (year d) ++ "-" ++ pad2 (month d) ++ "-" ++ pad2 (day d).

Definition digits2 (a b : ascii) : option Z :=
  match char_digit a, char_digit b with
  | Some x, Some y => Some (10 * x + y)
  | _, _ => None
  end.

Definition digits4 (a b c d : ascii) : option Z :=
  match digits2 a b, digits2 c d with
  | Some x, Some y => Some (100 * x + y)
  | _, _ => None
  end.

(** The fields of a string of the shape [YYYY-MM-DD]: ten characters, ASCII
    digits around two hyphens. *)
Definition parse_isoformat_date (s : string) : option (Z * Z * Z) :=
  match s with
  | String y1 (String y2 (String y3 (String y4 (String h1 (String m1
      (String m2 (String h2 (String d1 (String d2 EmptyString))))))))) =>
      match digits4 y1 y2 y3 y4, digits2 m1 m2, digits2 d1 d2 with
      | Some y, Some m, Some d =>
          if Ascii.eqb h1 "-" && Ascii.eqb h2 "-" then Some (y, m, d) else None
      | _, _, _ => None
      end
  | _ => None
  end.

End Date.

Definition date : Type := Date.t.

Module Task.

Record t := mk {
  code : string;
  title : string;
  description : string;
  type : TaskType;
  start_date : option date;
  due_date : option date;
  status : TaskStatus
}.

(** Attribute assignments [task.title = v] and the like. *)
Definition set_title (v : string) (x : t) : t :=
  mk (code x) v (description x) (type x) (start_date x) (due_date x) (status x).

Definition set_description (v : string) (x : t) : t :=
  mk (code x) (title x) v (type x) (start_date x) (due_date x) (status x).

Definition set_type (v : TaskType) (x : t) : t :=
  mk (code x) (title x) (description x) v (start_date x) (due_date x) (status x).

Definition set_start_date (v : option date) (x : t) : t :=
  mk (code x) (title x) (description x) (type x) v (due_date x) (status x).

Definition set_due_date (v : option date) (x : t) : t :=
  mk (code x) (title x) (description x) (type x) (start_date x) v (status x).

Definition set_status (v : TaskStatus) (x : t) : t :=
  mk (code x) (title x) (description x) (type x) (start_date x) (due_date x) v.

End Task.

Definition Task : Type := Task.t.

(** JSON-serialisable results: what [to_dict] and [_dispatch] return. *)
#[local] Unset Elimination Schemes.
Inductive json :=
| JNull
| JStr (s : string)
| JArr (items : list json)
| JObj (fields : list (string * json)).
#[local] Set Elimination Schemes.

(** [self.start_date.isoformat() if self.start_date else None]; a date
    object is always truthy. *)
Definition date_field (d : option date) : json :=
  match d with
  | Some d => JStr (Date.isoformat d)
  | None => JNull
  end.

Definition to_dict (self : Task) : json :=
  JObj [ ("code", JStr (Task.code self));
         ("title", JStr (Task.title self));
         ("description", JStr (Task.description self));
         ("type", JStr (TaskType.value (Task.type self)));
         ("start_date", date_field (Task.start_date self));
         ("due_date", date_field (Task.due_date self));
         ("status", JStr (TaskStatus.value (Task.status self))) ].

Arguments Date.isoformat : simpl never.
Arguments to_dict : simpl never.

(** ** Exceptions and the store monad *)

Inductive exn :=
| ValueError (msg : string)
| TypeError (msg : string)
| OtherError (cls : string) (msg : string).

(** [str(exc)] *)
Definition str_exn (e : exn) : string :=
  match e with
  | ValueError m | TypeError m | OtherError _ m => m
  end.

Definition result (A : Type) : Type := (exn + A)%type.

(** The module-level list [tasks] of [todo_service.py]. *)
Definition store : Type := list Task.

Definition M (A : Type) : Type := store -> result A * store.

Definition ret {A} (a : A) : M A := fun tasks => (inr a, tasks).

Definition raise {A} (e : exn) : M A := fun tasks => (inl e, tasks).

Definition bind {A B} (m : M A) (k : A -> M B) : M B :=
  fun tasks =>
    match m tasks with
    | (inr a, tasks') => k a tasks'
    | (inl e, tasks') => (inl e, tasks')
    end.

(** A computation that does not touch the list. *)
Definition lift {A} (r : result A) : M A := fun tasks => (r, tasks).

(** [try: m] / [except Exception as exc: h exc] *)
Definition try_except {A} (m : M A) (h : exn -> A) : M A :=
  fun tasks =>
    match m tasks with
    | (inr a, tasks') => (inr a, tasks')
    | (inl e, tasks') => (inr (h e), tasks')
    end.

Declare Scope store_scope.
Delimit Scope store_scope with store.
Notation "x <- m ;; k" := (bind m (fun x => k))
  (at level 61, m at next level, right associativity) : store_scope.
Local Open Scope store_scope.

(** ** Strings and dicts *)

(** [kw in s] on strings: [kw] occurs as a contiguous substring of [s]. *)
Fixpoint contains (kw s : string) : bool :=
  String.prefix kw s ||
  match s with
  | EmptyString => false
  | String _ s' => contains kw s'
  end.

(** A reference [str.lower] for plain ASCII text, used in examples. *)
Definition ascii_lower_char (c : ascii) : ascii :=
  let n := nat_of_ascii c in
  if (Nat.leb 65 n && Nat.leb n 90)%bool then ascii_of_nat (n + 32) else c.

Fixpoint ascii_lower (s : string) : string :=
  match s with
  | EmptyString => EmptyString
  | String c s' => String (ascii_lower_char c) (ascii_lower s')
  end.

(** A reference [repr] for text without quotes, backslashes or control
    characters, used in examples. *)
Definition quote_repr (s : string) : string := "'" ++ s ++ "'".

(** A Python [dict] with string keys: entries in insertion order. *)
Definition dict (V : Type) : Type := list (string * V).

(** [d.get(k)] *)
Fixpoint dict_get {V} (k : string) (d : dict V) : option V :=
  match d with
  | [] => None
  | (k', v) :: rest => if String.eqb k' k then Some v else dict_get k rest
  end.

(** [k in d] *)
Definition dict_mem {V} (k : string) (d : dict V) : bool :=
  match dict_get k d with
  | Some _ => true
  | None => false
  end.

(** [d[k] = v]: an existing key keeps its position, a new one goes last. *)
Fixpoint dict_set {V} (k : string) (v : V) (d : dict V) : dict V :=
  match d with
  | [] => [(k, v)]
  | (k', v') :: rest =>
      if String.eqb k' k then (k', v) :: rest else (k', v') :: dict_set k v rest
  end.

Definition dict_keys {V} (d : dict V) : list string := map fst d.

(** What makes an association list a dict. *)
Definition is_dict {V} (d : dict V) : Prop := NoDup (dict_keys d).

(** ** todo_service.py *)

Definition add_task (code title : string) (description : string)
    (type : TaskType) (start_date due_date : option date)
    (status : TaskStatus) : M Task :=
  fun tasks =>
    let task := Task.mk code title description type start_date due_date status in
    (inr task, (tasks ++ [task])%list).

Definition not_found (code : string) : exn :=
  ValueError ("No task found with code '" ++ code ++ "'").

(** The assignments of [update_task] to the task object it found. *)
Definition apply_update (title description : option string)
    (type : option TaskType) (start_date due_date : option date)
    (status : option TaskStatus) (task : Task) : Task :=
  let task := match title with Some v => Task.set_title v task | None => task end in
  let task := match description with
              | Some v => Task.set_description v task
              | None => task
              end in
  let task := match type with Some v => Task.set_type v task | None => task end in
  let task := match start_date with
              | Some v => Task.set_start_date (Some v) task
              | None => task
              end in
  let task := match due_date with
              | Some v => Task.set_due_date (Some v) task
              | None => task
              end in
  let task := match status with Some v => Task.set_status v task | None => task end in
  task.

(** The first task whose code is [code], with its position: what
    [next((t for t in tasks if t.code == code), None)] and the loop over
    [enumerate(tasks)] find. *)
Fixpoint first_with_code (code : string) (tasks : list Task) (index : nat)
  : option (nat * Task) :=
  match tasks with
  | [] => None
  | t :: rest =>
      if String.eqb (Task.code t) code then Some (index, t)
      else first_with_code code rest (S index)
  end.

(** The list once the object at [index] has been mutated into [task]. *)
Fixpoint store_at (index : nat) (task : Task) (tasks : list Task) : list Task :=
  match index, tasks with
  | _, [] => []
  | O, _ :: rest => task :: rest
  | S i, t :: rest => t :: store_at i task rest
  end.

Definition update_task (code : string) (title description : option string)
    (type : option TaskType) (start_date due_date : option date)
    (status : option TaskStatus) : M Task :=
  fun tasks =>
    match first_with_code code tasks 0 with
    | None => (inl (not_found code), tasks)
    | Some (index, task) =>
        let task := apply_update title description type start_date due_date
                      status task in
        (inr task, store_at index task tasks)
    end.

(** [tasks.pop(index)] for an index inside the list. *)
Fixpoint pop (index : nat) (tasks : list Task) : list Task :=
  match index, tasks with
  | _, [] => []
  | O, _ :: rest => rest
  | S i, t :: rest => t :: pop i rest
  end.

Definition delete_task (code : string) : M Task :=
  fun tasks =>
    match first_with_code code tasks 0 with
    | Some (index, task) => (inr task, pop index tasks)
    | None => (inl (not_found code), tasks)
    end.

Section Store.

Variable lower : string -> string.

Definition keep_status (status : option TaskStatus) (result : list Task) :=
  match status with
  | Some s => filter (fun t => TaskStatus.eqb (Task.status t) s) result
  | None => result
  end.

Definition keep_type (type : option TaskType) (result : list Task) :=
  match type with
  | Some ty => filter (fun t => TaskType.eqb (Task.type t) ty) result
  | None => result
  end.

Definition matches_keyword (keyword : string) (t : Task) : bool :=
  contains keyword (lower (Task.title t))
  || contains keyword (lower (Task.description t)).

Definition keep_search (search : option string) (result : list Task) :=
  match search with
  | Some s => let keyword := lower s in filter (matches_keyword keyword) result
  | None => result
  end.

Definition get_tasks (status : option TaskStatus) (type : option TaskType)
    (search : option string) : M (list Task) :=
  fun tasks =>
    let result := tasks in
    let result := keep_status status result in
    let result := keep_type type result in
    let result := keep_search search result in
    (inr result, tasks).

End Store.

(** ** agent_service.py: the dispatcher *)

(** What an entry of the argument dict holds once [_dispatch] has coerced
    it: [None], a string, an enum member or a date. *)
Inductive value :=
| VNone
| VStr (s : string)
| VType (t : TaskType)
| VStatus (s : TaskStatus)
| VDate (d : date).

Definition is_none (v : value) : bool :=
  match v with
  | VNone => true
  | _ => false
  end.

Definition date_value (d : option date) : value :=
  match d with
  | Some d => VDate d
  | None => VNone
  end.

(** The dict as [json.loads] produced it, for a payload whose values are
    all strings. *)
Definition decoded (arguments : dict string) : dict value :=
  map (fun kv => (fst kv, VStr (snd kv))) arguments.

(** Binding a dict to the keyword parameters of a function without a
    catch-all: the first key that names no parameter is reported. *)
Definition unexpected_keyword (params : list string) (kwargs : dict value)
  : option string :=
  option_map fst
    (find (fun kv => negb (existsb (String.eqb (fst kv)) params)) kwargs).

Definition got_unexpected (fname k : string) : exn :=
  TypeError (fname ++ "() got an unexpected keyword argument '" ++ k ++ "'").

Definition missing_one (fname p : string) : exn :=
  TypeError (fname ++ "() missing 1 required positional argument: '" ++ p ++ "'").

Definition missing_two (fname p q : string) : exn :=
  TypeError (fname ++ "() missing 2 required positional arguments: '" ++ p
             ++ "' and '" ++ q ++ "'").

(** The service functions are embedded at the types their signatures
    annotate.  [_dispatch] only ever passes a string for [code], [title],
    [description] and [search], an enum member for [type] and [status] and
    a date or [None] for the two dates; any other combination is outside
    the embedding and ends in this exception, which no branch of
    [_dispatch] reaches on a dict (lemmas [dispatch_add_task_typed] to
    [dispatch_delete_task_typed]). *)
Definition ill_typed (p : string) : exn :=
  TypeError ("argument '" ++ p ++ "' is not of the annotated type").

Definition arg_str (p : string) (v : value) : result string :=
  match v with
  | VStr s => inr s
  | _ => inl (ill_typed p)
  end.

Definition arg_type (p : string) (v : value) : result TaskType :=
  match v with
  | VType t => inr t
  | _ => inl (ill_typed p)
  end.

Definition arg_status (p : string) (v : value) : result TaskStatus :=
  match v with
  | VStatus s => inr s
  | _ => inl (ill_typed p)
  end.

Definition arg_date (p : string) (v : value) : result (option date) :=
  match v with
  | VDate d => inr (Some d)
  | VNone => inr None
  | _ => inl (ill_typed p)
  end.

(** A parameter with a default: the default when the key is absent. *)
Definition with_default {A} (f : string -> value -> result A) (default : A)
    (p : string) (kwargs : dict value) : result A :=
  match dict_get p kwargs with
  | Some v => f p v
  | None => inr default
  end.

(** A parameter whose default is [None]: absent and [None] are the same. *)
Definition optional {A} (f : string -> value -> result A) (p : string)
    (kwargs : dict value) : result (option A) :=
  match dict_get p kwargs with
  | None | Some VNone => inr None
  | Some v => match f p v with
              | inl e => inl e
              | inr a => inr (Some a)
              end
  end.

(** Every key of the dict names one of [params]. *)
Definition keys_within {V} (params : list string) (d : dict V) : bool :=
  forallb (fun k => existsb (String.eqb k) params) (dict_keys d).

Definition add_task_params : list string :=
  ["code"; "title"; "description"; "type"; "start_date"; "due_date"; "status"].

Definition get_tasks_params : list string := ["status"; "type"; "search"].

Definition update_task_params : list string :=
  ["code"; "title"; "description"; "type"; "start_date"; "due_date"; "status"].

Definition delete_task_params : list string := ["code"].

(** [todo_service.add_task] called with the dict as keyword arguments. *)
Definition call_add_task (kwargs : dict value) : M Task :=
  match unexpected_keyword add_task_params kwargs with
  | Some k => raise (got_unexpected "add_task" k)
  | None =>
      match dict_get "code" kwargs, dict_get "title" kwargs with
      | None, None => raise (missing_two "add_task" "code" "title")
      | None, Some _ => raise (missing_one "add_task" "code")
      | Some _, None => raise (missing_one "add_task" "title")
      | Some c, Some t =>
          code <- lift (arg_str "code" c);;
          title <- lift (arg_str "title" t);;
          description <- lift (with_default arg_str "" "description" kwargs);;
          type <- lift (with_default arg_type TASK "type" kwargs);;
          start_date <- lift (with_default arg_date None "start_date" kwargs);;
          due_date <- lift (with_default arg_date None "due_date" kwargs);;
          status <- lift (with_default arg_status PENDING "status" kwargs);;
          add_task code title description type start_date due_date status
      end
  end.

(** [todo_service.update_task] called with the dict as keyword arguments. *)
Definition call_update_task (kwargs : dict value) : M Task :=
  match unexpected_keyword update_task_params kwargs with
  | Some k => raise (got_unexpected "update_task" k)
  | None =>
      match dict_get "code" kwargs with
      | None => raise (missing_one "update_task" "code")
      | Some c =>
          code <- lift (arg_str "code" c);;
          title <- lift (optional arg_str "title" kwargs);;
          description <- lift (optional arg_str "description" kwargs);;
          type <- lift (optional arg_type "type" kwargs);;
          start_date <- lift (with_default arg_date None "start_date" kwargs);;
          due_date <- lift (with_default arg_date None "due_date" kwargs);;
          status <- lift (optional arg_status "status" kwargs);;
          update_task code title description type start_date due_date status
      end
  end.

(** [todo_service.delete_task] called with the dict as keyword arguments. *)
Definition call_delete_task (kwargs : dict value) : M Task :=
  match unexpected_keyword delete_task_params kwargs with
  | Some k => raise (got_unexpected "delete_task" k)
  | None =>
      match dict_get "code" kwargs with
      | None => raise (missing_one "delete_task" "code")
      | Some c =>
          code <- lift (arg_str "code" c);;
          delete_task code
      end
  end.

(** [date.fromisoformat(s)] on the format the tool schemas ask for,
    [YYYY-MM-DD], followed by the range checks of the [date] constructor:
    the whole of the function before Python 3.11.  Later versions accept
    further ISO 8601 forms ([20240229], [2024-W09-4]) that this parser
    rejects; a string that this parser accepts is read as the same date by
    every version.  The dispatcher below is therefore written over the
    parser of the running interpreter, a section variable, and this parser
    is used only where a date string is known to have the [YYYY-MM-DD] form
    ([Date.isoformat] writes no other) and in the examples. *)
Definition fromisoformat_ymd (repr : string -> string) (s : string)
  : result date :=
  match Date.parse_isoformat_date s with
  | None => inl (ValueError ("Invalid isoformat string: " ++ repr s))
  | Some (y, m, d) =>
      if (y <? Date.MINYEAR) || (Date.MAXYEAR <? y) then
        inl (ValueError ("year " ++ NilZero.string_of_int (Z.to_int y)
                         ++ " is out of range"))
      else if (m <? 1) || (12 <? m) then
        inl (ValueError "month must be in 1..12")
      else if (d <? 1) || (Date.days_in_month y m <? d) then
        inl (ValueError "day is out of range for month")
      else inr (Date.mk y m d)
  end.

Section Dispatcher.

Variable lower : string -> string.
Variable repr : string -> string.

(** [date.fromisoformat] on a string: the date, or the exception raised. *)
Variable fromisoformat : string -> result date.

(** [date.fromisoformat(value) if value else None] *)
Definition _parse_date (value : option string) : result (option date) :=
  match value with
  | None => inr None
  | Some s =>
      if String.eqb s "" then inr None
      else match fromisoformat s with
           | inl e => inl e
           | inr d => inr (Some d)
           end
  end.

(** [TaskType(s)] *)
Definition TaskType_call (s : string) : result TaskType :=
  match TaskType.of_value s with
  | Some t => inr t
  | None => inl (ValueError (repr s ++ " is not a valid TaskType"))
  end.

(** [TaskStatus(s)] *)
Definition TaskStatus_call (s : string) : result TaskStatus :=
  match TaskStatus.of_value s with
  | Some t => inr t
  | None => inl (ValueError (repr s ++ " is not a valid TaskStatus"))
  end.

(** [if key in arguments: arguments[key] = coerce(arguments[key])] *)
Definition coerce_if_present {A} (key : string) (coerce : string -> result A)
    (wrap : A -> value) (arguments : dict string) (kwargs : dict value)
  : result (dict value) :=
  match dict_get key arguments with
  | Some s => match coerce s with
              | inl e => inl e
              | inr a => inr (dict_set key (wrap a) kwargs)
              end
  | None => inr kwargs
  end.

(** [arguments[key] = coerce(arguments[key]) if key in arguments else default] *)
Definition coerce_or_default {A} (key : string) (coerce : string -> result A)
    (default : A) (wrap : A -> value) (arguments : dict string)
    (kwargs : dict value) : result (dict value) :=
  match dict_get key arguments with
  | Some s => match coerce s with
              | inl e => inl e
              | inr a => inr (dict_set key (wrap a) kwargs)
              end
  | None => inr (dict_set key (wrap default) kwargs)
  end.

(** [arguments[key] = _parse_date(arguments.get(key))] *)
Definition coerce_date (key : string) (arguments : dict string)
    (kwargs : dict value) : result (dict value) :=
  match _parse_date (dict_get key arguments) with
  | inl e => inl e
  | inr d => inr (dict_set key (date_value d) kwargs)
  end.

(** [{k: v for k, v in arguments.items() if v is not None or k == "code"}] *)
Definition drop_none (kwargs : dict value) : dict value :=
  filter (fun kv => negb (is_none (snd kv)) || String.eqb (fst kv) "code") kwargs.

(** [todo_service.get_tasks] called with the dict as keyword arguments. *)
Definition call_get_tasks (kwargs : dict value) : M (list Task) :=
  match unexpected_keyword get_tasks_params kwargs with
  | Some k => raise (got_unexpected "get_tasks" k)
  | None =>
      status <- lift (optional arg_status "status" kwargs);;
      type <- lift (optional arg_type "type" kwargs);;
      search <- lift (optional arg_str "search" kwargs);;
      get_tasks lower status type search
  end.

(** The branches of [_dispatch].  Each key is read from [arguments], the
    dict as decoded, before the dispatcher overwrites it; [kwargs] is the
    same dict with the entries overwritten so far. *)
Definition dispatch_add_task (arguments : dict string) : M json :=
  let kwargs := decoded arguments in
  kwargs <- lift (coerce_or_default "type" TaskType_call TASK VType arguments kwargs);;
  kwargs <- lift (coerce_or_default "status" TaskStatus_call PENDING VStatus
                    arguments kwargs);;
  kwargs <- lift (coerce_date "start_date" arguments kwargs);;
  kwargs <- lift (coerce_date "due_date" arguments kwargs);;
  task <- call_add_task kwargs;;
  ret (to_dict task).

Definition dispatch_get_tasks (arguments : dict string) : M json :=
  let kwargs := decoded arguments in
  kwargs <- lift (coerce_if_present "status" TaskStatus_call VStatus arguments kwargs);;
  kwargs <- lift (coerce_if_present "type" TaskType_call VType arguments kwargs);;
  tasks <- call_get_tasks kwargs;;
  ret (JArr (map to_dict tasks)).

Definition dispatch_update_task (arguments : dict string) : M json :=
  let kwargs := decoded arguments in
  kwargs <- lift (coerce_if_present "type" TaskType_call VType arguments kwargs);;
  kwargs <- lift (coerce_if_present "status" TaskStatus_call VStatus arguments kwargs);;
  kwargs <- lift (coerce_date "start_date" arguments kwargs);;
  kwargs <- lift (coerce_date "due_date" arguments kwargs);;
  let kwargs := drop_none kwargs in
  task <- call_update_task kwargs;;
  ret (to_dict task).

Definition dispatch_delete_task (arguments : dict string) : M json :=
  task <- call_delete_task (decoded arguments);;
  ret (to_dict task).

Definition _dispatch (name : string) (arguments : dict string) : M json :=
  if String.eqb name "add_task" then dispatch_add_task arguments
  else if String.eqb name "get_tasks" then dispatch_get_tasks arguments
  else if String.eqb name "update_task" then dispatch_update_task arguments
  else if String.eqb name "delete_task" then dispatch_delete_task arguments
  else raise (ValueError ("Unknown function: " ++ name)).

End Dispatcher.

(** ** agent_service.py: the agent loop *)

(** [tool_call.function]: the name of the tool and the argument payload as
    JSON text. *)
Module Function.

Record t := mk { name : string; arguments : string }.

End Function.

Module ToolCall.

Record t := mk { id : string; function : Function.t }.

End ToolCall.

(** [response.choices[0].message]: [tool_calls] empty stands for both
    [None] and the empty list, which the loop treats alike. *)
Module ChatMessage.

Record t := mk { content : option string; tool_calls : list ToolCall.t }.

End ChatMessage.

(** An entry of the conversation [messages]. *)
Inductive message :=
| SystemMessage (content : string)
| UserMessage (content : string)
| AssistantMessage (m : ChatMessage.t)
| ToolMessage (tool_call_id : string) (content : string).

(** The arguments of [client.chat.completions.create]; [tools] tells
    whether [TOOLS] is offered (with [tool_choice="auto"]). *)
Record request := mkRequest {
  model : string;
  messages : list message;
  tools : bool
}.

Definition system_prompt : string :=
  "You are a helpful task management assistant. "
  ++ "Use the provided tools to manage the user's task list. "
  ++ "Always respond in clear, friendly language.".

(** [{"error": str(exc)}] *)
Definition error_payload (exc : exn) : json :=
  JObj [("error", JStr (str_exn exc))].

Section Agent.

Variable lower : string -> string.
Variable repr : string -> string.
Variable fromisoformat : string -> result date.

(** [json.loads] on an argument payload: the decoded dict, for a payload
    that is an object with strings for values, or the exception raised on
    text that is not JSON ([json.JSONDecodeError], a [ValueError]). *)
Variable json_loads : string -> result (dict string).

(** [json.dumps(result, default=str)] *)
Variable json_dumps : json -> string.

(** [client.chat.completions.create(...).choices[0].message], or the
    exception of a failed request. *)
Variable create : request -> result ChatMessage.t.

(** The body of [for tool_call in message.tool_calls]. *)
Definition run_tool_call (tool_call : ToolCall.t) (messages : list message)
  : M (list message) :=
  let name := Function.name (ToolCall.function tool_call) in
  arguments <- lift (json_loads (Function.arguments (ToolCall.function tool_call)));;
  result <- try_except (_dispatch lower repr fromisoformat name arguments)
              error_payload;;
  ret (messages ++ [ToolMessage (ToolCall.id tool_call) (json_dumps result)])%list.

Fixpoint run_tool_calls (tool_calls : list ToolCall.t) (messages : list message)
  : M (list message) :=
  match tool_calls with
  | [] => ret messages
  | tool_call :: rest =>
      messages <- run_tool_call tool_call messages;;
      run_tool_calls rest messages
  end.

Definition agent (query : string) (model : string) : M (option string) :=
  let messages := [SystemMessage system_prompt; UserMessage query] in
  message <- lift (create (mkRequest model messages true));;
  let messages := (messages ++ [AssistantMessage message])%list in
  match ChatMessage.tool_calls message with
  | _ :: _ =>
      messages <- run_tool_calls (ChatMessage.tool_calls message) messages;;
      followup <- lift (create (mkRequest model messages false));;
      ret (ChatMessage.content followup)
  | [] => ret (ChatMessage.content message)
  end.

(** [main.chat]: the agent with the default model. *)
Definition chat (message : string) : M (option string) :=
  agent message "gpt-4o-mini".

End Agent.

(** ** Sequences of store operations *)

Inductive store_op :=
| Create (code title description : string) (type : TaskType)
    (start_date due_date : option date) (status : TaskStatus)
| Query (status : option TaskStatus) (type : option TaskType)
    (search : option string)
| Update (code : string) (title description : option string)
    (type : option TaskType) (start_date due_date : option date)
    (status : option TaskStatus)
| Delete (code : string).

(** The list after one operation, whatever the operation returned. *)
Definition run_op (lower : string -> string) (op : store_op) (tasks : store)
  : store :=
  match op with
  | Create c t d ty sd dd st => snd (add_task c t d ty sd dd st tasks)
  | Query st ty s => snd (get_tasks lower st ty s tasks)
  | Update c t d ty sd dd st => snd (update_task c t d ty sd dd st tasks)
  | Delete c => snd (delete_task c tasks)
  end.

Definition run_ops (lower : string -> string) (ops : list store_op)
    (tasks : store) : store :=
  fold_left (fun tasks op => run_op lower op tasks) ops tasks.

(** ** Reconstructing a task from its field map *)

Definition field (k : string) (fields : list (string * json)) : option json :=
  dict_get k fields.

Definition str_field (k : string) (fields : list (string * json))
  : option string :=
  match field k fields with
  | Some (JStr s) => Some s
  | _ => None
  end.

Section FromDict.

Variable repr : string -> string.

(** A date field read back: null is [None], a string is parsed with
    [date.fromisoformat]. *)
Definition date_of_field (k : string) (fields : list (string * json))
  : option (option date) :=
  match field k fields with
  | Some JNull => Some None
  | Some (JStr s) => match fromisoformat_ymd repr s with
                     | inr d => Some (Some d)
                     | inl _ => None
                     end
  | _ => None
  end.

(** Modelled from the spec: the reconstruction the round-trip property
    speaks of, which the repository does not define.  A [Task] is built
    from the entries of a field map, dates parsed back from their strings
    with [date.fromisoformat], enums looked up by value, null dates read as
    [None]. *)
Definition from_dict (d : json) : option Task :=
  match d with
  | JObj fields =>
      match str_field "code" fields, str_field "title" fields,
            str_field "description" fields, str_field "type" fields,
            date_of_field "start_date" fields, date_of_field "due_date" fields,
            str_field "status" fields with
      | Some c, Some t, Some de, Some ty, Some sd, Some dd, Some st =>
          match TaskType.of_value ty, TaskStatus.of_value st with
          | Some ty, Some st => Some (Task.mk c t de ty sd dd st)
          | _, _ => None
          end
      | _, _, _, _, _, _, _ => None
      end
  | _ => None
  end.

End FromDict.

(** ** The dispatcher read at the types of the store

    What each branch of [_dispatch] comes to once the dict has been bound
    to the parameters of the service function: the coercions in the order
    of the source, then the binding errors, then the call.  The lemmas
    [dispatch_add_task_typed] and its siblings prove the branches equal to
    these readings. *)

Definition enum_or_default {A} (coerce : string -> result A) (default : A)
    (v : option string) : result A :=
  match v with
  | Some s => coerce s
  | None => inr default
  end.

Definition enum_if_present {A} (coerce : string -> result A)
    (v : option string) : result (option A) :=
  match v with
  | Some s => match coerce s with
              | inl e => inl e
              | inr a => inr (Some a)
              end
  | None => inr None
  end.

(** The keys decide which keyword is unexpected. *)
Definition first_unexpected (params keys : list string) : option string :=
  find (fun k => negb (existsb (String.eqb k) params)) keys.

Definition str_or_empty (v : option string) : string :=
  match v with
  | Some s => s
  | None => ""
  end.

Section Typed.

Variable lower : string -> string.
Variable repr : string -> string.
Variable fromisoformat : string -> result date.

Definition add_task_typed (arguments : dict string) : M json :=
  type <- lift (enum_or_default (TaskType_call repr) TASK
                  (dict_get "type" arguments));;
  status <- lift (enum_or_default (TaskStatus_call repr) PENDING
                    (dict_get "status" arguments));;
  start_date <- lift (_parse_date fromisoformat
                        (dict_get "start_date" arguments));;
  due_date <- lift (_parse_date fromisoformat
                      (dict_get "due_date" arguments));;
  match first_unexpected add_task_params (dict_keys arguments) with
  | Some k => raise (got_unexpected "add_task" k)
  | None =>
      match dict_get "code" arguments, dict_get "title" arguments with
      | None, None => raise (missing_two "add_task" "code" "title")
      | None, Some _ => raise (missing_one "add_task" "code")
      | Some _, None => raise (missing_one "add_task" "title")
      | Some code, Some title =>
          task <- add_task code title
                    (str_or_empty (dict_get "description" arguments))
                    type start_date due_date status;;
          ret (to_dict task)
      end
  end.

Definition get_tasks_typed (arguments : dict string) : M json :=
  status <- lift (enum_if_present (TaskStatus_call repr)
                    (dict_get "status" arguments));;
  type <- lift (enum_if_present (TaskType_call repr)
                  (dict_get "type" arguments));;
  match first_unexpected get_tasks_params (dict_keys arguments) with
  | Some k => raise (got_unexpected "get_tasks" k)
  | None =>
      tasks <- get_tasks lower status type (dict_get "search" arguments);;
      ret (JArr (map to_dict tasks))
  end.

Definition update_task_typed (arguments : dict string) : M json :=
  type <- lift (enum_if_present (TaskType_call repr)
                  (dict_get "type" arguments));;
  status <- lift (enum_if_present (TaskStatus_call repr)
                    (dict_get "status" arguments));;
  start_date <- lift (_parse_date fromisoformat
                        (dict_get "start_date" arguments));;
  due_date <- lift (_parse_date fromisoformat
                      (dict_get "due_date" arguments));;
  match first_unexpected update_task_params (dict_keys arguments) with
  | Some k => raise (got_unexpected "update_task" k)
  | None =>
      match dict_get "code" arguments with
      | None => raise (missing_one "update_task" "code")
      | Some code =>
          task <- update_task code (dict_get "title" arguments)
                    (dict_get "description" arguments) type start_date
                    due_date status;;
          ret (to_dict task)
      end
  end.

Definition delete_task_typed (arguments : dict string) : M json :=
  match first_unexpected delete_task_params (dict_keys arguments) with
  | Some k => raise (got_unexpected "delete_task" k)
  | None =>
      match dict_get "code" arguments with
      | None => raise (missing_one "delete_task" "code")
      | Some code =>
          task <- delete_task code;;
          ret (to_dict task)
      end
  end.

End Typed.

(** Entries that [drop_none] can remove sit under expected keys. *)
Definition none_only_at (params : list string) (kwargs : dict value) : Prop :=
  Forall (fun kv => existsb (String.eqb (fst kv)) params = true
                    \/ is_none (snd kv) = false) kwargs.

(** The dates of a task exist as [date] objects. *)
Definition dates_valid (t : Task) : Prop :=
  (forall d, Task.start_date t = Some d -> Date.valid d = true) /\
  (forall d, Task.due_date t = Some d -> Date.valid d = true).

(** ** agent_service.py: the tool schemas *)

(** An entry of ["properties"]: its JSON type, the values of ["enum"] when
    the entry has one, and its description when it has one. *)
Module Property.

Record t := mk {
  name : string;
  type : string;
  enum : option (list string);
  description : option string
}.

End Property.

(** An entry of [TOOLS]: the ["function"] object of a tool of type
    ["function"], whose ["parameters"] are an ["object"] schema. *)
Module Tool.

Record t := mk {
  name : string;
  description : string;
  properties : list Property.t;
  required : list string
}.

End Tool.

(** [[t.value for t in TaskType]] and [[s.value for s in TaskStatus]] *)
Definition type_values : list string := map TaskType.value TaskType.members.

Definition status_values : list string :=
  map TaskStatus.value TaskStatus.members.

Definition TOOLS : list Tool.t :=
  [ Tool.mk "add_task" "Create a new task and add it to the list."
      [ Property.mk "code" "string" None
          (Some "Unique task code, e.g. 'TASK-001'.");
        Property.mk "title" "string" None (Some "Short title of the task.");
        Property.mk "description" "string" None
          (Some "Detailed description of the task.");
        Property.mk "type" "string" (Some type_values) (Some "Type of task.");
        Property.mk "start_date" "string" None
          (Some "Start date in YYYY-MM-DD format.");
        Property.mk "due_date" "string" None
          (Some "Due date in YYYY-MM-DD format.");
        Property.mk "status" "string" (Some status_values)
          (Some "Current status of the task.") ]
      ["code"; "title"];
    Tool.mk "get_tasks" "Retrieve tasks with optional filters."
      [ Property.mk "status" "string" (Some status_values)
          (Some "Filter by task status.");
        Property.mk "type" "string" (Some type_values)
          (Some "Filter by task type.");
        Property.mk "search" "string" None
          (Some "Substring search on title or description.") ]
      [];
    Tool.mk "update_task" "Update one or more fields of an existing task."
      [ Property.mk "code" "string" None (Some "Code of the task to update.");
        Property.mk "title" "string" None None;
        Property.mk "description" "string" None None;
        Property.mk "type" "string" (Some type_values) None;
        Property.mk "start_date" "string" None
          (Some "New start date in YYYY-MM-DD format.");
        Property.mk "due_date" "string" None
          (Some "New due date in YYYY-MM-DD format.");
        Property.mk "status" "string" (Some status_values) None ]
      ["code"];
    Tool.mk "delete_task" "Delete a task by its code."
      [ Property.mk "code" "string" None (Some "Code of the task to delete.") ]
      ["code"] ].

(** The entry of [TOOLS] under a name. *)
Definition tool_named (name : string) : option Tool.t :=
  find (fun tool => String.eqb (Tool.name tool) name) TOOLS.

(** An argument dict that follows the schema of a tool: every key is one
    of the properties, every required property is there, and a value under
    a property with an ["enum"] is one of its values. *)
Definition follows_schema (tool : Tool.t) (arguments : dict string) : bool :=
  forallb (fun kv =>
             match find (fun p => String.eqb (Property.name p) (fst kv))
                     (Tool.properties tool) with
             | Some p => match Property.enum p with
                         | Some values => existsb (String.eqb (snd kv)) values
                         | None => true
                         end
             | None => false
             end) arguments
  && forallb (fun k => dict_mem k arguments) (Tool.required tool).

(** ** Vocabulary of the statements *)

(** [del d[k]] when the key is there. *)
Definition dict_remove {V} (k : string) (d : dict V) : dict V :=
  filter (fun kv => negb (String.eqb (fst kv) k)) d.

(** The date of a task under the key of the argument that sets it. *)
Definition date_under (key : string) (t : Task) : option date :=
  if String.eqb key "start_date" then Task.start_date t else Task.due_date t.

(** The exceptions that coercing the arguments can raise: the
    [ValueError] of an enum constructor given a value outside the enum, and
    whatever [date.fromisoformat] raises on a non-empty date string that it
    rejects. *)
Inductive coercion_error (repr : string -> string)
    (fromisoformat : string -> result date) (arguments : dict string)
  : exn -> Prop :=
| bad_type s :
    dict_get "type" arguments = Some s -> TaskType.of_value s = None ->
    coercion_error repr fromisoformat arguments
      (ValueError (repr s ++ " is not a valid TaskType"))
| bad_status s :
    dict_get "status" arguments = Some s -> TaskStatus.of_value s = None ->
    coercion_error repr fromisoformat arguments
      (ValueError (repr s ++ " is not a valid TaskStatus"))
| bad_date key s e :
    key = "start_date" \/ key = "due_date" ->
    dict_get key arguments = Some s -> s <> "" ->
    fromisoformat s = inl e ->
    coercion_error repr fromisoformat arguments e.

(** A date parser that signals every rejected string with a [ValueError],
    as [date.fromisoformat] does on strings. *)
Definition raises_ValueError (fromisoformat : string -> result date) : Prop :=
  forall s e, fromisoformat s = inl e -> exists msg, e = ValueError msg.

Definition invalid_enum (arguments : dict string) : Prop :=
  (exists s, dict_get "type" arguments = Some s /\ TaskType.of_value s = None)
  \/ (exists s, dict_get "status" arguments = Some s
                /\ TaskStatus.of_value s = None).

Definition malformed_date (fromisoformat : string -> result date)
    (arguments : dict string) : Prop :=
  exists key s e,
    (key = "start_date" \/ key = "due_date") /\
    dict_get key arguments = Some s /\ s <> "" /\ fromisoformat s = inl e.

Definition bad_arguments (fromisoformat : string -> result date)
    (arguments : dict string) : Prop :=
  invalid_enum arguments \/ malformed_date fromisoformat arguments.

(** A computation that leaves the list alone whenever it raises. *)
Definition fails_clean {A} (m : M A) : Prop :=
  forall tasks e tasks', m tasks = (inl e, tasks') -> tasks' = tasks.

(** What a task looks like when the enum sets are closed and the caller
    has named it. *)
Definition enums_closed (t : Task) : Prop :=
  In (TaskType.value (Task.type t)) ["bug"; "feature"; "improvement"; "task"]
  /\ In (TaskStatus.value (Task.status t))
       ["pending"; "in_progress"; "done"; "cancelled"].

Definition named (t : Task) : Prop := Task.code t <> "" /\ Task.title t <> "".

(** The operations in which the caller supplies no empty code or title. *)
Definition supplies_names (op : store_op) : Prop :=
  match op with
  | Create c t _ _ _ _ _ => c <> "" /\ t <> ""
  | Update _ (Some t) _ _ _ _ _ => t <> ""
  | _ => True
  end.

(** A [json.loads] given by a table of payloads, for examples: the text
    at the left decodes to the dict at the right, any other text is
    reported the way [json.loads] reports text that starts no JSON value. *)
Definition loads_table (table : list (string * dict string)) (s : string)
  : result (dict string) :=
  match dict_get s table with
  | Some d => inr d
  | None => inl (ValueError "Expecting value: line 1 column 1 (char 0)")
  end.

(** What a round of tool calls is to produce: for every call, in the
    order of the response, the payload is decoded, the dispatcher runs on
    the list as the previous calls left it, and a tool message keyed by
    the call's identifier carries the result, or the error payload when
    the dispatcher raised. *)
Inductive round (lower repr : string -> string)
    (fromisoformat : string -> result date)
    (json_loads : string -> result (dict string)) (json_dumps : json -> string)
  : list ToolCall.t -> store -> list message -> store -> Prop :=
| round_done tasks :
    round lower repr fromisoformat json_loads json_dumps [] tasks [] tasks
| round_call tool_call rest arguments outcome tasks tasks1 tasks2 results :
    json_loads (Function.arguments (ToolCall.function tool_call))
    = inr arguments ->
    _dispatch lower repr fromisoformat
      (Function.name (ToolCall.function tool_call))
      arguments tasks = (outcome, tasks1) ->
    round lower repr fromisoformat json_loads json_dumps rest tasks1 results
      tasks2 ->
    round lower repr fromisoformat json_loads json_dumps (tool_call :: rest)
      tasks
      (ToolMessage (ToolCall.id tool_call)
         (json_dumps match outcome with
                     | inr result => result
                     | inl exc => error_payload exc
                     end) :: results) tasks2.

(** The payloads [json.loads] accepts. *)
Definition decodes (json_loads : string -> result (dict string))
    (tool_call : ToolCall.t) : Prop :=
  exists arguments,
    json_loads (Function.arguments (ToolCall.function tool_call))
    = inr arguments.

(** The create operation that stores a given task. *)
Definition create_of (t : Task) : store_op :=
  Create (Task.code t) (Task.title t) (Task.description t) (Task.type t)
    (Task.start_date t) (Task.due_date t) (Task.status t).

(** [kw] occurs in [s]. *)
Definition occurs (kw s : string) : Prop := exists a b, s = a ++ kw ++ b.

(** The entries of a field map that hold a string, as an argument dict:
    null entries are left out. *)
Definition string_entries (d : json) : dict string :=
  match d with
  | JObj fields =>
      flat_map (fun kv => match snd kv with
                          | JStr s => [(fst kv, s)]
                          | _ => []
                          end) fields
  | _ => []
  end.

(** The identifier a tool message answers. *)
Definition answers (m : message) : option string :=
  match m with
  | ToolMessage tool_call_id _ => Some tool_call_id
  | _ => None
  end.

(** The number of tasks after a tool call, from the number before. *)
Definition length_after (name : string) (outcome : result json) (n : nat)
  : nat :=
  match outcome with
  | inl _ => n
  | inr _ => if String.eqb name "add_task" then S n
             else if String.eqb name "delete_task" then Nat.pred n
             else n
  end.

(** ** Data for the examples *)

Module Example.

(** The double quote. *)
Definition dq : string := String "034"%char EmptyString.

(** JSON text of a dict of plain strings, as the model writes a payload. *)
Fixpoint entries_text (d : dict string) : string :=
  match d with
  | [] => ""
  | [(k, v)] => dq ++ k ++ dq ++ ": " ++ dq ++ v ++ dq
  | (k, v) :: rest => dq ++ k ++ dq ++ ": " ++ dq ++ v ++ dq ++ ", "
                      ++ entries_text rest
  end.

Definition payload (d : dict string) : string := "{" ++ entries_text d ++ "}".

(** A reference [json.dumps] for results made of plain text. *)
Fixpoint dumps (j : json) : string :=
  match j with
  | JNull => "null"
  | JStr s => dq ++ s ++ dq
  | JArr items =>
      "[" ++ (fix go (l : list json) : string :=
                match l with
                | [] => ""
                | [x] => dumps x
                | x :: rest => dumps x ++ ", " ++ go rest
                end) items ++ "]"
  | JObj fields =>
      "{" ++ (fix go (l : list (string * json)) : string :=
                match l with
                | [] => ""
                | [(k, v)] => dq ++ k ++ dq ++ ": " ++ dumps v
                | (k, v) :: rest => dq ++ k ++ dq ++ ": " ++ dumps v ++ ", "
                                    ++ go rest
                end) fields ++ "}"
  end.

Definition task1 : Task :=
  Task.mk "TASK-001" "Fix login bug" "Users cannot log in" BUG
    (Some (Date.mk 2024 2 29)) None PENDING.

Definition task2 : Task :=
  Task.mk "TASK-002" "Write docs" "" TASK None (Some (Date.mk 2024 12 31))
    IN_PROGRESS.

(** A second task under the code of [task1]. *)
Definition task1_again : Task :=
  Task.mk "TASK-001" "Duplicate" "" FEATURE None None DONE.

Definition bad_status_args : dict string :=
  [("code", "TASK-001"); ("status", "finished")].

Definition nope_args : dict string := [("code", "NOPE")].

(** An empty payload: not JSON. *)
Definition not_json : string := EmptyString.

(** [json.loads] on the payloads of the examples. *)
Definition loads : string -> result (dict string) :=
  loads_table [ (payload bad_status_args, bad_status_args);
                (payload nope_args, nope_args);
                (payload [], []) ].

Definition call (id name : string) (arguments : string) : ToolCall.t :=
  ToolCall.mk id (Function.mk name arguments).

(** [date.fromisoformat] in the examples, whose date strings all have the
    form [YYYY-MM-DD]. *)
Definition fromisoformat : string -> result date :=
  fromisoformat_ymd quote_repr.

(** A model that asks for the given tool calls in the first round and
    answers in prose in the second. *)
Definition model_asking (tool_calls : list ToolCall.t) (r : request)
  : result ChatMessage.t :=
  if tools r then inr (ChatMessage.mk None tool_calls)
  else inr (ChatMessage.mk (Some "Here is what happened.") []).

(** Scenario D: an update with a status outside the enum, then a query. *)
Definition scenario_d : list ToolCall.t :=
  [ call "call_1" "update_task" (payload bad_status_args);
    call "call_2" "get_tasks" (payload []) ].

(** A first call whose payload is not JSON, then a query. *)
Definition scenario_not_json : list ToolCall.t :=
  [ call "call_1" "update_task" not_json;
    call "call_2" "get_tasks" (payload []) ].

End Example.

(** * Properties *)

(** ** The store *)

Lemma first_with_code_none (c : string) (tasks : store) (i : nat) :
  first_with_code c tasks i = None <->
  Forall (fun t => Task.code t <> c) tasks.
Proof.
  revert i; induction tasks as [|t rest IH]; intros i; simpl.
  - split; auto.
  - destruct (String.eqb (Task.code t) c) eqn:E.
    + apply String.eqb_eq in E. split; [discriminate|].
      intros H; inversion H; subst; contradiction.
    + apply String.eqb_neq in E. rewrite IH. split.
      * intros H; constructor; assumption.
      * intros H; inversion H; assumption.
Qed.

Lemma first_with_code_some (c : string) (tasks : store) (i j : nat) (t : Task) :
  first_with_code c tasks i = Some (j, t) ->
  exists before after,
    tasks = (before ++ t :: after)%list /\
    Forall (fun x => Task.code x <> c) before /\
    Task.code t = c /\ j = (i + List.length before)%nat.
Proof.
  revert i; induction tasks as [|x rest IH]; intros i; simpl; [discriminate|].
  destruct (String.eqb (Task.code x) c) eqn:E.
  - intros H; inversion H; subst. apply String.eqb_eq in E.
    exists [], rest. simpl. repeat split; auto with arith.
  - intros H. apply String.eqb_neq in E.
    destruct (IH _ H) as (before & after & -> & Hb & Hc & ->).
    exists (x :: before), after. simpl. repeat split; auto; lia.
Qed.

Lemma first_with_code_exists (c : string) (tasks : store) (i : nat) :
  Exists (fun t => Task.code t = c) tasks ->
  exists j t, first_with_code c tasks i = Some (j, t).
Proof.
  intros H. destruct (first_with_code c tasks i) as [[j t]|] eqn:E; eauto.
  apply first_with_code_none in E. apply Exists_exists in H.
  destruct H as (t & Hin & Hc). rewrite Forall_forall in E.
  exfalso; exact (E t Hin Hc).
Qed.

Lemma pop_middle (before after : list Task) (t : Task) :
  pop (List.length before) (before ++ t :: after) = (before ++ after)%list.
Proof. induction before; simpl; congruence. Qed.

Lemma store_at_middle (before after : list Task) (t t' : Task) :
  store_at (List.length before) t' (before ++ t :: after)
  = (before ++ t' :: after)%list.
Proof. induction before; simpl; congruence. Qed.

Lemma first_with_code_middle (c : string) (before after : store) (t : Task)
    (i : nat) :
  Forall (fun x => Task.code x <> c) before -> Task.code t = c ->
  first_with_code c (before ++ t :: after) i
  = Some ((i + List.length before)%nat, t).
Proof.
  intros Hb Hc. revert i.
  induction Hb as [|x before Hx Hb IH]; intros i; simpl.
  - apply String.eqb_eq in Hc. rewrite Hc. do 2 f_equal. lia.
  - apply String.eqb_neq in Hx. rewrite Hx, IH. do 2 f_equal. lia.
Qed.

Lemma update_task_found (c : string) ti de ty sd dd st (before after : store)
    (t : Task) :
  Forall (fun x => Task.code x <> c) before -> Task.code t = c ->
  update_task c ti de ty sd dd st (before ++ t :: after)%list
  = (inr (apply_update ti de ty sd dd st t),
     (before ++ apply_update ti de ty sd dd st t :: after)%list).
Proof.
  intros Hb Hc. unfold update_task.
  rewrite (first_with_code_middle c before after t 0 Hb Hc). simpl.
  now rewrite store_at_middle.
Qed.

(** C6. When some stored task has code [c], [delete_task c] removes the
    first such task and nothing else: the list splits as
    [before ++ task :: after] with no task of [before] having code [c], the
    call returns [task] as it was stored, and the list afterwards is
    [before ++ after], one element shorter, the remaining tasks (later
    duplicates of [c] included) in their order. *)
Theorem delete_task_removes_first_match (c : string) (tasks : store) :
  Exists (fun t => Task.code t = c) tasks ->
  exists before task after,
    tasks = (before ++ task :: after)%list /\
    Forall (fun t => Task.code t <> c) before /\
    Task.code task = c /\
    delete_task c tasks = (inr task, (before ++ after)%list) /\
    (List.length (before ++ after) + 1 = List.length tasks)%nat.
Proof.
  intros H. destruct (first_with_code_exists c tasks 0 H) as (j & t & E).
  destruct (first_with_code_some _ _ _ _ _ E) as (before & after & -> & Hb & Hc & ->).
  exists before, t, after. repeat split; auto.
  - unfold delete_task. rewrite E. simpl. now rewrite pop_middle.
  - rewrite !List.length_app. simpl. lia.
Qed.

(** ** Searching *)

Lemma prefix_occurs (kw s : string) :
  String.prefix kw s = true <-> exists b, s = kw ++ b.
Proof.
  revert s. induction kw as [|a kw IH]; intros s.
  - split; [intros _; exists s; reflexivity|destruct s; reflexivity].
  - destruct s as [|b s]; simpl;
      [split; [discriminate|intros [x H]; discriminate]|].
    destruct (ascii_dec a b) as [->|Hne].
    + rewrite IH. split; intros [x H]; exists x; [now rewrite H|].
      now inversion H.
    + split; [discriminate|]. intros [x H]. inversion H. congruence.
Qed.

Lemma contains_occurs (kw s : string) :
  contains kw s = true <-> occurs kw s.
Proof.
  unfold occurs. induction s as [|c s IH]; cbn [contains].
  - rewrite Bool.orb_false_r, prefix_occurs. split.
    + intros [b H]. exists "", b. exact H.
    + intros (a & b & H). destruct a; [exists b; exact H|discriminate].
  - rewrite Bool.orb_true_iff, prefix_occurs, IH. split.
    + intros [[b H]|(a & b & H)].
      * exists "", b. exact H.
      * exists (String c a), b. simpl. now rewrite H.
    + intros (a & b & H). destruct a as [|c' a].
      * left. exists b. exact H.
      * right. simpl in H. inversion H. exists a, b. reflexivity.
Qed.

Lemma TaskStatus_eqb_eq (a b : TaskStatus) :
  TaskStatus.eqb a b = true <-> a = b.
Proof. destruct a, b; simpl; split; congruence. Qed.

Lemma TaskType_eqb_eq (a b : TaskType) : TaskType.eqb a b = true <-> a = b.
Proof. destruct a, b; simpl; split; congruence. Qed.

(** The test of [get_tasks] on one task, as a proposition: the status and the
    type are the ones asked for, and the lowered keyword occurs in the
    lowered title or in the lowered description; an absent filter asks
    nothing. *)
Definition matches (lower : string -> string) (status : option TaskStatus)
    (type : option TaskType) (search : option string) (t : Task) : Prop :=
  (forall s, status = Some s -> Task.status t = s)
  /\ (forall ty, type = Some ty -> Task.type t = ty)
  /\ (forall kw, search = Some kw ->
        occurs (lower kw) (lower (Task.title t))
        \/ occurs (lower kw) (lower (Task.description t))).

Lemma keeps_matches (lower : string -> string) (status : option TaskStatus)
    (type : option TaskType) (search : option string) (t : Task) :
  match status with Some s => TaskStatus.eqb (Task.status t) s | None => true end
  && match type with Some ty => TaskType.eqb (Task.type t) ty | None => true end
  && match search with
     | Some s => contains (lower s) (lower (Task.title t))
                 || contains (lower s) (lower (Task.description t))
     | None => true
     end = true
  <-> matches lower status type search t.
Proof.
  unfold matches.
  rewrite !Bool.andb_true_iff.
  destruct status as [s|], type as [ty|], search as [kw|];
    rewrite ?Bool.orb_true_iff, ?contains_occurs, ?TaskStatus_eqb_eq,
      ?TaskType_eqb_eq;
    (split;
     [ intros [[H1 H2] H3]; repeat split;
       intros x Hx; first [discriminate Hx | injection Hx as <-; assumption]
     | intros (H1 & H2 & H3); repeat split;
       first [ reflexivity | exact (H1 _ eq_refl) | exact (H2 _ eq_refl)
             | exact (H3 _ eq_refl) ] ]).
Qed.

(** C7. [get_tasks] keeps a task exactly when it passes the status filter,
    the type filter and the search filter together, in the order of the
    list; it is the status filter followed by the type filter followed by
    the search filter; an absent filter keeps everything; the list itself
    is not changed.  The three tests are what their names say: a task
    passes exactly when its status is the status asked for, its type is the
    type asked for, and the lowered keyword occurs, as a contiguous
    substring, in its lowered title or in its lowered description; and
    whatever function decides that proposition, [get_tasks] returns the
    stored tasks it accepts, in the order of the list. *)
Theorem get_tasks_conjunctive_filters (lower : string -> string)
    (status : option TaskStatus) (type : option TaskType)
    (search : option string) (tasks : store) :
  let passes_status t :=
    match status with Some s => TaskStatus.eqb (Task.status t) s | None => true end in
  let passes_type t :=
    match type with Some ty => TaskType.eqb (Task.type t) ty | None => true end in
  let passes_search t :=
    match search with
    | Some s => contains (lower s) (lower (Task.title t))
                || contains (lower s) (lower (Task.description t))
    | None => true
    end in
  get_tasks lower status type search tasks
  = (inr (filter (fun t => passes_status t && passes_type t && passes_search t)
            tasks), tasks)
  /\ get_tasks lower status type search tasks
     = (inr (filter passes_search (filter passes_type (filter passes_status tasks))),
        tasks)
  /\ get_tasks lower None None None tasks = (inr tasks, tasks)
  /\ (forall t,
        (passes_status t = true <->
         forall s, status = Some s -> Task.status t = s)
        /\ (passes_type t = true <->
            forall ty, type = Some ty -> Task.type t = ty)
        /\ (passes_search t = true <->
            forall kw, search = Some kw ->
              occurs (lower kw) (lower (Task.title t))
              \/ occurs (lower kw) (lower (Task.description t))))
  /\ (forall p : Task -> bool,
        (forall t, p t = true <-> matches lower status type search t) ->
        get_tasks lower status type search tasks = (inr (filter p tasks), tasks)).
Proof.
  assert (Htrue : forall l : list Task, filter (fun _ => true) l = l).
  { induction l; simpl; congruence. }
  assert (Hand : forall (p q : Task -> bool) l,
             filter q (filter p l) = filter (fun t => p t && q t) l).
  { intros p q l; induction l as [|x l IH]; simpl; auto.
    destruct (p x); simpl; [destruct (q x)|]; congruence. }
  intros ps pt pse.
  assert (Hone : get_tasks lower status type search tasks
                 = (inr (filter (fun t => ps t && pt t && pse t) tasks), tasks)).
  { unfold get_tasks. f_equal. f_equal. rewrite <- !Hand.
    unfold keep_search, keep_type, keep_status, ps, pt, pse, matches_keyword.
    destruct status, type, search; rewrite ?Htrue; reflexivity. }
  split; [exact Hone|]. split; [|split; [reflexivity|split]].
  - unfold get_tasks. f_equal. f_equal.
    unfold keep_search, keep_type, keep_status, ps, pt, pse, matches_keyword.
    destruct status, type, search; rewrite ?Htrue; reflexivity.
  - intros t. unfold ps, pt, pse. repeat split.
    + destruct status as [s|]; [|discriminate].
      rewrite TaskStatus_eqb_eq. intros H s' E. now inversion E; subst.
    + destruct status as [s|]; [|reflexivity].
      intros H. apply TaskStatus_eqb_eq. now apply H.
    + destruct type as [ty|]; [|discriminate].
      rewrite TaskType_eqb_eq. intros H ty' E. now inversion E; subst.
    + destruct type as [ty|]; [|reflexivity].
      intros H. apply TaskType_eqb_eq. now apply H.
    + destruct search as [kw|]; [|discriminate].
      rewrite Bool.orb_true_iff, !contains_occurs.
      intros H kw' E. now inversion E; subst.
    + destruct search as [kw|]; [|reflexivity].
      intros H. rewrite Bool.orb_true_iff, !contains_occurs. now apply H.
  - intros p Hp. rewrite Hone. do 2 f_equal. apply filter_ext. intros t.
    apply Bool.eq_iff_eq_true. rewrite Hp. apply keeps_matches.
Qed.

(** ** Dates and enums *)

Lemma char_digit_digit_char (n : Z) :
  0 <= n <= 9 -> Date.char_digit (Date.digit_char n) = Some n.
Proof.
  intros H. replace n with (Z.of_nat (Z.to_nat n)) by lia.
  assert (Hk : (Z.to_nat n < 10)%nat) by lia.
  revert Hk. generalize (Z.to_nat n). intros k Hk.
  do 10 (destruct k as [|k]; [reflexivity|]). lia.
Qed.

Lemma digits2_digit_chars (n : Z) :
  0 <= n <= 99 ->
  Date.digits2 (Date.digit_char (n / 10)) (Date.digit_char (n mod 10)) = Some n.
Proof.
  intros H. unfold Date.digits2.
  rewrite !char_digit_digit_char by (Z.to_euclidean_division_equations; lia).
  f_equal. Z.to_euclidean_division_equations. lia.
Qed.

Lemma digits4_digit_chars (n : Z) :
  0 <= n <= 9999 ->
  Date.digits4 (Date.digit_char (n / 1000)) (Date.digit_char ((n / 100) mod 10))
    (Date.digit_char ((n / 10) mod 10)) (Date.digit_char (n mod 10)) = Some n.
Proof.
  intros H. unfold Date.digits4, Date.digits2.
  rewrite !char_digit_digit_char by (Z.to_euclidean_division_equations; lia).
  f_equal. Z.to_euclidean_division_equations. lia.
Qed.

Lemma parse_isoformat_date_isoformat (d : date) :
  0 <= Date.year d <= 9999 -> 0 <= Date.month d <= 99 -> 0 <= Date.day d <= 99 ->
  Date.parse_isoformat_date (Date.isoformat d)
  = Some (Date.year d, Date.month d, Date.day d).
Proof.
  intros Hy Hm Hd. destruct d as [y m dd].
  cbn [Date.year Date.month Date.day] in *.
  unfold Date.isoformat, Date.pad4, Date.pad2.
  cbn [String.append Date.year Date.month Date.day].
  unfold Date.parse_isoformat_date.
  rewrite digits4_digit_chars, !digits2_digit_chars by assumption.
  rewrite Ascii.eqb_refl. reflexivity.
Qed.

Lemma days_in_month_le_31 (y m : Z) : Date.days_in_month y m <= 31.
Proof.
  unfold Date.days_in_month.
  repeat match goal with
         | |- context [match ?x with _ => _ end] => destruct x
         | |- context [if ?b then _ else _] => destruct b
         end; lia.
Qed.

Lemma valid_bounds (d : date) :
  Date.valid d = true ->
  1 <= Date.year d <= 9999 /\ 1 <= Date.month d <= 12 /\
  1 <= Date.day d <= Date.days_in_month (Date.year d) (Date.month d).
Proof.
  unfold Date.valid, Date.MINYEAR, Date.MAXYEAR. intros H.
  repeat (apply andb_prop in H; destruct H as [H ?]).
  repeat match goal with
         | H : (_ <=? _) = true |- _ => apply Z.leb_le in H
         end.
  lia.
Qed.

Lemma fromisoformat_isoformat (repr : string -> string) (d : date) :
  Date.valid d = true -> fromisoformat_ymd repr (Date.isoformat d) = inr d.
Proof.
  intros H. destruct (valid_bounds d H) as (Hy & Hm & Hd).
  pose proof (days_in_month_le_31 (Date.year d) (Date.month d)) as H31.
  unfold fromisoformat_ymd.
  rewrite parse_isoformat_date_isoformat by lia.
  unfold Date.MINYEAR, Date.MAXYEAR.
  replace (Date.year d <? 1) with false by (symmetry; apply Z.ltb_ge; lia).
  replace (9999 <? Date.year d) with false by (symmetry; apply Z.ltb_ge; lia).
  replace (Date.month d <? 1) with false by (symmetry; apply Z.ltb_ge; lia).
  replace (12 <? Date.month d) with false by (symmetry; apply Z.ltb_ge; lia).
  replace (Date.day d <? 1) with false by (symmetry; apply Z.ltb_ge; lia).
  replace (Date.days_in_month (Date.year d) (Date.month d) <? Date.day d)
    with false by (symmetry; apply Z.ltb_ge; lia).
  simpl. destruct d; reflexivity.
Qed.

(** Whatever [fromisoformat] returns is a date that exists. *)
Lemma fromisoformat_valid (repr : string -> string) (s : string) (d : date) :
  fromisoformat_ymd repr s = inr d -> Date.valid d = true.
Proof.
  unfold fromisoformat_ymd.
  destruct (Date.parse_isoformat_date s) as [[[y m] dd]|]; [|discriminate].
  destruct ((y <? Date.MINYEAR) || (Date.MAXYEAR <? y)) eqn:Ey; [discriminate|].
  destruct ((m <? 1) || (12 <? m)) eqn:Em; [discriminate|].
  destruct ((dd <? 1) || (Date.days_in_month y m <? dd)) eqn:Ed; [discriminate|].
  intros H; inversion H; subst; clear H.
  apply orb_false_elim in Ey, Em, Ed.
  destruct Ey as [Ey1 Ey2], Em as [Em1 Em2], Ed as [Ed1 Ed2].
  apply Z.ltb_ge in Ey1, Ey2, Em1, Em2, Ed1, Ed2.
  unfold Date.valid; simpl.
  repeat (apply andb_true_intro; split); apply Z.leb_le; assumption.
Qed.

Lemma TaskType_of_value_value (t : TaskType) :
  TaskType.of_value (TaskType.value t) = Some t.
Proof. destruct t; reflexivity. Qed.

Lemma TaskStatus_of_value_value (s : TaskStatus) :
  TaskStatus.of_value (TaskStatus.value s) = Some s.
Proof. destruct s; reflexivity. Qed.

Lemma TaskType_of_value_inv (s : string) (t : TaskType) :
  TaskType.of_value s = Some t -> TaskType.value t = s.
Proof.
  unfold TaskType.of_value. intros H. apply find_some in H.
  destruct H as [_ H]. now apply String.eqb_eq in H.
Qed.

Lemma TaskStatus_of_value_inv (s : string) (t : TaskStatus) :
  TaskStatus.of_value s = Some t -> TaskStatus.value t = s.
Proof.
  unfold TaskStatus.of_value. intros H. apply find_some in H.
  destruct H as [_ H]. now apply String.eqb_eq in H.
Qed.

Lemma date_of_field_date_field (repr : string -> string) (k : string)
    (fields : list (string * json)) (d : option date) :
  field k fields = Some (date_field d) ->
  (forall x, d = Some x -> Date.valid x = true) ->
  date_of_field repr k fields = Some d.
Proof.
  intros Hf Hv. unfold date_of_field. rewrite Hf.
  destruct d as [x|]; cbn [date_field]; [|reflexivity].
  now rewrite fromisoformat_isoformat by auto.
Qed.

(** C8. A task serialised by [to_dict] and rebuilt from the entries of
    that field map (dates parsed back with [date.fromisoformat], enums
    looked up by value, null dates read as [None]) is the task one started
    from, field for field.  The dates of the task are dates that exist,
    as every [date] object is. *)
Theorem to_dict_round_trip (repr : string -> string) (t : Task) :
  dates_valid t -> from_dict repr (to_dict t) = Some t.
Proof.
  intros [Hs Hd]. unfold from_dict, to_dict.
  rewrite (date_of_field_date_field repr "start_date" _ (Task.start_date t))
    by (auto; reflexivity).
  rewrite (date_of_field_date_field repr "due_date" _ (Task.due_date t))
    by (auto; reflexivity).
  unfold str_field, field. simpl.
  rewrite TaskType_of_value_value, TaskStatus_of_value_value.
  destruct t; reflexivity.
Qed.

(** ** Dicts *)

Lemma dict_get_decoded (k : string) (arguments : dict string) :
  dict_get k (decoded arguments) = option_map VStr (dict_get k arguments).
Proof.
  induction arguments as [|[k' s] rest IH]; simpl; [reflexivity|].
  destruct (String.eqb k' k); auto.
Qed.

Lemma dict_keys_decoded (arguments : dict string) :
  dict_keys (decoded arguments) = dict_keys arguments.
Proof.
  unfold dict_keys, decoded. rewrite map_map. reflexivity.
Qed.

Lemma dict_get_set_same {V} (k : string) (v : V) (d : dict V) :
  dict_get k (dict_set k v d) = Some v.
Proof.
  induction d as [|[k' v'] rest IH]; simpl.
  - now rewrite String.eqb_refl.
  - destruct (String.eqb k' k) eqn:E; simpl; rewrite E; auto.
Qed.

Lemma dict_get_set_other {V} (k k' : string) (v : V) (d : dict V) :
  k' <> k -> dict_get k (dict_set k' v d) = dict_get k d.
Proof.
  intros Hne. induction d as [|[k0 v0] rest IH]; simpl.
  - apply String.eqb_neq in Hne. now rewrite Hne.
  - destruct (String.eqb k0 k') eqn:E; simpl.
    + apply String.eqb_eq in E; subst k0.
      apply String.eqb_neq in Hne. now rewrite Hne.
    + destruct (String.eqb k0 k); auto.
Qed.

Lemma dict_get_none_not_in {V} (k : string) (d : dict V) :
  dict_get k d = None <-> ~ In k (dict_keys d).
Proof.
  induction d as [|[k' v] rest IH]; simpl.
  - tauto.
  - destruct (String.eqb k' k) eqn:E.
    + apply String.eqb_eq in E. split; [discriminate|intros H; tauto].
    + apply String.eqb_neq in E. rewrite IH. tauto.
Qed.

Lemma dict_keys_set {V} (k : string) (v : V) (d : dict V) :
  dict_keys (dict_set k v d)
  = if dict_mem k d then dict_keys d else (dict_keys d ++ [k])%list.
Proof.
  unfold dict_mem. induction d as [|[k' v'] rest IH]; simpl; [reflexivity|].
  destruct (String.eqb k' k) eqn:E; simpl; [reflexivity|].
  rewrite IH. destruct (dict_get k rest); reflexivity.
Qed.

Lemma is_dict_set {V} (k : string) (v : V) (d : dict V) :
  is_dict d -> is_dict (dict_set k v d).
Proof.
  unfold is_dict. intros H. rewrite dict_keys_set. unfold dict_mem.
  destruct (dict_get k d) eqn:E; [assumption|].
  apply dict_get_none_not_in in E.
  apply NoDup_app; [assumption|repeat constructor; simpl; tauto|].
  intros x Hx [<-|[]]. contradiction.
Qed.

Lemma is_dict_decoded (arguments : dict string) :
  is_dict arguments -> is_dict (decoded arguments).
Proof. unfold is_dict. now rewrite dict_keys_decoded. Qed.

Lemma unexpected_keyword_keys (params : list string) (kwargs : dict value) :
  unexpected_keyword params kwargs = first_unexpected params (dict_keys kwargs).
Proof.
  unfold unexpected_keyword, first_unexpected.
  induction kwargs as [|[k v] rest IH]; simpl; [reflexivity|].
  destruct (existsb (String.eqb k) params); simpl; auto.
Qed.

Lemma first_unexpected_app (params l1 l2 : list string) :
  first_unexpected params (l1 ++ l2)
  = match first_unexpected params l1 with
    | Some k => Some k
    | None => first_unexpected params l2
    end.
Proof.
  unfold first_unexpected. induction l1 as [|k l1 IH]; simpl; [reflexivity|].
  destruct (existsb (String.eqb k) params); simpl; auto.
Qed.

Lemma unexpected_keyword_set (params : list string) (k : string) (v : value)
    (kwargs : dict value) :
  existsb (String.eqb k) params = true ->
  unexpected_keyword params (dict_set k v kwargs)
  = unexpected_keyword params kwargs.
Proof.
  intros Hk. rewrite !unexpected_keyword_keys, dict_keys_set.
  destruct (dict_mem k kwargs); [reflexivity|].
  rewrite first_unexpected_app.
  destruct (first_unexpected params (dict_keys kwargs)); [reflexivity|].
  unfold first_unexpected; simpl. now rewrite Hk.
Qed.

Lemma first_unexpected_none (params keys : list string) :
  first_unexpected params keys = None
  <-> forallb (fun k => existsb (String.eqb k) params) keys = true.
Proof.
  unfold first_unexpected. induction keys as [|k keys IH]; simpl; [tauto|].
  destruct (existsb (String.eqb k) params); simpl; [assumption|].
  split; discriminate.
Qed.

Lemma none_only_at_decoded (params : list string) (arguments : dict string) :
  none_only_at params (decoded arguments).
Proof.
  unfold none_only_at, decoded. apply Forall_forall. intros kv H.
  apply in_map_iff in H. destruct H as ([k s] & <- & _). right. reflexivity.
Qed.

Lemma none_only_at_set (params : list string) (k : string) (v : value)
    (kwargs : dict value) :
  existsb (String.eqb k) params = true ->
  none_only_at params kwargs -> none_only_at params (dict_set k v kwargs).
Proof.
  intros Hk. unfold none_only_at.
  induction kwargs as [|[k' v'] rest IH]; simpl; intros H.
  - constructor; [left; assumption|constructor].
  - inversion H; subst. destruct (String.eqb k' k) eqn:E.
    + apply String.eqb_eq in E; subst. constructor; [left; assumption|assumption].
    + constructor; auto.
Qed.

Lemma unexpected_keyword_drop_none (params : list string)
    (kwargs : dict value) :
  none_only_at params kwargs ->
  unexpected_keyword params (drop_none kwargs)
  = unexpected_keyword params kwargs.
Proof.
  unfold unexpected_keyword, drop_none, none_only_at.
  induction 1 as [|[k v] rest Hkv _ IH]; simpl; [reflexivity|].
  destruct (existsb (String.eqb k) params) eqn:Ek; simpl.
  - destruct (negb (is_none v) || String.eqb k "code"); simpl; rewrite ?Ek; auto.
  - destruct Hkv as [Hkv|Hkv]; simpl in Hkv; [congruence|].
    rewrite Hkv. simpl. now rewrite Ek.
Qed.

Lemma dict_get_drop_none (k : string) (kwargs : dict value) :
  is_dict kwargs ->
  dict_get k (drop_none kwargs)
  = match dict_get k kwargs with
    | Some v => if negb (is_none v) || String.eqb k "code" then Some v else None
    | None => None
    end.
Proof.
  unfold is_dict, drop_none.
  induction kwargs as [|[k' v] rest IH]; simpl; intros Hd; [reflexivity|].
  inversion Hd as [|? ? Hnotin Hrest]; subst.
  destruct (String.eqb k' k) eqn:E.
  - apply String.eqb_eq in E; subst k'.
    destruct (negb (is_none v) || String.eqb k "code") eqn:Ekeep; simpl.
    + now rewrite String.eqb_refl.
    + apply dict_get_none_not_in. intros Hin. apply Hnotin.
      unfold dict_keys in *. apply in_map_iff in Hin.
      destruct Hin as (kv & <- & Hin). apply filter_In in Hin.
      apply in_map. tauto.
  - destruct (negb (is_none v) || String.eqb k' "code"); simpl; rewrite ?E; auto.
Qed.

(** ** The branches of the dispatcher and their typed readings *)

Lemma bind_lift {A B} (r : result A) (k : A -> M B) (tasks : store) :
  bind (lift r) k tasks
  = match r with
    | inl e => (inl e, tasks)
    | inr a => k a tasks
    end.
Proof. destruct r; reflexivity. Qed.

Lemma coerce_or_default_eq {A} (key : string)
    (coerce : string -> result A) (default : A) (wrap : A -> value)
    (arguments : dict string) (kwargs : dict value) :
  coerce_or_default key coerce default wrap arguments kwargs
  = match enum_or_default coerce default (dict_get key arguments) with
    | inl e => inl e
    | inr a => inr (dict_set key (wrap a) kwargs)
    end.
Proof.
  unfold coerce_or_default, enum_or_default.
  destruct (dict_get key arguments); reflexivity.
Qed.

Lemma call_add_task_coerced (arguments : dict string) (ty : TaskType)
    (st : TaskStatus) (sd dd : option date) (tasks : store) :
  call_add_task
    (dict_set "due_date" (date_value dd)
       (dict_set "start_date" (date_value sd)
          (dict_set "status" (VStatus st)
             (dict_set "type" (VType ty) (decoded arguments))))) tasks
  = match first_unexpected add_task_params (dict_keys arguments) with
    | Some k => (inl (got_unexpected "add_task" k), tasks)
    | None =>
        match dict_get "code" arguments, dict_get "title" arguments with
        | None, None => (inl (missing_two "add_task" "code" "title"), tasks)
        | None, Some _ => (inl (missing_one "add_task" "code"), tasks)
        | Some _, None => (inl (missing_one "add_task" "title"), tasks)
        | Some code, Some title =>
            add_task code title (str_or_empty (dict_get "description" arguments))
              ty sd dd st tasks
        end
    end.
Proof.
  unfold call_add_task.
  rewrite !unexpected_keyword_set by reflexivity.
  rewrite unexpected_keyword_keys, dict_keys_decoded.
  destruct (first_unexpected add_task_params (dict_keys arguments));
    [reflexivity|].
  unfold with_default.
  repeat first [ rewrite dict_get_set_same
               | rewrite dict_get_set_other by discriminate ].
  rewrite !dict_get_decoded.
  destruct (dict_get "code" arguments), (dict_get "title" arguments);
    try reflexivity.
  destruct (dict_get "description" arguments), sd, dd; reflexivity.
Qed.

Lemma dispatch_add_task_typed (repr : string -> string)
    (fromisoformat : string -> result date)
    (arguments : dict string) (tasks : store) :
  dispatch_add_task repr fromisoformat arguments tasks
  = add_task_typed repr fromisoformat arguments tasks.
Proof.
  unfold dispatch_add_task, add_task_typed, coerce_date.
  rewrite !bind_lift, coerce_or_default_eq.
  destruct (enum_or_default (TaskType_call repr) TASK (dict_get "type" arguments))
    as [e|ty]; [reflexivity|].
  rewrite !bind_lift, coerce_or_default_eq.
  destruct (enum_or_default (TaskStatus_call repr) PENDING
              (dict_get "status" arguments)) as [e|st]; [reflexivity|].
  rewrite !bind_lift.
  destruct (_parse_date fromisoformat (dict_get "start_date" arguments))
    as [e|sd];
    [reflexivity|].
  rewrite !bind_lift.
  destruct (_parse_date fromisoformat (dict_get "due_date" arguments))
    as [e|dd];
    [reflexivity|].
  unfold bind at 1. rewrite call_add_task_coerced.
  destruct (first_unexpected add_task_params (dict_keys arguments));
    [reflexivity|].
  destruct (dict_get "code" arguments), (dict_get "title" arguments);
    reflexivity.
Qed.

Lemma coerce_if_present_eq {A} (key : string) (coerce : string -> result A)
    (wrap : A -> value) (arguments : dict string) (kwargs : dict value) :
  coerce_if_present key coerce wrap arguments kwargs
  = match enum_if_present coerce (dict_get key arguments) with
    | inl e => inl e
    | inr (Some a) => inr (dict_set key (wrap a) kwargs)
    | inr None => inr kwargs
    end.
Proof.
  unfold coerce_if_present, enum_if_present.
  destruct (dict_get key arguments) as [s|]; [|reflexivity].
  destruct (coerce s); reflexivity.
Qed.

Lemma enum_if_present_none {A} (coerce : string -> result A)
    (v : option string) :
  enum_if_present coerce v = inr None -> v = None.
Proof.
  unfold enum_if_present. destruct v as [s|]; [|reflexivity].
  destruct (coerce s); discriminate.
Qed.

Ltac dict_gets :=
  repeat first
    [ rewrite dict_get_set_same
    | rewrite dict_get_set_other by discriminate
    | rewrite dict_get_decoded
    | rewrite unexpected_keyword_set by reflexivity
    | rewrite unexpected_keyword_keys
    | rewrite dict_keys_decoded ].

Lemma dispatch_get_tasks_typed (lower repr : string -> string)
    (arguments : dict string) (tasks : store) :
  dispatch_get_tasks lower repr arguments tasks
  = get_tasks_typed lower repr arguments tasks.
Proof.
  unfold dispatch_get_tasks, get_tasks_typed.
  rewrite !bind_lift, coerce_if_present_eq.
  destruct (enum_if_present (TaskStatus_call repr) (dict_get "status" arguments))
    as [e|st] eqn:Est; [reflexivity|].
  assert (Hst : st = None -> dict_get "status" arguments = None).
  { intros ->. exact (enum_if_present_none _ _ Est). }
  destruct st as [st|]; rewrite !bind_lift, coerce_if_present_eq;
    (destruct (enum_if_present (TaskType_call repr) (dict_get "type" arguments))
       as [e|ty] eqn:Ety; [reflexivity|]);
    (assert (Hty : ty = None -> dict_get "type" arguments = None)
       by (intros ->; exact (enum_if_present_none _ _ Ety)));
    destruct ty as [ty|];
    unfold bind at 1, call_get_tasks; dict_gets;
    (destruct (first_unexpected get_tasks_params (dict_keys arguments));
       [reflexivity|]);
    unfold optional; rewrite !bind_lift; dict_gets;
    rewrite ?Hst, ?Hty by reflexivity;
    destruct (dict_get "search" arguments); reflexivity.
Qed.

Lemma optional_drop_none {A} (f : string -> value -> result A) (k : string)
    (kwargs : dict value) :
  is_dict kwargs -> optional f k (drop_none kwargs) = optional f k kwargs.
Proof.
  intros Hd. unfold optional. rewrite dict_get_drop_none by assumption.
  destruct (dict_get k kwargs) as [[]|]; simpl;
    destruct (String.eqb k "code"); reflexivity.
Qed.

Lemma with_default_date_drop_none (k : string) (kwargs : dict value) :
  is_dict kwargs ->
  with_default arg_date None k (drop_none kwargs)
  = with_default arg_date None k kwargs.
Proof.
  intros Hd. unfold with_default. rewrite dict_get_drop_none by assumption.
  destruct (dict_get k kwargs) as [[]|]; simpl;
    destruct (String.eqb k "code"); reflexivity.
Qed.

Lemma dict_get_code_drop_none (kwargs : dict value) :
  is_dict kwargs -> dict_get "code" (drop_none kwargs) = dict_get "code" kwargs.
Proof.
  intros Hd. rewrite dict_get_drop_none by assumption.
  destruct (dict_get "code" kwargs); [|reflexivity].
  now rewrite Bool.orb_true_r.
Qed.

(** For the store, dropping the [None] entries changes nothing:
    [update_task] ignores a [None] argument as it ignores an absent one. *)
Lemma call_update_task_drop_none (kwargs : dict value) (tasks : store) :
  is_dict kwargs -> none_only_at update_task_params kwargs ->
  call_update_task (drop_none kwargs) tasks = call_update_task kwargs tasks.
Proof.
  intros Hd Hn. unfold call_update_task.
  rewrite unexpected_keyword_drop_none by assumption.
  rewrite dict_get_code_drop_none by assumption.
  rewrite !optional_drop_none, !with_default_date_drop_none by assumption.
  reflexivity.
Qed.

Lemma dispatch_update_task_typed (repr : string -> string)
    (fromisoformat : string -> result date)
    (arguments : dict string) (tasks : store) :
  is_dict arguments ->
  dispatch_update_task repr fromisoformat arguments tasks
  = update_task_typed repr fromisoformat arguments tasks.
Proof.
  intros Hd. unfold dispatch_update_task, update_task_typed, coerce_date.
  rewrite !bind_lift, coerce_if_present_eq.
  destruct (enum_if_present (TaskType_call repr) (dict_get "type" arguments))
    as [e|ty] eqn:Ety; [reflexivity|].
  assert (Hty : ty = None -> dict_get "type" arguments = None)
    by (intros ->; exact (enum_if_present_none _ _ Ety)).
  destruct ty as [ty|]; rewrite !bind_lift, coerce_if_present_eq;
    (destruct (enum_if_present (TaskStatus_call repr) (dict_get "status" arguments))
       as [e|st] eqn:Est; [reflexivity|]);
    (assert (Hst : st = None -> dict_get "status" arguments = None)
       by (intros ->; exact (enum_if_present_none _ _ Est)));
    destruct st as [st|]; rewrite !bind_lift;
    (destruct (_parse_date fromisoformat (dict_get "start_date" arguments))
       as [e|sd];
       [reflexivity|]);
    rewrite !bind_lift;
    (destruct (_parse_date fromisoformat (dict_get "due_date" arguments))
       as [e|dd];
       [reflexivity|]);
    unfold bind at 1;
    (rewrite call_update_task_drop_none;
       [ | repeat apply is_dict_set; now apply is_dict_decoded
         | repeat (apply none_only_at_set; [reflexivity|]);
           apply none_only_at_decoded ]);
    unfold call_update_task; dict_gets;
    (destruct (first_unexpected update_task_params (dict_keys arguments));
       [reflexivity|]);
    (destruct (dict_get "code" arguments) as [c|]; [|reflexivity]);
    cbn [option_map arg_str]; unfold optional, with_default;
    rewrite !bind_lift; dict_gets;
    rewrite ?Hst, ?Hty by reflexivity;
    destruct (dict_get "title" arguments), (dict_get "description" arguments),
      sd, dd; reflexivity.
Qed.

Lemma dispatch_delete_task_typed (arguments : dict string) (tasks : store) :
  dispatch_delete_task arguments tasks = delete_task_typed arguments tasks.
Proof.
  unfold dispatch_delete_task, delete_task_typed, call_delete_task.
  unfold bind at 1. dict_gets.
  destruct (first_unexpected delete_task_params (dict_keys arguments));
    [reflexivity|].
  destruct (dict_get "code" arguments); reflexivity.
Qed.

(** ** Failure leaves the list alone *)

Lemma fails_clean_lift {A B} (r : result A) (k : A -> M B) :
  (forall a, fails_clean (k a)) -> fails_clean (bind (lift r) k).
Proof.
  intros Hk tasks e tasks'. rewrite bind_lift. destruct r as [e0|a].
  - intros H; inversion H; reflexivity.
  - apply Hk.
Qed.

Lemma fails_clean_raise {A} (e : exn) : fails_clean (@raise A e).
Proof. intros tasks e' tasks' H; inversion H; reflexivity. Qed.

Lemma fails_clean_then_ret {A B} (m : M A) (f : A -> B) :
  fails_clean m -> fails_clean (bind m (fun a => ret (f a))).
Proof.
  intros Hm tasks e tasks'. unfold bind, ret.
  destruct (m tasks) as [[e0|a] tasks1] eqn:E; intros H; inversion H; subst.
  exact (Hm _ _ _ E).
Qed.

Lemma fails_clean_add_task c t d ty sd dd st :
  fails_clean (add_task c t d ty sd dd st).
Proof. intros tasks e tasks' H; inversion H. Qed.

Lemma fails_clean_get_tasks lower st ty s : fails_clean (get_tasks lower st ty s).
Proof. intros tasks e tasks' H; inversion H. Qed.

Lemma fails_clean_update_task c t d ty sd dd st :
  fails_clean (update_task c t d ty sd dd st).
Proof.
  intros tasks e tasks'. unfold update_task.
  destruct (first_with_code c tasks 0) as [[i x]|]; intros H; inversion H.
  reflexivity.
Qed.

Lemma fails_clean_delete_task c : fails_clean (delete_task c).
Proof.
  intros tasks e tasks'. unfold delete_task.
  destruct (first_with_code c tasks 0) as [[i x]|]; intros H; inversion H.
  reflexivity.
Qed.

Ltac fails_clean_steps :=
  repeat first
    [ apply fails_clean_lift; intros ?
    | apply fails_clean_raise
    | apply fails_clean_then_ret
    | apply fails_clean_add_task
    | apply fails_clean_get_tasks
    | apply fails_clean_update_task
    | apply fails_clean_delete_task
    | match goal with
      | |- fails_clean (match ?x with _ => _ end) => destruct x
      end ].

Lemma fails_clean_dispatch (lower repr : string -> string)
    (fromisoformat : string -> result date) (name : string)
    (arguments : dict string) :
  is_dict arguments ->
  fails_clean (_dispatch lower repr fromisoformat name arguments).
Proof.
  intros Hd.
  assert (Hadd : fails_clean (add_task_typed repr fromisoformat arguments))
    by (unfold add_task_typed; fails_clean_steps).
  assert (Hget : fails_clean (get_tasks_typed lower repr arguments))
    by (unfold get_tasks_typed; fails_clean_steps).
  assert (Hupd : fails_clean (update_task_typed repr fromisoformat arguments))
    by (unfold update_task_typed; fails_clean_steps).
  assert (Hdel : fails_clean (delete_task_typed arguments))
    by (unfold delete_task_typed; fails_clean_steps).
  intros tasks e tasks'. unfold _dispatch.
  destruct (String.eqb name "add_task");
    [rewrite dispatch_add_task_typed; apply Hadd|].
  destruct (String.eqb name "get_tasks");
    [rewrite dispatch_get_tasks_typed; apply Hget|].
  destruct (String.eqb name "update_task");
    [rewrite dispatch_update_task_typed by assumption; apply Hupd|].
  destruct (String.eqb name "delete_task");
    [rewrite dispatch_delete_task_typed; apply Hdel|].
  apply fails_clean_raise.
Qed.

(** ** Dicts without a key *)

Lemma dict_get_remove_same {V} (k : string) (d : dict V) :
  dict_get k (dict_remove k d) = None.
Proof.
  unfold dict_remove. induction d as [|[k' v] rest IH]; simpl; [reflexivity|].
  destruct (String.eqb k' k) eqn:E; simpl; [exact IH|]. now rewrite E.
Qed.

Lemma dict_get_remove_other {V} (k k' : string) (d : dict V) :
  k' <> k -> dict_get k (dict_remove k' d) = dict_get k d.
Proof.
  intros Hne. unfold dict_remove.
  induction d as [|[k0 v] rest IH]; simpl; [reflexivity|].
  destruct (String.eqb k0 k') eqn:E; simpl.
  - apply String.eqb_eq in E; subst k0.
    apply String.eqb_neq in Hne. now rewrite Hne.
  - destruct (String.eqb k0 k); auto.
Qed.

Lemma first_unexpected_remove {V} (params : list string) (k : string)
    (d : dict V) :
  existsb (String.eqb k) params = true ->
  first_unexpected params (dict_keys (dict_remove k d))
  = first_unexpected params (dict_keys d).
Proof.
  intros Hk. unfold first_unexpected, dict_remove, dict_keys.
  induction d as [|[k' v] rest IH]; simpl; [reflexivity|].
  destruct (String.eqb k' k) eqn:E; simpl.
  - apply String.eqb_eq in E; subst k'. now rewrite Hk.
  - destruct (existsb (String.eqb k') params); simpl; auto.
Qed.

Lemma is_dict_remove {V} (k : string) (d : dict V) :
  is_dict d -> is_dict (dict_remove k d).
Proof.
  unfold is_dict, dict_remove, dict_keys.
  induction d as [|[k' v] rest IH]; simpl; intros H; [constructor|].
  inversion H; subst. destruct (negb (String.eqb k' k)); simpl; auto.
  constructor; auto. intros Hin. apply in_map_iff in Hin.
  destruct Hin as (kv & Hk & Hin). apply filter_In in Hin.
  match goal with Hn : ~ In _ _ |- _ => apply Hn end.
  rewrite <- Hk. apply in_map. tauto.
Qed.

Lemma add_task_typed_remove_empty (repr : string -> string)
    (fromisoformat : string -> result date) (key : string)
    (arguments : dict string) (tasks : store) :
  key = "start_date" \/ key = "due_date" ->
  dict_get key arguments = Some "" ->
  add_task_typed repr fromisoformat arguments tasks
  = add_task_typed repr fromisoformat (dict_remove key arguments) tasks.
Proof.
  intros [->| ->] Hg; unfold add_task_typed;
    rewrite first_unexpected_remove by reflexivity;
    rewrite dict_get_remove_same, Hg;
    rewrite !dict_get_remove_other by discriminate; reflexivity.
Qed.

Lemma update_task_typed_remove_empty (repr : string -> string)
    (fromisoformat : string -> result date) (key : string)
    (arguments : dict string) (tasks : store) :
  key = "start_date" \/ key = "due_date" ->
  dict_get key arguments = Some "" ->
  update_task_typed repr fromisoformat arguments tasks
  = update_task_typed repr fromisoformat (dict_remove key arguments) tasks.
Proof.
  intros [->| ->] Hg; unfold update_task_typed;
    rewrite first_unexpected_remove by reflexivity;
    rewrite dict_get_remove_same, Hg;
    rewrite !dict_get_remove_other by discriminate; reflexivity.
Qed.

(** ** Coercion failures *)

Lemma fromisoformat_raises_ValueError (repr : string -> string) (s : string)
    (e : exn) :
  fromisoformat_ymd repr s = inl e -> exists msg, e = ValueError msg.
Proof.
  unfold fromisoformat_ymd.
  destruct (Date.parse_isoformat_date s) as [[[y m] d]|].
  - destruct ((y <? Date.MINYEAR) || (Date.MAXYEAR <? y));
      [intros H; inversion H; eauto|].
    destruct ((m <? 1) || (12 <? m)); [intros H; inversion H; eauto|].
    destruct ((d <? 1) || (Date.days_in_month y m <? d));
      intros H; inversion H; eauto.
  - intros H; inversion H; eauto.
Qed.

Lemma stage_type (repr : string -> string)
    (fromisoformat : string -> result date) (arguments : dict string)
    (v : result TaskType) :
  v = enum_or_default (TaskType_call repr) TASK (dict_get "type" arguments)
  \/ (exists o, enum_if_present (TaskType_call repr) (dict_get "type" arguments)
                = match v with inl e => inl e | inr _ => inr o end) ->
  match v with
  | inl e => coercion_error repr fromisoformat arguments e
  | inr _ => forall s, dict_get "type" arguments = Some s ->
                       TaskType.of_value s <> None
  end.
Proof.
  unfold enum_or_default, enum_if_present, TaskType_call.
  destruct (dict_get "type" arguments) as [s|] eqn:Eg.
  - destruct (TaskType.of_value s) eqn:E.
    + intros [->|[o H]]; [intros s' H'; inversion H'; congruence|].
      destruct v; [discriminate|]. intros s' H'; inversion H'; congruence.
    + assert (Hc := bad_type repr fromisoformat arguments s Eg E).
      intros [->|[o H]]; [exact Hc|]. destruct v; inversion H; exact Hc.
  - intros [->|[o H]]; [discriminate|]. destruct v; [discriminate|discriminate].
Qed.

Lemma stage_status (repr : string -> string)
    (fromisoformat : string -> result date) (arguments : dict string)
    (v : result TaskStatus) :
  v = enum_or_default (TaskStatus_call repr) PENDING (dict_get "status" arguments)
  \/ (exists o, enum_if_present (TaskStatus_call repr)
                  (dict_get "status" arguments)
                = match v with inl e => inl e | inr _ => inr o end) ->
  match v with
  | inl e => coercion_error repr fromisoformat arguments e
  | inr _ => forall s, dict_get "status" arguments = Some s ->
                       TaskStatus.of_value s <> None
  end.
Proof.
  unfold enum_or_default, enum_if_present, TaskStatus_call.
  destruct (dict_get "status" arguments) as [s|] eqn:Eg.
  - destruct (TaskStatus.of_value s) eqn:E.
    + intros [->|[o H]]; [intros s' H'; inversion H'; congruence|].
      destruct v; [discriminate|]. intros s' H'; inversion H'; congruence.
    + assert (Hc := bad_status repr fromisoformat arguments s Eg E).
      intros [->|[o H]]; [exact Hc|]. destruct v; inversion H; exact Hc.
  - intros [->|[o H]]; [discriminate|]. destruct v; [discriminate|discriminate].
Qed.

Lemma stage_date (repr : string -> string)
    (fromisoformat : string -> result date) (arguments : dict string)
    (key : string) :
  key = "start_date" \/ key = "due_date" ->
  match _parse_date fromisoformat (dict_get key arguments) with
  | inl e => coercion_error repr fromisoformat arguments e
  | inr _ => forall s e, dict_get key arguments = Some s -> s <> "" ->
                         fromisoformat s <> inl e
  end.
Proof.
  intros Hkey. unfold _parse_date.
  destruct (dict_get key arguments) as [s|] eqn:Eg; [|discriminate].
  destruct (String.eqb s "") eqn:Es.
  - apply String.eqb_eq in Es. intros s' e H; inversion H; subst. congruence.
  - apply String.eqb_neq in Es.
    destruct (fromisoformat s) as [e|d] eqn:Ef.
    + now apply (bad_date repr fromisoformat arguments key s).
    + intros s' e H; inversion H; subst. rewrite Ef. discriminate.
Qed.

Ltac raise_stage H := eexists; split; [reflexivity|exact H].

Ltac dates_then_contradiction Hbad H1 H2 H3 H4 :=
  rewrite bind_lift;
  match goal with
  | |- context [_parse_date ?r (dict_get "start_date" ?a)] =>
      destruct (_parse_date r (dict_get "start_date" a)); [raise_stage H3|]
  end;
  rewrite bind_lift;
  match goal with
  | |- context [_parse_date ?r (dict_get "due_date" ?a)] =>
      destruct (_parse_date r (dict_get "due_date" a)); [raise_stage H4|]
  end;
  exfalso;
  let s := fresh "s" in
  let e := fresh "e" in
  let Hs := fresh "Hs" in
  let Hn := fresh "Hn" in
  let Hf := fresh "Hf" in
  destruct Hbad as [[(s & Hs & Hn)|(s & Hs & Hn)]|
                     (key & s & e & [->| ->] & Hs & Hn & Hf)];
  [ exact (H1 s Hs Hn) | exact (H2 s Hs Hn)
  | exact (H3 s e Hs Hn Hf) | exact (H4 s e Hs Hn Hf) ].

Lemma add_task_typed_rejects (repr : string -> string)
    (fromisoformat : string -> result date)
    (arguments : dict string) (tasks : store) :
  bad_arguments fromisoformat arguments ->
  exists e, add_task_typed repr fromisoformat arguments tasks = (inl e, tasks)
            /\ coercion_error repr fromisoformat arguments e.
Proof.
  intros Hbad. unfold add_task_typed.
  pose proof (stage_type repr fromisoformat arguments _ (or_introl eq_refl))
    as H1.
  pose proof (stage_status repr fromisoformat arguments _ (or_introl eq_refl))
    as H2.
  pose proof (stage_date repr fromisoformat arguments "start_date"
                (or_introl eq_refl)) as H3.
  pose proof (stage_date repr fromisoformat arguments "due_date"
                (or_intror eq_refl)) as H4.
  rewrite bind_lift.
  destruct (enum_or_default (TaskType_call repr) TASK (dict_get "type" arguments));
    [raise_stage H1|].
  rewrite bind_lift.
  destruct (enum_or_default (TaskStatus_call repr) PENDING
              (dict_get "status" arguments)); [raise_stage H2|].
  dates_then_contradiction Hbad H1 H2 H3 H4.
Qed.

Lemma update_task_typed_rejects (repr : string -> string)
    (fromisoformat : string -> result date)
    (arguments : dict string) (tasks : store) :
  bad_arguments fromisoformat arguments ->
  exists e, update_task_typed repr fromisoformat arguments tasks
            = (inl e, tasks)
            /\ coercion_error repr fromisoformat arguments e.
Proof.
  intros Hbad. unfold update_task_typed.
  pose proof (stage_date repr fromisoformat arguments "start_date"
                (or_introl eq_refl)) as H3.
  pose proof (stage_date repr fromisoformat arguments "due_date"
                (or_intror eq_refl)) as H4.
  rewrite bind_lift.
  destruct (enum_if_present (TaskType_call repr) (dict_get "type" arguments))
    as [e|ty] eqn:E1.
  { pose proof (stage_type repr fromisoformat arguments (inl e)
                  (or_intror (ex_intro _ None E1))) as H1. raise_stage H1. }
  pose proof (stage_type repr fromisoformat arguments (inr TASK)
                (or_intror (ex_intro _ ty E1))) as H1.
  rewrite bind_lift.
  destruct (enum_if_present (TaskStatus_call repr) (dict_get "status" arguments))
    as [e|st] eqn:E2.
  { pose proof (stage_status repr fromisoformat arguments (inl e)
                  (or_intror (ex_intro _ None E2))) as H2. raise_stage H2. }
  pose proof (stage_status repr fromisoformat arguments (inr PENDING)
                (or_intror (ex_intro _ st E2))) as H2.
  cbv beta iota in H1, H2.
  dates_then_contradiction Hbad H1 H2 H3 H4.
Qed.

Lemma get_tasks_typed_rejects (lower repr : string -> string)
    (fromisoformat : string -> result date)
    (arguments : dict string) (tasks : store) :
  invalid_enum arguments ->
  exists e, get_tasks_typed lower repr arguments tasks = (inl e, tasks)
            /\ coercion_error repr fromisoformat arguments e.
Proof.
  intros Hbad. unfold get_tasks_typed.
  rewrite bind_lift.
  destruct (enum_if_present (TaskStatus_call repr) (dict_get "status" arguments))
    as [e|st] eqn:E2.
  { pose proof (stage_status repr fromisoformat arguments (inl e)
                  (or_intror (ex_intro _ None E2))) as H2. raise_stage H2. }
  pose proof (stage_status repr fromisoformat arguments (inr PENDING)
                (or_intror (ex_intro _ st E2))) as H2.
  rewrite bind_lift.
  destruct (enum_if_present (TaskType_call repr) (dict_get "type" arguments))
    as [e|ty] eqn:E1.
  { pose proof (stage_type repr fromisoformat arguments (inl e)
                  (or_intror (ex_intro _ None E1))) as H1. raise_stage H1. }
  pose proof (stage_type repr fromisoformat arguments (inr TASK)
                (or_intror (ex_intro _ ty E1))) as H1.
  cbv beta iota in H1, H2. exfalso.
  destruct Hbad as [(s & Hs & Hn)|(s & Hs & Hn)];
    [exact (H1 s Hs Hn)|exact (H2 s Hs Hn)].
Qed.

(** A coercion error is a [ValueError] when the date parser raises no
    other exception. *)
Lemma coercion_error_ValueError (repr : string -> string)
    (fromisoformat : string -> result date) (arguments : dict string)
    (e : exn) :
  raises_ValueError fromisoformat ->
  coercion_error repr fromisoformat arguments e -> exists msg, e
  = ValueError msg.
Proof.
  intros Hr [s _ _|s _ _|key s e' _ _ _ Hf]; eauto.
Qed.

Lemma dispatch_names (lower repr : string -> string)
    (fromisoformat : string -> result date) (arguments : dict string) :
  _dispatch lower repr fromisoformat "add_task" arguments = dispatch_add_task
      repr fromisoformat arguments
  /\ _dispatch lower repr fromisoformat "get_tasks" arguments
     = dispatch_get_tasks lower repr arguments
  /\ _dispatch lower repr fromisoformat "update_task" arguments
     = dispatch_update_task repr fromisoformat arguments
  /\ _dispatch lower repr fromisoformat "delete_task" arguments
     = dispatch_delete_task arguments.
Proof. repeat split. Qed.

Lemma dispatch_remove_empty (lower repr : string -> string)
    (fromisoformat : string -> result date) (name key : string)
    (arguments : dict string) (tasks : store) :
  name = "add_task" \/ name = "update_task" ->
  key = "start_date" \/ key = "due_date" ->
  is_dict arguments ->
  dict_get key arguments = Some "" ->
  _dispatch lower repr fromisoformat name arguments tasks
  = _dispatch lower repr fromisoformat name (dict_remove key arguments) tasks.
Proof.
  intros Hname Hkey Hd Hg.
  destruct (dispatch_names lower repr fromisoformat arguments)
    as (Ha & _ & Hu & _).
  destruct (dispatch_names lower repr fromisoformat (dict_remove key arguments))
    as (Ha' & _ & Hu' & _).
  destruct Hname as [->| ->].
  - rewrite Ha, Ha', !dispatch_add_task_typed.
    now apply add_task_typed_remove_empty.
  - rewrite Hu, Hu', !dispatch_update_task_typed
      by (try apply is_dict_remove; assumption).
    now apply update_task_typed_remove_empty.
Qed.

(** C4, as the code has it, for whatever [date.fromisoformat] the running
    Python has.  Whenever a dispatched call raises, the task list is what
    it was before the call.  When [add_task] or [update_task] is given a
    [type] or [status] outside the enum or a non-empty date string that
    [date.fromisoformat] rejects, and when [get_tasks] is given a [type] or
    [status] outside the enum, the call raises the exception of a failed
    coercion and stores nothing: the [ValueError] of the enum constructor,
    or the exception [date.fromisoformat] raised on the string, which is a
    [ValueError] as well when the parser raises nothing else.  The empty
    date string is not rejected: [_parse_date] reads it as [None], and
    [add_task] and [update_task] do with it what they do without the
    key. *)
Theorem coercion_failure_rejects_call (lower repr : string -> string)
    (fromisoformat : string -> result date)
    (name : string) (arguments : dict string) (tasks : store) :
  is_dict arguments ->
  (forall e tasks',
      _dispatch lower repr fromisoformat name arguments tasks
      = (inl e, tasks') ->
      tasks' = tasks)
  /\ ((name = "add_task" \/ name = "update_task")
      /\ bad_arguments fromisoformat arguments
      \/ name = "get_tasks" /\ invalid_enum arguments ->
      exists e,
        _dispatch lower repr fromisoformat name arguments tasks = (inl e, tasks)
        /\ coercion_error repr fromisoformat arguments e
        /\ (raises_ValueError fromisoformat -> exists msg, e = ValueError msg))
  /\ (forall key,
        name = "add_task" \/ name = "update_task" ->
        key = "start_date" \/ key = "due_date" ->
        dict_get key arguments = Some "" ->
        _parse_date fromisoformat (dict_get key arguments) = inr None
        /\ _dispatch lower repr fromisoformat name arguments tasks
           = _dispatch lower repr fromisoformat name (dict_remove key arguments)
               tasks).
Proof.
  intros Hd. split; [|split].
  - intros e tasks'. apply fails_clean_dispatch; assumption.
  - destruct (dispatch_names lower repr fromisoformat arguments)
      as (Ha & Hg & Hu & _).
    assert (Hgoal : forall m : M json,
               (exists e, m tasks = (inl e, tasks)
                          /\ coercion_error repr fromisoformat arguments e) ->
               exists e, m tasks = (inl e, tasks)
                         /\ coercion_error repr fromisoformat arguments e
                         /\ (raises_ValueError fromisoformat ->
                             exists msg, e = ValueError msg)).
    { intros m (e & Hm & Hc). exists e. repeat split; auto.
      intros Hr. exact (coercion_error_ValueError _ _ _ _ Hr Hc). }
    intros [[[->| ->] Hbad]|[-> Hbad]]; apply Hgoal.
    + rewrite Ha, dispatch_add_task_typed. now apply add_task_typed_rejects.
    + rewrite Hu, dispatch_update_task_typed by assumption.
      now apply update_task_typed_rejects.
    + rewrite Hg, dispatch_get_tasks_typed. now apply get_tasks_typed_rejects.
  - intros key Hname Hkey Hg. split; [now rewrite Hg|].
    now apply dispatch_remove_empty.
Qed.

(** ** add_task through the dispatcher *)

(** C3, as the code has it.  For an [add_task] call whose keys are
    parameters of the service function, with [code] and [title] present, a
    [status] that is absent or in the enum and dates that parse: when
    [type] is absent the call creates a task of type [task], when [type] is
    a value of the enum it creates a task of that type, and in both cases
    it appends the task through the store's [add_task] and returns its
    field map; when [type] is a string outside the enum the call raises
    [ValueError] and the list is unchanged.  An absent [status] is
    [pending], an absent date is [None]. *)
Theorem add_task_dispatch_defaults (lower repr : string -> string)
    (fromisoformat : string -> result date)
    (arguments : dict string) (tasks : store) (c ti : string)
    (st : TaskStatus) (sd dd : option date) :
  keys_within add_task_params arguments = true ->
  dict_get "code" arguments = Some c ->
  dict_get "title" arguments = Some ti ->
  enum_or_default (TaskStatus_call repr) PENDING (dict_get "status" arguments)
  = inr st ->
  _parse_date fromisoformat (dict_get "start_date" arguments) = inr sd ->
  _parse_date fromisoformat (dict_get "due_date" arguments) = inr dd ->
  let created ty :=
    Task.mk c ti (str_or_empty (dict_get "description" arguments)) ty sd dd st in
  match dict_get "type" arguments with
  | None =>
      _dispatch lower repr fromisoformat "add_task" arguments tasks
      = (inr (to_dict (created TASK)), (tasks ++ [created TASK])%list)
  | Some s =>
      match TaskType.of_value s with
      | Some ty =>
          _dispatch lower repr fromisoformat "add_task" arguments tasks
          = (inr (to_dict (created ty)), (tasks ++ [created ty])%list)
      | None =>
          _dispatch lower repr fromisoformat "add_task" arguments tasks
          = (inl (ValueError (repr s ++ " is not a valid TaskType")), tasks)
      end
  end
  /\ (forall ty, add_task c ti (str_or_empty (dict_get "description" arguments))
                   ty sd dd st tasks
                 = (inr (created ty), (tasks ++ [created ty])%list))
  /\ (dict_get "status" arguments = None -> st = PENDING)
  /\ (dict_get "start_date" arguments = None -> sd = None)
  /\ (dict_get "due_date" arguments = None -> dd = None).
Proof.
  intros Hk Hc Ht Hst Hsd Hdd created.
  apply first_unexpected_none in Hk.
  destruct (dispatch_names lower repr fromisoformat arguments) as (Ha & _).
  rewrite Ha, dispatch_add_task_typed. unfold add_task_typed.
  repeat split.
  - rewrite Hst, Hsd, Hdd, Hk, Hc, Ht.
    destruct (dict_get "type" arguments) as [s|]; cbn [enum_or_default];
      [unfold TaskType_call; destruct (TaskType.of_value s) as [ty|]|];
      reflexivity.
  - intros E. rewrite E in Hst. now inversion Hst.
  - intros E. rewrite E in Hsd. now inversion Hsd.
  - intros E. rewrite E in Hdd. now inversion Hdd.
Qed.

(** ** update_task *)

Lemma update_task_inr c ti de ty sd dd st (tasks tasks' : store) (t' : Task) :
  update_task c ti de ty sd dd st tasks = (inr t', tasks') ->
  exists before t after,
    tasks = (before ++ t :: after)%list /\
    Forall (fun x => Task.code x <> c) before /\ Task.code t = c /\
    t' = apply_update ti de ty sd dd st t /\
    tasks' = (before ++ t' :: after)%list.
Proof.
  unfold update_task.
  destruct (first_with_code c tasks 0) as [[i t]|] eqn:E; [|discriminate].
  intros H; inversion H; subst; clear H.
  destruct (first_with_code_some _ _ _ _ _ E) as (before & after & -> & Hb & Hc & ->).
  exists before, t, after. simpl. rewrite store_at_middle. auto.
Qed.

Lemma apply_update_fields ti de ty sd dd st (t : Task) :
  let t' := apply_update ti de ty sd dd st t in
  Task.code t' = Task.code t
  /\ Task.title t' = match ti with Some v => v | None => Task.title t end
  /\ Task.description t'
     = match de with Some v => v | None => Task.description t end
  /\ Task.type t' = match ty with Some v => v | None => Task.type t end
  /\ Task.start_date t'
     = match sd with Some v => Some v | None => Task.start_date t end
  /\ Task.due_date t'
     = match dd with Some v => Some v | None => Task.due_date t end
  /\ Task.status t' = match st with Some v => v | None => Task.status t end.
Proof. destruct ti, de, ty, sd, dd, st; repeat split. Qed.

Lemma enum_if_present_absent {A} (coerce : string -> result A)
    (v : option string) (o : option A) :
  enum_if_present coerce v = inr o -> v = None -> o = None.
Proof. intros H ->. now inversion H. Qed.

Lemma parse_date_absent_or_empty (fromisoformat : string -> result date)
    (v : option string)
    (d : option date) :
  _parse_date fromisoformat v = inr d -> v = None \/ v = Some "" -> d = None.
Proof. intros H [->| ->]; now inversion H. Qed.

(** The [None] entries are gone from the dict handed to the store, [code]
    apart. *)
Lemma drop_none_no_none (kwargs : dict value) (k : string) :
  dict_get k (drop_none kwargs) = Some VNone -> k = "code".
Proof.
  unfold drop_none. induction kwargs as [|[k' v] rest IH]; simpl; [discriminate|].
  destruct (negb (is_none v) || String.eqb k' "code") eqn:Ek; simpl; [|exact IH].
  destruct (String.eqb k' k) eqn:E; [|exact IH].
  intros H; inversion H; subst. simpl in Ek.
  apply String.eqb_eq in E, Ek. congruence.
Qed.

(** What a successful [update_task] call through the dispatcher does. *)
Lemma dispatch_update_task_inr (lower repr : string -> string)
    (fromisoformat : string -> result date)
    (arguments : dict string) (tasks tasks' : store) (r : json) :
  is_dict arguments ->
  _dispatch lower repr fromisoformat "update_task" arguments tasks
  = (inr r, tasks') ->
  exists c ty st sd dd t',
    dict_get "code" arguments = Some c /\
    enum_if_present (TaskType_call repr) (dict_get "type" arguments) = inr ty /\
    enum_if_present (TaskStatus_call repr) (dict_get "status" arguments)
    = inr st /\
    _parse_date fromisoformat (dict_get "start_date" arguments) = inr sd /\
    _parse_date fromisoformat (dict_get "due_date" arguments) = inr dd /\
    update_task c (dict_get "title" arguments)
      (dict_get "description" arguments) ty sd dd st tasks = (inr t', tasks') /\
    r = to_dict t'.
Proof.
  intros Hd.
  destruct (dispatch_names lower repr fromisoformat arguments) as (_ & _ & Hu &
      _).
  rewrite Hu, dispatch_update_task_typed by assumption.
  unfold update_task_typed. rewrite bind_lift.
  destruct (enum_if_present (TaskType_call repr) (dict_get "type" arguments))
    as [e|ty]; [discriminate|].
  rewrite bind_lift.
  destruct (enum_if_present (TaskStatus_call repr) (dict_get "status" arguments))
    as [e|st]; [discriminate|].
  rewrite bind_lift.
  destruct (_parse_date fromisoformat (dict_get "start_date" arguments))
    as [e|sd];
    [discriminate|].
  rewrite bind_lift.
  destruct (_parse_date fromisoformat (dict_get "due_date" arguments))
    as [e|dd];
    [discriminate|].
  destruct (first_unexpected update_task_params (dict_keys arguments));
    [discriminate|].
  destruct (dict_get "code" arguments) as [c|]; [|discriminate].
  unfold bind, ret.
  destruct (update_task c (dict_get "title" arguments)
              (dict_get "description" arguments) ty sd dd st tasks)
    as [[e|t'] tasks1] eqn:E; [discriminate|].
  intros H; inversion H; subst.
  exists c, ty, st, sd, dd, t'. repeat split; auto.
Qed.

(** The effect of a successful [update_task] call through the dispatcher:
    one task changes, the first with the given code, and only in the
    fields that were supplied. *)
Lemma update_task_dispatch_effect (lower repr : string -> string)
    (fromisoformat : string -> result date)
    (arguments : dict string) (tasks tasks' : store) (r : json) :
  is_dict arguments ->
  _dispatch lower repr fromisoformat "update_task" arguments tasks
  = (inr r, tasks') ->
  exists before t after t',
    tasks = (before ++ t :: after)%list /\
    tasks' = (before ++ t' :: after)%list /\
    Forall (fun x => Task.code x <> Task.code t) before /\
    dict_get "code" arguments = Some (Task.code t) /\
    r = to_dict t' /\
    Task.code t' = Task.code t /\
    Task.title t'
    = match dict_get "title" arguments with
      | Some v => v
      | None => Task.title t
      end /\
    Task.description t'
    = match dict_get "description" arguments with
      | Some v => v
      | None => Task.description t
      end /\
    (dict_get "type" arguments = None -> Task.type t' = Task.type t) /\
    (dict_get "status" arguments = None -> Task.status t' = Task.status t) /\
    (forall key, key = "start_date" \/ key = "due_date" ->
       (dict_get key arguments = None \/ dict_get key arguments = Some "" ->
        date_under key t' = date_under key t)
       /\ (date_under key t <> None -> date_under key t' <> None)).
Proof.
  intros Hd H.
  destruct (dispatch_update_task_inr _ _ _ _ _ _ _ Hd H)
    as (c & ty & st & sd & dd & t' & Hc & Hty & Hst & Hsd & Hdd & Hup & ->).
  destruct (update_task_inr _ _ _ _ _ _ _ _ _ _ Hup)
    as (before & t & after & -> & Hb & <- & -> & ->).
  exists before, t, after, (apply_update (dict_get "title" arguments)
                              (dict_get "description" arguments) ty sd dd st t).
  destruct (apply_update_fields (dict_get "title" arguments)
              (dict_get "description" arguments) ty sd dd st t)
    as (F1 & F2 & F3 & F4 & F5 & F6 & F7).
  repeat split; auto.
  - intros E. rewrite F4, (enum_if_present_absent _ _ _ Hty E). reflexivity.
  - intros E. rewrite F7, (enum_if_present_absent _ _ _ Hst E). reflexivity.
  - destruct H0 as [->| ->]; intros E; unfold date_under; simpl.
    + rewrite F5, (parse_date_absent_or_empty _ _ _ Hsd E). reflexivity.
    + rewrite F6, (parse_date_absent_or_empty _ _ _ Hdd E). reflexivity.
  - destruct H0 as [->| ->]; unfold date_under; simpl.
    + rewrite F5. destruct sd; [discriminate|auto].
    + rewrite F6. destruct dd; [discriminate|auto].
Qed.

(** C2, as the code has it.  The dict that the [update_task] branch hands
    to the store holds no [None] except possibly under [code], and under
    [code] it holds what the dict held before the filter.  A successful
    call changes one task, the first with the given code, and
    leaves the others and the order alone; in that task the code is kept,
    [title] and [description] become the supplied strings (the empty
    string included) and stay when not supplied, [type] and [status] stay
    when not supplied, a date stays when its argument is absent or the
    empty string, and a date that was set is still set afterwards: no call
    sets a date to [None]. *)
Theorem update_task_dispatch_partial (lower repr : string -> string)
    (fromisoformat : string -> result date)
    (arguments : dict string) (tasks tasks' : store) (r : json) :
  is_dict arguments ->
  _dispatch lower repr fromisoformat "update_task" arguments tasks
  = (inr r, tasks') ->
  (forall kwargs k, dict_get k (drop_none kwargs) = Some VNone -> k = "code")
  /\ (forall kwargs, is_dict kwargs ->
        dict_get "code" (drop_none kwargs) = dict_get "code" kwargs)
  /\ exists before t after t',
      tasks = (before ++ t :: after)%list /\
      tasks' = (before ++ t' :: after)%list /\
      Forall (fun x => Task.code x <> Task.code t) before /\
      dict_get "code" arguments = Some (Task.code t) /\
      r = to_dict t' /\
      Task.code t' = Task.code t /\
      Task.title t'
      = match dict_get "title" arguments with
        | Some v => v
        | None => Task.title t
        end /\
      Task.description t'
      = match dict_get "description" arguments with
        | Some v => v
        | None => Task.description t
        end /\
      (dict_get "type" arguments = None -> Task.type t' = Task.type t) /\
      (dict_get "status" arguments = None -> Task.status t' = Task.status t) /\
      (forall key, key = "start_date" \/ key = "due_date" ->
         (dict_get key arguments = None \/ dict_get key arguments = Some "" ->
          date_under key t' = date_under key t)
         /\ (date_under key t <> None -> date_under key t' <> None)).
Proof.
  intros Hd H. split; [exact drop_none_no_none|].
  split; [exact dict_get_code_drop_none|].
  exact (update_task_dispatch_effect lower repr fromisoformat arguments tasks
      tasks' r Hd H).
Qed.

(** ** The empty date string *)

Lemma dispatch_add_task_inr (lower repr : string -> string)
    (fromisoformat : string -> result date)
    (arguments : dict string) (tasks tasks' : store) (r : json) :
  _dispatch lower repr fromisoformat "add_task" arguments tasks
  = (inr r, tasks') ->
  exists c ti ty st sd dd,
    dict_get "code" arguments = Some c /\
    dict_get "title" arguments = Some ti /\
    _parse_date fromisoformat (dict_get "start_date" arguments) = inr sd /\
    _parse_date fromisoformat (dict_get "due_date" arguments) = inr dd /\
    let task := Task.mk c ti (str_or_empty (dict_get "description" arguments))
                  ty sd dd st in
    r = to_dict task /\ tasks' = (tasks ++ [task])%list.
Proof.
  destruct (dispatch_names lower repr fromisoformat arguments) as (Ha & _).
  rewrite Ha, dispatch_add_task_typed. unfold add_task_typed.
  rewrite bind_lift.
  destruct (enum_or_default (TaskType_call repr) TASK (dict_get "type" arguments))
    as [e|ty]; [discriminate|].
  rewrite bind_lift.
  destruct (enum_or_default (TaskStatus_call repr) PENDING
              (dict_get "status" arguments)) as [e|st]; [discriminate|].
  rewrite bind_lift.
  destruct (_parse_date fromisoformat (dict_get "start_date" arguments))
    as [e|sd];
    [discriminate|].
  rewrite bind_lift.
  destruct (_parse_date fromisoformat (dict_get "due_date" arguments))
    as [e|dd];
    [discriminate|].
  destruct (first_unexpected add_task_params (dict_keys arguments));
    [discriminate|].
  destruct (dict_get "code" arguments) as [c|],
           (dict_get "title" arguments) as [ti|]; try discriminate.
  intros H; inversion H; subst.
  exists c, ti, ty, st, sd, dd. repeat split; reflexivity.
Qed.

Lemma map_date_under_middle (key : string) (before after : list Task)
    (t t' : Task) :
  date_under key t' = date_under key t ->
  map (date_under key) (before ++ t' :: after)
  = map (date_under key) (before ++ t :: after).
Proof. intros H. rewrite !map_app. simpl. now rewrite H. Qed.

(** C10.  [_parse_date] returns [None] for an absent argument and for the
    empty string.  An [add_task] or [update_task] call that carries the
    empty string under [start_date] or [due_date] does exactly what the
    same call without that key does, so the empty string is never rejected
    as a malformed date; when such an [add_task] call succeeds the task it
    appends has that date unset, and when such an [update_task] call
    succeeds that date of every stored task is what it was. *)
Theorem empty_date_string_is_absent (lower repr : string -> string)
    (fromisoformat : string -> result date)
    (name key : string) (arguments : dict string) (tasks : store) :
  name = "add_task" \/ name = "update_task" ->
  key = "start_date" \/ key = "due_date" ->
  is_dict arguments ->
  dict_get key arguments = Some "" ->
  _parse_date fromisoformat None = inr None
  /\ _parse_date fromisoformat (Some "") = inr None
  /\ _dispatch lower repr fromisoformat name arguments tasks
     = _dispatch lower repr fromisoformat name (dict_remove key arguments) tasks
  /\ (forall r tasks',
        _dispatch lower repr fromisoformat name arguments tasks
        = (inr r, tasks') ->
        (name = "add_task" ->
         exists task, tasks' = (tasks ++ [task])%list /\ r = to_dict task
                      /\ date_under key task = None)
        /\ (name = "update_task" ->
            map (date_under key) tasks' = map (date_under key) tasks)).
Proof.
  intros Hname Hkey Hd Hg.
  split; [reflexivity|]. split; [reflexivity|]. split.
  - now apply dispatch_remove_empty.
  - intros r tasks' H. split; intros ->.
    + destruct (dispatch_add_task_inr _ _ _ _ _ _ _ H)
        as (c & ti & ty & st & sd & dd & _ & _ & Hsd & Hdd & -> & ->).
      eexists; split; [reflexivity|]. split; [reflexivity|].
      destruct Hkey as [->| ->]; unfold date_under; simpl.
      * exact (parse_date_absent_or_empty _ _ _ Hsd (or_intror Hg)).
      * exact (parse_date_absent_or_empty _ _ _ Hdd (or_intror Hg)).
    + destruct (update_task_dispatch_effect lower repr fromisoformat arguments
        tasks
                  tasks' r Hd H)
        as (before & t & after & t' & -> & -> & _ & _ & _ & _ & _ & _ & _ & _ & E).
      apply map_date_under_middle. apply (E key Hkey). now right.
Qed.

(** ** Unknown codes *)

Lemma update_task_not_found c ti de ty sd dd st (tasks : store) :
  Forall (fun t => Task.code t <> c) tasks ->
  update_task c ti de ty sd dd st tasks = (inl (not_found c), tasks).
Proof.
  intros H. unfold update_task.
  now rewrite (proj2 (first_with_code_none c tasks 0) H).
Qed.

Lemma delete_task_not_found c (tasks : store) :
  Forall (fun t => Task.code t <> c) tasks ->
  delete_task c tasks = (inl (not_found c), tasks).
Proof.
  intros H. unfold delete_task.
  now rewrite (proj2 (first_with_code_none c tasks 0) H).
Qed.

(** C5.  When no stored task has code [c], [update_task] and
    [delete_task] raise [ValueError("No task found with code 'c'")] and the
    list is what it was; a tool call [update_task] whose payload decodes to
    [{"code": c}] does not raise out of the loop: the loop appends the tool
    message carrying [{"error": "No task found with code 'c'"}], keyed by
    the call's identifier, and the list is what it was. *)
Theorem unknown_code_not_found (lower repr : string -> string)
    (fromisoformat : string -> result date)
    (json_loads : string -> result (dict string)) (json_dumps : json -> string)
    (c : string) (tasks : store) (ti de : option string)
    (ty : option TaskType) (sd dd : option date) (st : option TaskStatus)
    (tool_call : ToolCall.t) (messages : list message) :
  Forall (fun t => Task.code t <> c) tasks ->
  Function.name (ToolCall.function tool_call) = "update_task" ->
  json_loads (Function.arguments (ToolCall.function tool_call))
  = inr [("code", c)] ->
  update_task c ti de ty sd dd st tasks
  = (inl (ValueError ("No task found with code '" ++ c ++ "'")), tasks)
  /\ delete_task c tasks
     = (inl (ValueError ("No task found with code '" ++ c ++ "'")), tasks)
  /\ run_tool_call lower repr fromisoformat json_loads json_dumps tool_call
       messages tasks
     = (inr (messages
             ++ [ToolMessage (ToolCall.id tool_call)
                   (json_dumps
                      (JObj [("error",
                              JStr ("No task found with code '" ++ c ++ "'"))]))])%list,
        tasks).
Proof.
  intros Hno Hname Hloads. split; [|split].
  - now apply update_task_not_found.
  - now apply delete_task_not_found.
  - unfold run_tool_call. rewrite bind_lift, Hloads, Hname.
    destruct (dispatch_names lower repr fromisoformat [("code", c)]) as (_ & _ &
        Hu & _).
    unfold bind, try_except.
    rewrite Hu, dispatch_update_task_typed
      by (repeat constructor; simpl; tauto).
    unfold update_task_typed.
    cbn [dict_get dict_keys map fst String.eqb Ascii.eqb Bool.eqb
         enum_if_present _parse_date first_unexpected find existsb negb orb
         update_task_params].
    rewrite !bind_lift. unfold bind.
    rewrite update_task_not_found by assumption.
    reflexivity.
Qed.

Lemma dict_get_some_in {V} (k : string) (v : V) (d : dict V) :
  dict_get k d = Some v -> In (k, v) d.
Proof.
  induction d as [|[k' v'] rest IH]; simpl; [discriminate|].
  destruct (String.eqb k' k) eqn:E.
  - apply String.eqb_eq in E. intros H; inversion H; subst. now left.
  - intros H. right. now apply IH.
Qed.

Lemma first_unexpected_some (params keys : list string) (k : string) :
  In k keys -> ~ In k params -> first_unexpected params keys <> None.
Proof.
  intros Hin Hnot Hnone. apply first_unexpected_none in Hnone.
  rewrite forallb_forall in Hnone. specialize (Hnone k Hin).
  apply existsb_exists in Hnone. destruct Hnone as (x & Hx & E).
  apply String.eqb_eq in E. subst. contradiction.
Qed.

Lemma delete_task_inr (c : string) (tasks tasks' : store) (t : Task) :
  delete_task c tasks = (inr t, tasks') ->
  exists before after,
    tasks = (before ++ t :: after)%list /\ tasks' = (before ++ after)%list
    /\ Forall (fun x => Task.code x <> c) before /\ Task.code t = c.
Proof.
  unfold delete_task.
  destruct (first_with_code c tasks 0) as [[i x]|] eqn:E; [|discriminate].
  intros H; inversion H; subst; clear H.
  destruct (first_with_code_some _ _ _ _ _ E) as (before & after & -> & Hb & Hc & ->).
  exists before, after. simpl. rewrite pop_middle. auto.
Qed.

Lemma dispatch_delete_task_inr (lower repr : string -> string)
    (fromisoformat : string -> result date)
    (arguments : dict string) (tasks tasks' : store) (r : json) :
  _dispatch lower repr fromisoformat "delete_task" arguments tasks
  = (inr r, tasks') ->
  exists c t, dict_get "code" arguments = Some c
              /\ delete_task c tasks = (inr t, tasks') /\ r = to_dict t.
Proof.
  destruct (dispatch_names lower repr fromisoformat arguments) as (_ & _ & _ &
      Hd).
  rewrite Hd, dispatch_delete_task_typed. unfold delete_task_typed.
  destruct (first_unexpected delete_task_params (dict_keys arguments));
    [discriminate|].
  destruct (dict_get "code" arguments) as [c|]; [|discriminate].
  unfold bind, ret.
  destruct (delete_task c tasks) as [[e|t] tasks1] eqn:E; [discriminate|].
  intros H; inversion H; subst. eauto.
Qed.

Lemma dispatch_inr_name (lower repr : string -> string)
    (fromisoformat : string -> result date) (name : string)
    (arguments : dict string) (tasks tasks' : store) (r : json) :
  _dispatch lower repr fromisoformat name arguments tasks = (inr r, tasks') ->
  name = "add_task" \/ name = "get_tasks" \/ name = "update_task"
  \/ name = "delete_task".
Proof.
  unfold _dispatch.
  destruct (String.eqb name "add_task") eqn:E1;
    [apply String.eqb_eq in E1; auto|].
  destruct (String.eqb name "get_tasks") eqn:E2;
    [apply String.eqb_eq in E2; auto|].
  destruct (String.eqb name "update_task") eqn:E3;
    [apply String.eqb_eq in E3; auto|].
  destruct (String.eqb name "delete_task") eqn:E4;
    [apply String.eqb_eq in E4; auto|].
  discriminate.
Qed.

(** ** Invariants of the store *)

Lemma enums_closed_all (t : Task) : enums_closed t.
Proof.
  unfold enums_closed.
  destruct (Task.type t), (Task.status t); simpl; tauto.
Qed.

Lemma run_op_named (lower : string -> string) (op : store_op) (tasks : store) :
  supplies_names op -> Forall named tasks -> Forall named (run_op lower op tasks).
Proof.
  intros Hop Hn. destruct op as [c t d ty sd dd st|st ty s|c t d ty sd dd st|c];
    simpl in *.
  - apply Forall_app. split; [assumption|].
    constructor; [|constructor]. exact Hop.
  - assumption.
  - destruct (update_task c t d ty sd dd st tasks) as [[e|t'] tasks'] eqn:E.
    + now rewrite (fails_clean_update_task _ _ _ _ _ _ _ _ _ _ E).
    + destruct (update_task_inr _ _ _ _ _ _ _ _ _ _ E)
        as (before & x & after & -> & _ & _ & -> & ->).
      simpl. apply Forall_app in Hn. destruct Hn as [Hb Ha].
      inversion Ha as [|? ? [Hx1 Hx2] Ha']; subst.
      apply Forall_app. split; [assumption|]. constructor; [|assumption].
      destruct (apply_update_fields t d ty sd dd st x) as (F1 & F2 & _).
      split; [now rewrite F1|]. rewrite F2. destruct t; assumption.
  - unfold delete_task.
    destruct (first_with_code c tasks 0) as [[i x]|] eqn:E; simpl; [|assumption].
    destruct (first_with_code_some _ _ _ _ _ E) as (before & after & -> & _ & _ & ->).
    simpl. rewrite pop_middle. apply Forall_app in Hn. destruct Hn as [Hb Ha].
    inversion Ha; subst. apply Forall_app. tauto.
Qed.

Lemma TaskType_call_inr (repr : string -> string) (s : string)
    (t : TaskType) :
  TaskType_call repr s = inr t ->
  TaskType.value t = s /\ In s ["bug"; "feature"; "improvement"; "task"].
Proof.
  unfold TaskType_call. destruct (TaskType.of_value s) as [t'|] eqn:E;
    [|discriminate].
  intros H; inversion H; subst. apply TaskType_of_value_inv in E. subst s.
  split; [reflexivity|]. destruct t; simpl; tauto.
Qed.

Lemma TaskStatus_call_inr (repr : string -> string) (s : string)
    (t : TaskStatus) :
  TaskStatus_call repr s = inr t ->
  TaskStatus.value t = s
  /\ In s ["pending"; "in_progress"; "done"; "cancelled"].
Proof.
  unfold TaskStatus_call. destruct (TaskStatus.of_value s) as [t'|] eqn:E;
    [|discriminate].
  intros H; inversion H; subst. apply TaskStatus_of_value_inv in E. subst s.
  split; [reflexivity|]. destruct t; simpl; tauto.
Qed.

(** The task a successful [add_task] call appends has the type and the
    status that the enum constructors made of the arguments. *)
Lemma dispatch_add_task_enums (lower repr : string -> string)
    (fromisoformat : string -> result date)
    (arguments : dict string) (tasks tasks' : store) (r : json) :
  _dispatch lower repr fromisoformat "add_task" arguments tasks
  = (inr r, tasks') ->
  exists task,
    r = to_dict task /\ tasks' = (tasks ++ [task])%list
    /\ enum_or_default (TaskType_call repr) TASK (dict_get "type" arguments)
       = inr (Task.type task)
    /\ enum_or_default (TaskStatus_call repr) PENDING
         (dict_get "status" arguments) = inr (Task.status task).
Proof.
  destruct (dispatch_names lower repr fromisoformat arguments) as (Ha & _).
  rewrite Ha, dispatch_add_task_typed. unfold add_task_typed.
  rewrite bind_lift.
  destruct (enum_or_default (TaskType_call repr) TASK (dict_get "type" arguments))
    as [e|ty]; [discriminate|].
  rewrite bind_lift.
  destruct (enum_or_default (TaskStatus_call repr) PENDING
              (dict_get "status" arguments)) as [e|st]; [discriminate|].
  rewrite bind_lift.
  destruct (_parse_date fromisoformat (dict_get "start_date" arguments))
    as [e|sd]; [discriminate|].
  rewrite bind_lift.
  destruct (_parse_date fromisoformat (dict_get "due_date" arguments))
    as [e|dd]; [discriminate|].
  destruct (first_unexpected add_task_params (dict_keys arguments));
    [discriminate|].
  destruct (dict_get "code" arguments) as [c|],
           (dict_get "title" arguments) as [ti|]; try discriminate.
  intros H; inversion H; subst.
  eexists. repeat split; reflexivity.
Qed.

(** A successful [get_tasks] call was given no [type] or [status] that the
    enum constructors refuse. *)
Lemma dispatch_get_tasks_enums (lower repr : string -> string)
    (fromisoformat : string -> result date)
    (arguments : dict string) (tasks tasks' : store) (r : json) :
  _dispatch lower repr fromisoformat "get_tasks" arguments tasks
  = (inr r, tasks') ->
  (exists ty, enum_if_present (TaskType_call repr) (dict_get "type" arguments)
              = inr ty)
  /\ (exists st, enum_if_present (TaskStatus_call repr)
                   (dict_get "status" arguments) = inr st).
Proof.
  destruct (dispatch_names lower repr fromisoformat arguments) as (_ & Hg & _).
  rewrite Hg, dispatch_get_tasks_typed. unfold get_tasks_typed.
  rewrite bind_lift.
  destruct (enum_if_present (TaskStatus_call repr) (dict_get "status" arguments))
    as [e|st]; [discriminate|].
  rewrite bind_lift.
  destruct (enum_if_present (TaskType_call repr) (dict_get "type" arguments))
    as [e|ty]; [discriminate|].
  eauto.
Qed.

Lemma enum_if_present_supplied {A} (coerce : string -> result A)
    (v : option string) (o : option A) (s : string) :
  enum_if_present coerce v = inr o -> v = Some s ->
  exists a, coerce s = inr a /\ o = Some a.
Proof.
  intros H ->. unfold enum_if_present in H.
  destruct (coerce s) as [e|a]; [discriminate|]. inversion H; eauto.
Qed.

(** A [type] or [status] outside its enum stops the call at the enum
    constructor, whatever the other arguments are. *)
Lemma dispatch_invalid_enum (lower repr : string -> string)
    (fromisoformat : string -> result date) (name : string)
    (arguments : dict string) (tasks : store) :
  is_dict arguments ->
  name = "add_task" \/ name = "get_tasks" \/ name = "update_task" ->
  invalid_enum arguments ->
  exists msg,
    _dispatch lower repr fromisoformat name arguments tasks
    = (inl (ValueError msg), tasks).
Proof.
  intros Hd Hname Hbad.
  destruct (dispatch_names lower repr fromisoformat arguments)
    as (Ha & Hg & Hu & _).
  destruct Hname as [->|[->| ->]];
    [ rewrite Ha, dispatch_add_task_typed; unfold add_task_typed
    | rewrite Hg, dispatch_get_tasks_typed; unfold get_tasks_typed
    | rewrite Hu, dispatch_update_task_typed by assumption;
      unfold update_task_typed ];
    unfold enum_or_default, enum_if_present, TaskType_call, TaskStatus_call;
    (destruct Hbad as [(s & Hs & Hn)|(s & Hs & Hn)]; rewrite Hs, Hn;
     [ try (destruct (dict_get "status" arguments) as [s2|];
            [destruct (TaskStatus.of_value s2)|])
     | try (destruct (dict_get "type" arguments) as [s1|];
            [destruct (TaskType.of_value s1)|]) ];
     rewrite ?bind_lift; eexists; reflexivity).
Qed.

(** What a successful call says of the [type] and the [status] it was
    given: each is a value of its enum, and the task that [add_task] or
    [update_task] returns, which is in the list, carries it. *)
Lemma dispatch_enums_enforced (lower repr : string -> string)
    (fromisoformat : string -> result date) (name : string)
    (arguments : dict string) (tasks tasks' : store) (r : json) :
  is_dict arguments ->
  _dispatch lower repr fromisoformat name arguments tasks = (inr r, tasks') ->
  (forall s, dict_get "type" arguments = Some s ->
     In s ["bug"; "feature"; "improvement"; "task"]
     /\ (name = "add_task" \/ name = "update_task" ->
         exists t, In t tasks' /\ r = to_dict t
                   /\ TaskType.value (Task.type t) = s))
  /\ (forall s, dict_get "status" arguments = Some s ->
       In s ["pending"; "in_progress"; "done"; "cancelled"]
       /\ (name = "add_task" \/ name = "update_task" ->
           exists t, In t tasks' /\ r = to_dict t
                     /\ TaskStatus.value (Task.status t) = s)).
Proof.
  intros Hd H.
  destruct (dispatch_inr_name _ _ _ _ _ _ _ _ H) as [->|[->|[->| ->]]].
  - destruct (dispatch_add_task_enums _ _ _ _ _ _ _ H)
      as (task & -> & -> & Hty & Hst).
    split; intros s Hs; [rewrite Hs in Hty|rewrite Hs in Hst]; simpl in *.
    + destruct (TaskType_call_inr _ _ _ Hty) as [Hv Hin].
      split; [exact Hin|]. intros _. exists task.
      split; [apply in_or_app; right; now left|]. now split.
    + destruct (TaskStatus_call_inr _ _ _ Hst) as [Hv Hin].
      split; [exact Hin|]. intros _. exists task.
      split; [apply in_or_app; right; now left|]. now split.
  - destruct (dispatch_get_tasks_enums _ _ _ _ _ _ _ H) as ([ty Hty] & [st Hst]).
    split; intros s Hs.
    + destruct (enum_if_present_supplied _ _ _ _ Hty Hs) as (a & Ha & _).
      split; [exact (proj2 (TaskType_call_inr _ _ _ Ha))|].
      intros [E|E]; discriminate E.
    + destruct (enum_if_present_supplied _ _ _ _ Hst Hs) as (a & Ha & _).
      split; [exact (proj2 (TaskStatus_call_inr _ _ _ Ha))|].
      intros [E|E]; discriminate E.
  - destruct (dispatch_update_task_inr _ _ _ _ _ _ _ Hd H)
      as (c & ty & st & sd & dd & t' & _ & Hty & Hst & _ & _ & Hup & ->).
    destruct (update_task_inr _ _ _ _ _ _ _ _ _ _ Hup)
      as (before & t & after & -> & _ & _ & -> & ->).
    destruct (apply_update_fields (dict_get "title" arguments)
                (dict_get "description" arguments) ty sd dd st t)
      as (_ & _ & _ & F4 & _ & _ & F7).
    split; intros s Hs.
    + destruct (enum_if_present_supplied _ _ _ _ Hty Hs) as (a & Ha & ->).
      destruct (TaskType_call_inr _ _ _ Ha) as [Hv Hin].
      split; [exact Hin|]. intros _. eexists.
      split; [apply in_or_app; right; left; reflexivity|].
      split; [reflexivity|]. rewrite F4. exact Hv.
    + destruct (enum_if_present_supplied _ _ _ _ Hst Hs) as (a & Ha & ->).
      destruct (TaskStatus_call_inr _ _ _ Ha) as [Hv Hin].
      split; [exact Hin|]. intros _. eexists.
      split; [apply in_or_app; right; left; reflexivity|].
      split; [reflexivity|]. rewrite F7. exact Hv.
  - destruct (dispatch_names lower repr fromisoformat arguments)
      as (_ & _ & _ & Hdel).
    rewrite Hdel, dispatch_delete_task_typed in H. unfold delete_task_typed in H.
    destruct (first_unexpected delete_task_params (dict_keys arguments))
      as [k|] eqn:Ek; [discriminate|].
    assert (Hno : forall k s, dict_get k arguments = Some s -> k <> "code" ->
                              False).
    { intros k s Hs Hk.
      apply (first_unexpected_some delete_task_params (dict_keys arguments) k);
        [| |exact Ek].
      - unfold dict_keys. apply in_map_iff. exists (k, s).
        split; [reflexivity|now apply dict_get_some_in].
      - simpl. intros [E|[]]. congruence. }
    split; intros s Hs; exfalso; apply (Hno _ _ Hs); discriminate.
Qed.

(** C9, as the code has it.  After every sequence of store operations,
    the type and the status of every stored task have their value in the
    closed sets [bug, feature, improvement, task] and
    [pending, in_progress, done, cancelled].  The store functions take the
    two at the enum types and check nothing; the code that keeps other
    values out is the dispatcher, which makes them from the strings of a
    tool call with [TaskType(...)] and [TaskStatus(...)]: a call that
    returns was given only values of the two sets, the task that
    [add_task] or [update_task] returns and leaves in the list carries the
    very value given, and a call given a [type] or [status] outside the
    sets raises and leaves the list as it was.  Every stored task has a
    non-empty code and a non-empty title when every create of the sequence
    was given a non-empty code and title and every update that was given a
    title was given a non-empty one. *)
Theorem store_invariants (lower repr : string -> string)
    (fromisoformat : string -> result date) (ops : list store_op)
    (name : string) (arguments : dict string) (tasks tasks' : store)
    (r : json) :
  Forall enums_closed (run_ops lower ops [])
  /\ (Forall supplies_names ops -> Forall named (run_ops lower ops []))
  /\ (is_dict arguments ->
      _dispatch lower repr fromisoformat name arguments tasks
      = (inr r, tasks') ->
      (forall s, dict_get "type" arguments = Some s ->
         In s ["bug"; "feature"; "improvement"; "task"]
         /\ (name = "add_task" \/ name = "update_task" ->
             exists t, In t tasks' /\ r = to_dict t
                       /\ TaskType.value (Task.type t) = s))
      /\ (forall s, dict_get "status" arguments = Some s ->
           In s ["pending"; "in_progress"; "done"; "cancelled"]
           /\ (name = "add_task" \/ name = "update_task" ->
               exists t, In t tasks' /\ r = to_dict t
                         /\ TaskStatus.value (Task.status t) = s)))
  /\ (is_dict arguments ->
      name = "add_task" \/ name = "get_tasks" \/ name = "update_task" ->
      invalid_enum arguments ->
      exists msg,
        _dispatch lower repr fromisoformat name arguments tasks
        = (inl (ValueError msg), tasks)).
Proof.
  split; [|split; [|split]].
  - apply Forall_forall. intros t _. apply enums_closed_all.
  - unfold run_ops. generalize (@Forall_nil Task named).
    generalize (@nil Task) as l.
    induction ops as [|op ops IH]; intros l Hn Hops; simpl; [assumption|].
    inversion Hops; subst. apply IH; [|assumption].
    now apply run_op_named.
  - apply dispatch_enums_enforced.
  - intros Hd Hname Hbad.
    exact (dispatch_invalid_enum lower repr fromisoformat name arguments tasks
             Hd Hname Hbad).
Qed.

(** ** The agent loop *)

Lemma run_tool_call_decoded (lower repr : string -> string)
    (fromisoformat : string -> result date)
    (json_loads : string -> result (dict string)) (json_dumps : json -> string)
    (tool_call : ToolCall.t) (arguments : dict string)
    (messages : list message) (tasks : store) :
  json_loads (Function.arguments (ToolCall.function tool_call)) = inr arguments ->
  run_tool_call lower repr fromisoformat json_loads json_dumps tool_call
      messages tasks
  = let (outcome, tasks1) :=
      _dispatch lower repr fromisoformat (Function.name (ToolCall.function
          tool_call))
        arguments tasks in
    (inr (messages
          ++ [ToolMessage (ToolCall.id tool_call)
                (json_dumps match outcome with
                            | inr result => result
                            | inl exc => error_payload exc
                            end)])%list, tasks1).
Proof.
  intros Hloads. unfold run_tool_call. rewrite bind_lift, Hloads.
  unfold bind, try_except, ret.
  destruct (_dispatch lower repr fromisoformat (Function.name (ToolCall.function
      tool_call))
              arguments tasks) as [[e|r] tasks1]; reflexivity.
Qed.

Lemma run_tool_calls_round (lower repr : string -> string)
    (fromisoformat : string -> result date)
    (json_loads : string -> result (dict string)) (json_dumps : json -> string)
    (tool_calls : list ToolCall.t) :
  Forall (decodes json_loads) tool_calls ->
  forall (messages : list message) (tasks : store),
  exists results tasks',
    run_tool_calls lower repr fromisoformat json_loads json_dumps tool_calls
        messages tasks
    = (inr (messages ++ results)%list, tasks')
    /\ round lower repr fromisoformat json_loads json_dumps tool_calls tasks
        results tasks'.
Proof.
  induction 1 as [|tool_call rest [arguments Hloads] _ IH]; intros messages tasks.
  - exists [], tasks. simpl. rewrite app_nil_r. split; [reflexivity|constructor].
  - simpl. unfold bind at 1.
    rewrite (run_tool_call_decoded _ _ _ _ _ _ _ _ _ Hloads).
    destruct (_dispatch lower repr fromisoformat (Function.name
        (ToolCall.function tool_call))
                arguments tasks) as [outcome tasks1] eqn:E.
    destruct (IH (messages
                  ++ [ToolMessage (ToolCall.id tool_call)
                        (json_dumps match outcome with
                                    | inr result => result
                                    | inl exc => error_payload exc
                                    end)])%list tasks1)
      as (results & tasks' & Hrun & Hround).
    eexists; exists tasks'. split.
    + rewrite Hrun, <- app_assoc. reflexivity.
    + econstructor; eassumption.
Qed.

(** X18.  When every payload of the round decodes to a bag of strings, the
    loop runs every requested call in the order of the response, each on
    the list as the previous calls left it; a call whose dispatch raises
    gets [{"error": message}] for a result; one tool message keyed by the
    call's identifier is appended for every call; and the second model
    round is asked with the conversation so extended, its answer being the
    agent's reply, whatever the dispatches raised. *)
Theorem tool_round_runs_every_call (lower repr : string -> string)
    (fromisoformat : string -> result date)
    (json_loads : string -> result (dict string)) (json_dumps : json -> string)
    (create : request -> result ChatMessage.t)
    (query model : string) (message : ChatMessage.t) (tasks : store) :
  create (mkRequest model [SystemMessage system_prompt; UserMessage query] true)
  = inr message ->
  ChatMessage.tool_calls message <> [] ->
  Forall (decodes json_loads) (ChatMessage.tool_calls message) ->
  let messages :=
    [SystemMessage system_prompt; UserMessage query; AssistantMessage message] in
  exists results tasks',
    run_tool_calls lower repr fromisoformat json_loads json_dumps
      (ChatMessage.tool_calls message) messages tasks
    = (inr (messages ++ results)%list, tasks')
    /\ round lower repr fromisoformat json_loads json_dumps
         (ChatMessage.tool_calls message) tasks results tasks'
    /\ agent lower repr fromisoformat json_loads json_dumps create query model
         tasks
       = (match create (mkRequest model (messages ++ results)%list false) with
          | inl exc => inl exc
          | inr followup => inr (ChatMessage.content followup)
          end, tasks').
Proof.
  intros Hcreate Hcalls Hdec messages.
  destruct (run_tool_calls_round lower repr fromisoformat json_loads json_dumps
      _ Hdec
              messages tasks) as (results & tasks' & Hrun & Hround).
  exists results, tasks'. split; [exact Hrun|]. split; [exact Hround|].
  unfold agent. rewrite bind_lift, Hcreate.
  destruct (ChatMessage.tool_calls message) as [|tool_call rest] eqn:E;
    [congruence|].
  unfold bind at 1. fold messages in Hrun.
  change ([SystemMessage system_prompt; UserMessage query]
          ++ [AssistantMessage message])%list with messages.
  rewrite Hrun, bind_lift.
  destruct (create (mkRequest model (messages ++ results)%list false));
    reflexivity.
Qed.

(** * Examples *)

Lemma is_dict_example_bad_status : is_dict Example.bad_status_args.
Proof. repeat constructor; simpl; intuition discriminate. Defined.

(** Scenario D of the specification: the first call fails on its status,
    the second still runs, and the second round is asked. *)
Lemma tool_round_scenario_d :
  let create := Example.model_asking Example.scenario_d in
  let message := ChatMessage.mk None Example.scenario_d in
  let messages :=
    [SystemMessage system_prompt; UserMessage "mark it finished";
     AssistantMessage message] in
  create (mkRequest "gpt-4o-mini"
            [SystemMessage system_prompt; UserMessage "mark it finished"] true)
  = inr message
  /\ Forall (decodes Example.loads) Example.scenario_d
  /\ exists results tasks',
      run_tool_calls ascii_lower quote_repr Example.fromisoformat Example.loads
          Example.dumps
        Example.scenario_d messages [Example.task1]
      = (inr (messages ++ results)%list, tasks')
      /\ round ascii_lower quote_repr Example.fromisoformat Example.loads
          Example.dumps
           Example.scenario_d [Example.task1] results tasks'
      /\ agent ascii_lower quote_repr Example.fromisoformat Example.loads
          Example.dumps create
           "mark it finished" "gpt-4o-mini" [Example.task1]
         = (match create (mkRequest "gpt-4o-mini" (messages ++ results)%list
                            false) with
            | inl exc => inl exc
            | inr followup => inr (ChatMessage.content followup)
            end, tasks').
Proof.
  intros create message messages.
  assert (Hc : create (mkRequest "gpt-4o-mini"
                         [SystemMessage system_prompt;
                          UserMessage "mark it finished"] true) = inr message)
    by reflexivity.
  assert (Hd : Forall (decodes Example.loads) Example.scenario_d)
    by (repeat constructor; eexists; vm_compute; reflexivity).
  split; [exact Hc|]. split; [exact Hd|].
  apply (tool_round_runs_every_call ascii_lower quote_repr Example.fromisoformat
      Example.loads
           Example.dumps create "mark it finished" "gpt-4o-mini" message
           [Example.task1] Hc); [discriminate|exact Hd].
Defined.

(** What the loop appends in scenario D. *)
Example scenario_d_messages :
  run_tool_calls ascii_lower quote_repr Example.fromisoformat Example.loads
      Example.dumps
    Example.scenario_d [] [Example.task1]
  = (inr [ ToolMessage "call_1"
             (Example.dumps
                (JObj [("error", JStr "'finished' is not a valid TaskStatus")]));
           ToolMessage "call_2"
             (Example.dumps (JArr [to_dict Example.task1])) ],
     [Example.task1]).
Proof. vm_compute. reflexivity. Qed.

(** C1.  The loop on a response of two tool calls, the first with a
    payload that is not JSON (the empty string), the second a query.
    [json.loads] is called before the [try], so its exception is not turned
    into an error payload: it leaves the loop and [agent], the second call
    is never run, no tool message is appended and the second round is
    never asked.  The same response with a first payload that decodes and
    then fails in the dispatcher (scenario D) is what the [try] is there
    for: both calls run and both get their tool message. *)
Lemma undecodable_payload_aborts_round :
  Example.loads Example.not_json
  = inl (ValueError "Expecting value: line 1 column 1 (char 0)")
  /\ run_tool_calls ascii_lower quote_repr Example.fromisoformat Example.loads
       Example.dumps Example.scenario_not_json [] [Example.task1]
     = (inl (ValueError "Expecting value: line 1 column 1 (char 0)"),
        [Example.task1])
  /\ agent ascii_lower quote_repr Example.fromisoformat Example.loads
       Example.dumps (Example.model_asking Example.scenario_not_json)
       "update it" "gpt-4o-mini" [Example.task1]
     = (inl (ValueError "Expecting value: line 1 column 1 (char 0)"),
        [Example.task1])
  /\ run_tool_calls ascii_lower quote_repr Example.fromisoformat Example.loads
       Example.dumps Example.scenario_d [] [Example.task1]
     = (inr [ ToolMessage "call_1"
                (Example.dumps
                   (JObj [("error",
                           JStr "'finished' is not a valid TaskStatus")]));
              ToolMessage "call_2"
                (Example.dumps (JArr [to_dict Example.task1])) ],
        [Example.task1])
  /\ agent ascii_lower quote_repr Example.fromisoformat Example.loads
       Example.dumps (Example.model_asking Example.scenario_d)
       "mark it finished" "gpt-4o-mini" [Example.task1]
     = (inr (Some "Here is what happened."), [Example.task1]).
Proof. repeat split; vm_compute; reflexivity. Qed.

(** An update that supplies only [status]. *)
Lemma update_task_dispatch_partial_example :
  let arguments := [("code", "TASK-001"); ("status", "done")] in
  let tasks := [Example.task2; Example.task1; Example.task1_again] in
  let updated := Task.set_status DONE Example.task1 in
  let tasks' := [Example.task2; updated; Example.task1_again] in
  is_dict arguments
  /\ _dispatch ascii_lower quote_repr Example.fromisoformat "update_task"
      arguments tasks
     = (inr (to_dict updated), tasks')
  /\ exists before t after t',
      tasks = (before ++ t :: after)%list /\
      tasks' = (before ++ t' :: after)%list /\
      Task.title t' = Task.title t /\
      Task.description t' = Task.description t /\
      Task.type t' = Task.type t /\
      date_under "start_date" t' = date_under "start_date" t /\
      date_under "due_date" t' = date_under "due_date" t.
Proof.
  intros arguments tasks updated tasks'.
  assert (Hd : is_dict arguments)
    by (repeat constructor; simpl; intuition discriminate).
  assert (Hr : _dispatch ascii_lower quote_repr Example.fromisoformat
      "update_task" arguments tasks
               = (inr (to_dict updated), tasks')) by (vm_compute; reflexivity).
  split; [exact Hd|]. split; [exact Hr|].
  destruct (update_task_dispatch_partial ascii_lower quote_repr
              Example.fromisoformat arguments tasks tasks' (to_dict updated)
              Hd Hr)
    as (_ & _ & before & t & after & t' & H1 & H2 & _ & _ & _ & _ & H3 & H4
        & H5 & _ & H6).
  exists before, t, after, t'.
  repeat split; try assumption.
  - apply H5. reflexivity.
  - apply (H6 "start_date"); [left; reflexivity|left; reflexivity].
  - apply (H6 "due_date"); [right; reflexivity|left; reflexivity].
Defined.

(** C2 as stated fails: [update_task] with the empty string for
    [description] empties the description of the stored task. *)
Lemma update_task_clears_description :
  let cleared := Task.set_description "" Example.task1 in
  Task.description Example.task1 <> ""
  /\ _dispatch ascii_lower quote_repr Example.fromisoformat "update_task"
       [("code", "TASK-001"); ("description", "")] [Example.task1]
     = (inr (to_dict cleared), [cleared])
  /\ Task.description cleared = "".
Proof.
  intros cleared. split; [discriminate|]. split; [vm_compute|]; reflexivity.
Qed.

(** An [add_task] call without [type], [status] or dates. *)
Lemma add_task_dispatch_defaults_example :
  let arguments := [("code", "TASK-003"); ("title", "Plan release")] in
  let created := Task.mk "TASK-003" "Plan release" "" TASK None None PENDING in
  keys_within add_task_params arguments = true
  /\ _dispatch ascii_lower quote_repr Example.fromisoformat "add_task" arguments
      [Example.task1]
     = (inr (to_dict created), [Example.task1; created]).
Proof.
  intros arguments created. split; [reflexivity|].
  exact (proj1 (add_task_dispatch_defaults ascii_lower quote_repr
      Example.fromisoformat arguments
                  [Example.task1] "TASK-003" "Plan release" PENDING None None
                  eq_refl eq_refl eq_refl eq_refl eq_refl eq_refl)).
Defined.

(** C3 as stated fails: [add_task] with a [type] outside the enum raises
    and creates no task. *)
Lemma add_task_invalid_type_raises :
  TaskType.of_value "urgent" = None
  /\ _dispatch ascii_lower quote_repr Example.fromisoformat "add_task"
       [("code", "TASK-003"); ("title", "Plan release"); ("type", "urgent")]
       [Example.task1]
     = (inl (ValueError "'urgent' is not a valid TaskType"), [Example.task1]).
Proof. split; vm_compute; reflexivity. Qed.

(** Scenario D, first call: a status outside the enum. *)
Lemma coercion_failure_example :
  is_dict Example.bad_status_args
  /\ invalid_enum Example.bad_status_args
  /\ raises_ValueError Example.fromisoformat
  /\ exists msg,
      _dispatch ascii_lower quote_repr Example.fromisoformat
        "update_task" Example.bad_status_args [Example.task1]
      = (inl (ValueError msg), [Example.task1])
      /\ coercion_error quote_repr Example.fromisoformat
           Example.bad_status_args (ValueError msg).
Proof.
  assert (Hbad : invalid_enum Example.bad_status_args)
    by (right; exists "finished"; split; reflexivity).
  assert (Hr : raises_ValueError Example.fromisoformat)
    by (intros s e; apply fromisoformat_raises_ValueError).
  split; [exact is_dict_example_bad_status|]. split; [exact Hbad|].
  split; [exact Hr|].
  destruct (proj1 (proj2 (coercion_failure_rejects_call ascii_lower quote_repr
                            Example.fromisoformat "update_task"
                            Example.bad_status_args [Example.task1]
                            is_dict_example_bad_status)))
    as (e & He & Hc & Hv).
  { left. split; [right; reflexivity|left; exact Hbad]. }
  destruct (Hv Hr) as [msg ->]. exists msg. split; assumption.
Defined.

(** C4 as stated fails.  The empty string is a date string that
    [date.fromisoformat] rejects, yet [add_task] accepts it and appends a
    task; and the message for a date that does not exist names neither the
    argument nor the value. *)
Lemma empty_date_string_accepted :
  let created := Task.mk "TASK-003" "Plan release" "" TASK None None PENDING in
  Example.fromisoformat "" = inl (ValueError "Invalid isoformat string: ''")
  /\ _dispatch ascii_lower quote_repr Example.fromisoformat "add_task"
       [("code", "TASK-003"); ("title", "Plan release"); ("start_date", "")]
       [Example.task1]
     = (inr (to_dict created), [Example.task1; created])
  /\ _dispatch ascii_lower quote_repr Example.fromisoformat "update_task"
       [("code", "TASK-001"); ("start_date", "2023-02-30")] [Example.task1]
     = (inl (ValueError "day is out of range for month"), [Example.task1])
  /\ _dispatch ascii_lower quote_repr Example.fromisoformat "update_task"
       [("code", "TASK-001"); ("due_date", "2023-02-30")] [Example.task1]
     = (inl (ValueError "day is out of range for month"), [Example.task1]).
Proof. intros created. repeat split; vm_compute; reflexivity. Qed.

(** Scenario C of the specification: [update_task(code="NOPE")]. *)
Lemma unknown_code_nope :
  let tasks := [Example.task1; Example.task2] in
  let tool_call := Example.call "call_1" "update_task"
                     (Example.payload Example.nope_args) in
  Forall (fun t => Task.code t <> "NOPE") tasks
  /\ update_task "NOPE" (Some "New title") None None None None None tasks
     = (inl (ValueError "No task found with code 'NOPE'"), tasks)
  /\ delete_task "NOPE" tasks
     = (inl (ValueError "No task found with code 'NOPE'"), tasks)
  /\ run_tool_call ascii_lower quote_repr Example.fromisoformat Example.loads
      Example.dumps
       tool_call [] tasks
     = (inr [ToolMessage "call_1"
               (Example.dumps
                  (JObj [("error", JStr "No task found with code 'NOPE'")]))],
        tasks).
Proof.
  intros tasks tool_call.
  assert (Hno : Forall (fun t => Task.code t <> "NOPE") tasks)
    by (repeat constructor; discriminate).
  split; [exact Hno|].
  exact (unknown_code_not_found ascii_lower quote_repr Example.fromisoformat
      Example.loads
           Example.dumps "NOPE" tasks (Some "New title") None None None None
           None tool_call [] Hno eq_refl eq_refl).
Defined.

(** Deleting a code that two tasks carry removes the first of them. *)
Lemma delete_task_first_of_two :
  let tasks := [Example.task2; Example.task1; Example.task1_again] in
  Exists (fun t => Task.code t = "TASK-001") tasks
  /\ exists before task after,
      tasks = (before ++ task :: after)%list /\
      Forall (fun t => Task.code t <> "TASK-001") before /\
      Task.code task = "TASK-001" /\
      delete_task "TASK-001" tasks = (inr task, (before ++ after)%list) /\
      (List.length (before ++ after) + 1 = List.length tasks)%nat.
Proof.
  intros tasks.
  assert (He : Exists (fun t => Task.code t = "TASK-001") tasks)
    by (right; left; reflexivity).
  split; [exact He|].
  exact (delete_task_removes_first_match "TASK-001" tasks He).
Defined.

Example delete_task_first_of_two_result :
  delete_task "TASK-001" [Example.task2; Example.task1; Example.task1_again]
  = (inr Example.task1, [Example.task2; Example.task1_again]).
Proof. reflexivity. Qed.

(** A task with a leap day as start date goes through [to_dict] and back. *)
Lemma to_dict_round_trip_task1 :
  dates_valid Example.task1
  /\ from_dict quote_repr (to_dict Example.task1) = Some Example.task1.
Proof.
  assert (Hv : dates_valid Example.task1).
  { split; intros d H; inversion H; reflexivity. }
  split; [exact Hv|].
  exact (to_dict_round_trip quote_repr Example.task1 Hv).
Defined.

Example to_dict_task1 :
  to_dict Example.task1
  = JObj [ ("code", JStr "TASK-001"); ("title", JStr "Fix login bug");
           ("description", JStr "Users cannot log in"); ("type", JStr "bug");
           ("start_date", JStr "2024-02-29"); ("due_date", JNull);
           ("status", JStr "pending") ].
Proof. reflexivity. Qed.

(** A sequence of operations with names supplied throughout, and a tool
    call that sets a status. *)
Lemma store_invariants_example :
  let ops :=
    [ Create "TASK-001" "Fix login bug" "" BUG None None PENDING;
      Update "TASK-001" (Some "Fix the login bug") None None None None (Some DONE);
      Query (Some DONE) None (Some "LOGIN");
      Create "TASK-002" "Write docs" "" TASK None None PENDING;
      Delete "TASK-001" ] in
  let arguments := [("code", "TASK-001"); ("status", "done")] in
  let updated := Task.set_status DONE Example.task1 in
  Forall supplies_names ops
  /\ Forall named (run_ops ascii_lower ops [])
  /\ is_dict arguments
  /\ _dispatch ascii_lower quote_repr Example.fromisoformat
       "update_task" arguments [Example.task1]
     = (inr (to_dict updated), [updated])
  /\ In "done" ["pending"; "in_progress"; "done"; "cancelled"]
  /\ exists t, In t [updated] /\ to_dict updated = to_dict t
                /\ TaskStatus.value (Task.status t) = "done".
Proof.
  intros ops arguments updated.
  assert (Hs : Forall supplies_names ops)
    by (repeat constructor; simpl; try split; discriminate).
  assert (Hd : is_dict arguments)
    by (repeat constructor; simpl; intuition discriminate).
  assert (Hr : _dispatch ascii_lower quote_repr Example.fromisoformat
                 "update_task" arguments [Example.task1]
               = (inr (to_dict updated), [updated])) by (vm_compute; reflexivity).
  destruct (store_invariants ascii_lower quote_repr
              Example.fromisoformat ops "update_task" arguments
              [Example.task1] [updated] (to_dict updated))
    as (_ & Hn & He & _).
  destruct (proj2 (He Hd Hr) "done" eq_refl) as [Hin Ht].
  split; [exact Hs|]. split; [exact (Hn Hs)|]. split; [exact Hd|].
  split; [exact Hr|]. split; [exact Hin|].
  apply Ht. right. reflexivity.
Defined.

(** C9 as stated fails: the store creates a task with an empty code and an
    empty title, and so does an [add_task] call through the dispatcher. *)
Lemma store_accepts_empty_names :
  let blank := Task.mk "" "" "" TASK None None PENDING in
  run_ops ascii_lower [Create "" "" "" TASK None None PENDING] [] = [blank]
  /\ ~ Forall named (run_ops ascii_lower
                       [Create "" "" "" TASK None None PENDING] [])
  /\ _dispatch ascii_lower quote_repr Example.fromisoformat "add_task"
       [("code", ""); ("title", "")] []
     = (inr (to_dict blank), [blank]).
Proof.
  intros blank. split; [reflexivity|]. split; [|vm_compute; reflexivity].
  intros H. inversion H as [|? ? [Hc _] _]; subst. apply Hc. reflexivity.
Qed.

(** An update that carries the empty string as start date. *)
Lemma empty_date_string_example :
  let arguments :=
    [("code", "TASK-001"); ("start_date", ""); ("title", "Fix it")] in
  let tasks := [Example.task1] in
  is_dict arguments
  /\ dict_get "start_date" arguments = Some ""
  /\ _dispatch ascii_lower quote_repr Example.fromisoformat "update_task"
      arguments tasks
     = _dispatch ascii_lower quote_repr Example.fromisoformat "update_task"
         (dict_remove "start_date" arguments) tasks
  /\ _dispatch ascii_lower quote_repr Example.fromisoformat "update_task"
      arguments tasks
     = (inr (to_dict (Task.set_title "Fix it" Example.task1)),
        [Task.set_title "Fix it" Example.task1]).
Proof.
  intros arguments tasks.
  assert (Hd : is_dict arguments)
    by (repeat constructor; simpl; intuition discriminate).
  split; [exact Hd|]. split; [reflexivity|]. split.
  - exact (proj1 (proj2 (proj2
             (empty_date_string_is_absent ascii_lower quote_repr
                 Example.fromisoformat "update_task"
                "start_date" arguments tasks (or_intror eq_refl)
                (or_introl eq_refl) Hd eq_refl)))).
  - vm_compute. reflexivity.
Defined.

Example empty_date_string_add_task :
  _dispatch ascii_lower quote_repr Example.fromisoformat "add_task"
    [("code", "TASK-003"); ("title", "Plan release"); ("due_date", "")] []
  = (inr (to_dict (Task.mk "TASK-003" "Plan release" "" TASK None None PENDING)),
     [Task.mk "TASK-003" "Plan release" "" TASK None None PENDING]).
Proof. vm_compute. reflexivity. Qed.

(** Scenarios A and B of the specification. *)
Example scenario_a :
  let created := Task.mk "TASK-001" "Fix login bug" "" BUG None None PENDING in
  _dispatch ascii_lower quote_repr Example.fromisoformat "add_task"
    [("code", "TASK-001"); ("title", "Fix login bug"); ("type", "bug")] []
  = (inr (to_dict created), [created])
  /\ _dispatch ascii_lower quote_repr Example.fromisoformat "get_tasks"
      [("type", "bug")] [created]
     = (inr (JArr [to_dict created]), [created]).
Proof. split; vm_compute; reflexivity. Qed.

Example search_is_case_insensitive :
  get_tasks ascii_lower None None (Some "LOGIN") [Example.task2; Example.task1]
  = (inr [Example.task1], [Example.task2; Example.task1]).
Proof. reflexivity. Qed.

(** * Further properties *)

(** ** The tool schemas and the dispatcher *)

Lemma tool_named_cases (name : string) (tool : Tool.t) :
  tool_named name = Some tool ->
  In name ["add_task"; "get_tasks"; "update_task"; "delete_task"]
  /\ Tool.name tool = name /\ In tool TOOLS.
Proof.
  unfold tool_named. intros H. apply find_some in H. destruct H as [Hin Hn].
  apply String.eqb_eq in Hn. split; [|split; assumption].
  rewrite <- Hn. clear Hn. simpl in Hin.
  repeat (destruct Hin as [<-|Hin]; [simpl; tauto|]). contradiction.
Qed.

Lemma type_values_accepted (s : string) :
  existsb (String.eqb s) type_values = true <-> TaskType.of_value s <> None.
Proof.
  unfold type_values, TaskType.of_value, TaskType.members.
  cbn [map find existsb TaskType.value].
  rewrite (String.eqb_sym s "bug"), (String.eqb_sym s "feature"),
    (String.eqb_sym s "improvement"), (String.eqb_sym s "task").
  destruct (String.eqb "bug" s), (String.eqb "feature" s),
    (String.eqb "improvement" s), (String.eqb "task" s); simpl;
    (split; intros H;
     solve [ reflexivity | discriminate
           | exfalso; apply H; reflexivity ]).
Qed.

Lemma status_values_accepted (s : string) :
  existsb (String.eqb s) status_values = true <-> TaskStatus.of_value s <> None.
Proof.
  unfold status_values, TaskStatus.of_value, TaskStatus.members.
  cbn [map find existsb TaskStatus.value].
  rewrite (String.eqb_sym s "pending"), (String.eqb_sym s "in_progress"),
    (String.eqb_sym s "done"), (String.eqb_sym s "cancelled").
  destruct (String.eqb "pending" s), (String.eqb "in_progress" s),
    (String.eqb "done" s), (String.eqb "cancelled" s); simpl;
    (split; intros H;
     solve [ reflexivity | discriminate
           | exfalso; apply H; reflexivity ]).
Qed.

(** X1.  A name that [TOOLS] does not register is not dispatched: the call
    raises [ValueError("Unknown function: name")] and the list is what it
    was. *)
Theorem unregistered_name_is_unknown (lower repr : string -> string)
    (fromisoformat : string -> result date)
    (name : string) (arguments : dict string) (tasks : store) :
  tool_named name = None ->
  _dispatch lower repr fromisoformat name arguments tasks
  = (inl (ValueError ("Unknown function: " ++ name)), tasks).
Proof.
  unfold tool_named, TOOLS, _dispatch. cbn [find Tool.name].
  rewrite (String.eqb_sym name "add_task"), (String.eqb_sym name "get_tasks"),
    (String.eqb_sym name "update_task"), (String.eqb_sym name "delete_task").
  destruct (String.eqb "add_task" name); [discriminate|].
  destruct (String.eqb "get_tasks" name); [discriminate|].
  destruct (String.eqb "update_task" name); [discriminate|].
  destruct (String.eqb "delete_task" name); [discriminate|].
  reflexivity.
Qed.

Lemma unregistered_name_example :
  tool_named "archive_task" = None
  /\ _dispatch ascii_lower quote_repr Example.fromisoformat "archive_task"
      [("code", "TASK-001")]
       [Example.task1]
     = (inl (ValueError "Unknown function: archive_task"), [Example.task1]).
Proof.
  split; [reflexivity|].
  exact (unregistered_name_is_unknown ascii_lower quote_repr
      Example.fromisoformat "archive_task"
           [("code", "TASK-001")] [Example.task1] eq_refl).
Defined.

(** X2.  The values that the schemas advertise for an enum property are
    exactly the strings the dispatcher's coercion accepts: every property
    of [TOOLS] with an ["enum"] is [type] or [status], and a string is in
    its list exactly when [TaskType(s)], respectively [TaskStatus(s)],
    returns a member. *)
Theorem schema_enums_are_the_accepted_values (repr : string -> string)
    (tool : Tool.t) (p : Property.t) (values : list string) :
  In tool TOOLS -> In p (Tool.properties tool) ->
  Property.enum p = Some values ->
  (Property.name p = "type"
   /\ forall s, In s values <-> exists t, TaskType_call repr s = inr t)
  \/ (Property.name p = "status"
      /\ forall s, In s values <-> exists t, TaskStatus_call repr s = inr t).
Proof.
  assert (Ht : forall s, In s type_values
                         <-> exists t, TaskType_call repr s = inr t).
  { intros s. unfold TaskType_call. split.
    - intros H. assert (E : existsb (String.eqb s) type_values = true).
      { apply existsb_exists. exists s. split; [assumption|apply String.eqb_refl]. }
      apply type_values_accepted in E.
      destruct (TaskType.of_value s); [eauto|congruence].
    - intros [t H]. destruct (TaskType.of_value s) eqn:E; [|discriminate].
      assert (E' : TaskType.of_value s <> None) by congruence.
      apply type_values_accepted, existsb_exists in E'.
      destruct E' as (x & Hin & Hx). apply String.eqb_eq in Hx. now subst. }
  assert (Hs : forall s, In s status_values
                         <-> exists t, TaskStatus_call repr s = inr t).
  { intros s. unfold TaskStatus_call. split.
    - intros H. assert (E : existsb (String.eqb s) status_values = true).
      { apply existsb_exists. exists s. split; [assumption|apply String.eqb_refl]. }
      apply status_values_accepted in E.
      destruct (TaskStatus.of_value s); [eauto|congruence].
    - intros [t H]. destruct (TaskStatus.of_value s) eqn:E; [|discriminate].
      assert (E' : TaskStatus.of_value s <> None) by congruence.
      apply status_values_accepted, existsb_exists in E'.
      destruct E' as (x & Hin & Hx). apply String.eqb_eq in Hx. now subst. }
  intros Htool Hp He. simpl in Htool.
  repeat (destruct Htool as [<-|Htool];
          [simpl in Hp;
           repeat (destruct Hp as [<-|Hp];
                   [simpl in He; try discriminate; inversion He; subst;
                    first [left; split; [reflexivity|exact Ht]
                          |right; split; [reflexivity|exact Hs]]|]);
           contradiction|]).
  contradiction.
Qed.

Lemma schema_enums_example :
  let tool := Tool.mk "delete_task" "Delete a task by its code."
                [Property.mk "code" "string" None
                   (Some "Code of the task to delete.")] ["code"] in
  In (nth 2 TOOLS tool) TOOLS
  /\ (forall s, In s ["pending"; "in_progress"; "done"; "cancelled"]
                <-> exists t, TaskStatus_call quote_repr s = inr t).
Proof.
  intros tool.
  assert (Hin : In (nth 2 TOOLS tool) TOOLS) by (simpl; tauto).
  split; [exact Hin|].
  destruct (schema_enums_are_the_accepted_values quote_repr (nth 2 TOOLS tool)
              (Property.mk "status" "string" (Some status_values) None)
              status_values Hin) as [[H _]|[_ H]].
  - simpl. tauto.
  - reflexivity.
  - discriminate H.
  - exact H.
Defined.

Lemma follows_schema_entry (tool : Tool.t) (arguments : dict string)
    (k v : string) :
  follows_schema tool arguments = true -> In (k, v) arguments ->
  exists p,
    find (fun p => String.eqb (Property.name p) k) (Tool.properties tool)
    = Some p
    /\ forall values, Property.enum p = Some values ->
                      existsb (String.eqb v) values = true.
Proof.
  unfold follows_schema. intros H Hin. apply andb_prop in H. destruct H as [H _].
  rewrite forallb_forall in H. specialize (H (k, v) Hin). simpl in H.
  destruct (find (fun p => String.eqb (Property.name p) k) (Tool.properties tool))
    as [p|]; [|discriminate].
  exists p. split; [reflexivity|]. intros values E. now rewrite E in H.
Qed.

Lemma follows_schema_required (tool : Tool.t) (arguments : dict string)
    (k : string) :
  follows_schema tool arguments = true -> In k (Tool.required tool) ->
  exists v, dict_get k arguments = Some v.
Proof.
  unfold follows_schema. intros H Hin. apply andb_prop in H. destruct H as [_ H].
  rewrite forallb_forall in H. specialize (H k Hin). unfold dict_mem in H.
  destruct (dict_get k arguments); [eauto|discriminate].
Qed.

Lemma find_property_name (props : list Property.t) (k : string)
    (p : Property.t) :
  find (fun p => String.eqb (Property.name p) k) props = Some p ->
  existsb (String.eqb k) (map Property.name props) = true.
Proof.
  induction props as [|q props IH]; simpl; [discriminate|].
  rewrite (String.eqb_sym k). destruct (String.eqb (Property.name q) k);
    [reflexivity|exact IH].
Qed.

Lemma follows_schema_keys (tool : Tool.t) (arguments : dict string) :
  follows_schema tool arguments = true ->
  first_unexpected (map Property.name (Tool.properties tool))
    (dict_keys arguments) = None.
Proof.
  intros H. apply first_unexpected_none. apply forallb_forall.
  intros k Hk. unfold dict_keys in Hk. apply in_map_iff in Hk.
  destruct Hk as ([k' v] & <- & Hin).
  destruct (follows_schema_entry tool arguments k' v H Hin) as (p & Hp & _).
  exact (find_property_name _ _ _ Hp).
Qed.

Lemma follows_schema_type (repr : string -> string) (tool : Tool.t)
    (arguments : dict string) (p : Property.t) (s : string) :
  follows_schema tool arguments = true ->
  find (fun p => String.eqb (Property.name p) "type") (Tool.properties tool)
  = Some p ->
  Property.enum p = Some type_values ->
  dict_get "type" arguments = Some s ->
  exists t, TaskType_call repr s = inr t.
Proof.
  intros H Hf He Hg.
  destruct (follows_schema_entry tool arguments "type" s H
              (dict_get_some_in _ _ _ Hg)) as (q & Hq & Hv).
  rewrite Hf in Hq. inversion Hq; subst q.
  specialize (Hv _ He). apply type_values_accepted in Hv.
  unfold TaskType_call. destruct (TaskType.of_value s); [eauto|congruence].
Qed.

Lemma follows_schema_status (repr : string -> string) (tool : Tool.t)
    (arguments : dict string) (p : Property.t) (s : string) :
  follows_schema tool arguments = true ->
  find (fun p => String.eqb (Property.name p) "status") (Tool.properties tool)
  = Some p ->
  Property.enum p = Some status_values ->
  dict_get "status" arguments = Some s ->
  exists t, TaskStatus_call repr s = inr t.
Proof.
  intros H Hf He Hg.
  destruct (follows_schema_entry tool arguments "status" s H
              (dict_get_some_in _ _ _ Hg)) as (q & Hq & Hv).
  rewrite Hf in Hq. inversion Hq; subst q.
  specialize (Hv _ He). apply status_values_accepted in Hv.
  unfold TaskStatus_call. destruct (TaskStatus.of_value s); [eauto|congruence].
Qed.

Lemma parse_date_well_formed (fromisoformat : string -> result date)
    (arguments : dict string) (key : string) :
  ~ malformed_date fromisoformat arguments ->
  key = "start_date" \/ key = "due_date" ->
  exists d, _parse_date fromisoformat (dict_get key arguments) = inr d.
Proof.
  intros Hm Hkey. unfold _parse_date.
  destruct (dict_get key arguments) as [s|] eqn:Eg; [|eauto].
  destruct (String.eqb s "") eqn:Es; [eauto|].
  destruct (fromisoformat s) as [e|d] eqn:Ef; [|eauto].
  exfalso. apply Hm. exists key, s, e. apply String.eqb_neq in Es. auto.
Qed.

(** The enum coercions of a branch on arguments that follow the schema. *)
Lemma enum_stages_follow_schema (repr : string -> string) (tool : Tool.t)
    (arguments : dict string) (pt ps : Property.t) :
  follows_schema tool arguments = true ->
  find (fun p => String.eqb (Property.name p) "type") (Tool.properties tool)
  = Some pt -> Property.enum pt = Some type_values ->
  find (fun p => String.eqb (Property.name p) "status") (Tool.properties tool)
  = Some ps -> Property.enum ps = Some status_values ->
  (exists ty, enum_or_default (TaskType_call repr) TASK
                (dict_get "type" arguments) = inr ty)
  /\ (exists st, enum_or_default (TaskStatus_call repr) PENDING
                   (dict_get "status" arguments) = inr st)
  /\ (exists ty, enum_if_present (TaskType_call repr)
                   (dict_get "type" arguments) = inr ty)
  /\ (exists st, enum_if_present (TaskStatus_call repr)
                   (dict_get "status" arguments) = inr st).
Proof.
  intros H Hft Het Hfs Hes. unfold enum_or_default, enum_if_present.
  assert (Ht := fun s => follows_schema_type repr tool arguments pt s H Hft Het).
  assert (Hs := fun s => follows_schema_status repr tool arguments ps s H Hfs Hes).
  destruct (dict_get "type" arguments) as [s1|];
    [destruct (Ht s1 eq_refl) as [ty ->]|];
    (destruct (dict_get "status" arguments) as [s2|];
     [destruct (Hs s2 eq_refl) as [st ->]|]); eauto 10.
Qed.

(** X3.  A call that follows the schema of its tool, with dates that
    parse, never fails in the binding of its arguments: [add_task] and
    [get_tasks] return a result, [update_task] and [delete_task] return a
    result or raise the not-found error for a code that no stored task
    has, leaving the list as it was. *)
Theorem schema_call_outcome (lower repr : string -> string)
    (fromisoformat : string -> result date) (name : string)
    (tool : Tool.t) (arguments : dict string) (tasks : store) :
  tool_named name = Some tool ->
  follows_schema tool arguments = true ->
  is_dict arguments ->
  ~ malformed_date fromisoformat arguments ->
  (exists r tasks',
      _dispatch lower repr fromisoformat name arguments tasks = (inr r, tasks'))
  \/ ((name = "update_task" \/ name = "delete_task")
      /\ exists c,
          dict_get "code" arguments = Some c
          /\ Forall (fun t => Task.code t <> c) tasks
          /\ _dispatch lower repr fromisoformat name arguments tasks
             = (inl (not_found c), tasks)).
Proof.
  intros Hn Hf Hd Hm.
  destruct (dispatch_names lower repr fromisoformat arguments) as (Ha & Hg & Hu
      & Hdel).
  destruct (parse_date_well_formed fromisoformat arguments "start_date" Hm
              (or_introl eq_refl)) as [sd Hsd].
  destruct (parse_date_well_formed fromisoformat arguments "due_date" Hm
              (or_intror eq_refl)) as [dd Hdd].
  pose proof (follows_schema_keys tool arguments Hf) as Hk.
  unfold tool_named in Hn. unfold TOOLS in Hn. cbn [find Tool.name] in Hn.
  destruct (String.eqb "add_task" name) eqn:E1.
  { apply String.eqb_eq in E1. inversion Hn; subst; clear Hn. left.
    destruct (enum_stages_follow_schema repr _ arguments _ _ Hf eq_refl eq_refl
                eq_refl eq_refl) as ([ty Hty] & [st Hst] & _).
    destruct (follows_schema_required _ arguments "code" Hf) as [c Hc];
      [simpl; tauto|].
    destruct (follows_schema_required _ arguments "title" Hf) as [ti Hti];
      [simpl; tauto|].
    rewrite Ha, dispatch_add_task_typed. unfold add_task_typed.
    cbn [Tool.properties map Property.name] in Hk.
    unfold add_task_params. rewrite Hty, Hst, Hsd, Hdd, Hk, Hc, Hti.
    eexists; eexists; reflexivity. }
  destruct (String.eqb "get_tasks" name) eqn:E2.
  { apply String.eqb_eq in E2. inversion Hn; subst; clear Hn. left.
    destruct (enum_stages_follow_schema repr _ arguments _ _ Hf eq_refl eq_refl
                eq_refl eq_refl) as (_ & _ & [ty Hty] & [st Hst]).
    rewrite Hg, dispatch_get_tasks_typed. unfold get_tasks_typed.
    cbn [Tool.properties map Property.name] in Hk.
    unfold get_tasks_params. rewrite Hty, Hst, Hk.
    eexists; eexists; reflexivity. }
  destruct (String.eqb "update_task" name) eqn:E3.
  { apply String.eqb_eq in E3. inversion Hn; subst; clear Hn.
    destruct (enum_stages_follow_schema repr _ arguments _ _ Hf eq_refl eq_refl
                eq_refl eq_refl) as (_ & _ & [ty Hty] & [st Hst]).
    destruct (follows_schema_required _ arguments "code" Hf) as [c Hc];
      [simpl; tauto|].
    rewrite Hu, dispatch_update_task_typed by assumption.
    unfold update_task_typed.
    cbn [Tool.properties map Property.name] in Hk.
    unfold update_task_params. rewrite Hty, Hst, Hsd, Hdd, Hk, Hc.
    rewrite !bind_lift. unfold bind, ret, update_task.
    destruct (first_with_code c tasks 0) as [[i t]|] eqn:Ef.
    - left. eexists; eexists; reflexivity.
    - right. split; [left; reflexivity|]. exists c.
      apply first_with_code_none in Ef. auto. }
  destruct (String.eqb "delete_task" name) eqn:E4; [|discriminate].
  apply String.eqb_eq in E4. inversion Hn; subst; clear Hn.
  destruct (follows_schema_required _ arguments "code" Hf) as [c Hc];
    [simpl; tauto|].
  rewrite Hdel, dispatch_delete_task_typed. unfold delete_task_typed.
  cbn [Tool.properties map Property.name] in Hk.
  unfold delete_task_params. rewrite Hk, Hc.
  unfold bind, ret, delete_task.
  destruct (first_with_code c tasks 0) as [[i t]|] eqn:Ef.
  - left. eexists; eexists; reflexivity.
  - right. split; [right; reflexivity|]. exists c.
    apply first_with_code_none in Ef. auto.
Qed.

Lemma schema_call_example :
  let arguments := [("code", "TASK-001"); ("status", "done");
                    ("due_date", "2024-03-01")] in
  tool_named "update_task" = Some (nth 2 TOOLS (Tool.mk "" "" [] []))
  /\ follows_schema (nth 2 TOOLS (Tool.mk "" "" [] [])) arguments = true
  /\ is_dict arguments
  /\ ~ malformed_date Example.fromisoformat arguments
  /\ ((exists r tasks',
          _dispatch ascii_lower quote_repr Example.fromisoformat "update_task"
              arguments
            [Example.task1] = (inr r, tasks'))
      \/ ((("update_task" = "update_task") \/ ("update_task" = "delete_task"))
          /\ exists c,
              dict_get "code" arguments = Some c
              /\ Forall (fun t => Task.code t <> c) [Example.task1]
              /\ _dispatch ascii_lower quote_repr Example.fromisoformat
                  "update_task" arguments
                   [Example.task1] = (inl (not_found c), [Example.task1]))).
Proof.
  intros arguments.
  assert (Hd : is_dict arguments)
    by (repeat constructor; simpl; intuition discriminate).
  assert (Hm : ~ malformed_date Example.fromisoformat arguments).
  { intros (key & s & e & [->| ->] & Hg & Hne & Hf).
    - discriminate Hg.
    - inversion Hg; subst. vm_compute in Hf. discriminate Hf. }
  split; [reflexivity|]. split; [reflexivity|]. split; [exact Hd|].
  split; [exact Hm|].
  exact (schema_call_outcome ascii_lower quote_repr Example.fromisoformat
      "update_task" _ arguments
           [Example.task1] eq_refl eq_refl Hd Hm).
Defined.

(** ** The store *)

Lemma run_ops_app (lower : string -> string) (ops1 ops2 : list store_op)
    (tasks : store) :
  run_ops lower (ops1 ++ ops2) tasks
  = run_ops lower ops2 (run_ops lower ops1 tasks).
Proof. unfold run_ops. apply fold_left_app. Qed.

(** X4.  Creating a list of tasks one after the other appends them in
    that order, duplicates of a code included, and the query without
    filters then returns the whole list in insertion order. *)
Theorem creates_then_query (lower : string -> string) (created : list Task)
    (tasks : store) :
  run_ops lower (map create_of created) tasks = (tasks ++ created)%list
  /\ get_tasks lower None None None (run_ops lower (map create_of created) tasks)
     = (inr (tasks ++ created)%list, (tasks ++ created)%list).
Proof.
  assert (H : run_ops lower (map create_of created) tasks
              = (tasks ++ created)%list).
  { revert tasks. induction created as [|t created IH]; intros tasks.
    - simpl. now rewrite app_nil_r.
    - change (map create_of (t :: created))
        with ([create_of t] ++ map create_of created)%list.
      rewrite run_ops_app, IH. unfold run_ops, create_of, add_task. simpl.
      rewrite <- app_assoc. destruct t; reflexivity. }
  split; [exact H|]. rewrite H. reflexivity.
Qed.

Lemma update_task_keeps_length (c : string) (ti de : option string)
    (ty : option TaskType) (sd dd : option date) (st : option TaskStatus)
    (tasks : store) :
  List.length (snd (update_task c ti de ty sd dd st tasks)) = List.length tasks.
Proof.
  destruct (update_task c ti de ty sd dd st tasks) as [[e|t'] tasks'] eqn:E.
  - now rewrite (fails_clean_update_task _ _ _ _ _ _ _ _ _ _ E).
  - destruct (update_task_inr _ _ _ _ _ _ _ _ _ _ E)
      as (before & t & after & -> & _ & _ & -> & ->).
    simpl. rewrite !List.length_app. reflexivity.
Qed.

(** X5.  [update_task] never changes the number of tasks, their order or
    the code of any task, whether it finds the code or raises. *)
Theorem update_task_keeps_codes (c : string) (ti de : option string)
    (ty : option TaskType) (sd dd : option date) (st : option TaskStatus)
    (tasks : store) :
  map Task.code (snd (update_task c ti de ty sd dd st tasks))
  = map Task.code tasks
  /\ List.length (snd (update_task c ti de ty sd dd st tasks))
     = List.length tasks.
Proof.
  destruct (update_task c ti de ty sd dd st tasks) as [[e|t'] tasks'] eqn:E.
  - rewrite (fails_clean_update_task _ _ _ _ _ _ _ _ _ _ E). auto.
  - destruct (update_task_inr _ _ _ _ _ _ _ _ _ _ E)
      as (before & t & after & -> & _ & _ & -> & ->).
    destruct (apply_update_fields ti de ty sd dd st t) as (F1 & _).
    simpl. rewrite !map_app, !List.length_app. simpl. rewrite F1. auto.
Qed.

(** X6.  Adding a task under a code that no stored task has and then
    deleting that code returns the added task and restores the list. *)
Theorem add_then_delete (c ti de : string) (ty : TaskType)
    (sd dd : option date) (st : TaskStatus) (tasks : store) :
  Forall (fun t => Task.code t <> c) tasks ->
  bind (add_task c ti de ty sd dd st) (fun _ => delete_task c) tasks
  = (inr (Task.mk c ti de ty sd dd st), tasks).
Proof.
  intros H. unfold bind, add_task. cbv beta iota zeta. unfold delete_task.
  pose proof (first_with_code_middle c tasks [] (Task.mk c ti de ty sd dd st)
                0 H eq_refl) as E.
  pose proof (pop_middle tasks [] (Task.mk c ti de ty sd dd st)) as P.
  unfold Task, store in *. rewrite E. simpl. rewrite P, app_nil_r. reflexivity.
Qed.

Lemma add_then_delete_example :
  Forall (fun t => Task.code t <> "TASK-009") [Example.task1; Example.task2]
  /\ bind (add_task "TASK-009" "Tidy up" "" TASK None None PENDING)
       (fun _ => delete_task "TASK-009") [Example.task1; Example.task2]
     = (inr (Task.mk "TASK-009" "Tidy up" "" TASK None None PENDING),
        [Example.task1; Example.task2]).
Proof.
  assert (H : Forall (fun t => Task.code t <> "TASK-009")
                [Example.task1; Example.task2])
    by (repeat constructor; discriminate).
  split; [exact H|].
  exact (add_then_delete "TASK-009" "Tidy up" "" TASK None None PENDING
           [Example.task1; Example.task2] H).
Defined.

Lemma apply_update_idempotent ti de ty sd dd st (t : Task) :
  apply_update ti de ty sd dd st (apply_update ti de ty sd dd st t)
  = apply_update ti de ty sd dd st t.
Proof. destruct ti, de, ty, sd, dd, st; reflexivity. Qed.

(** X7.  [update_task] is idempotent: running the same update a second
    time returns what the first returned and leaves the list as the first
    left it. *)
Theorem update_task_idempotent (c : string) (ti de : option string)
    (ty : option TaskType) (sd dd : option date) (st : option TaskStatus)
    (tasks : store) :
  update_task c ti de ty sd dd st
    (snd (update_task c ti de ty sd dd st tasks))
  = update_task c ti de ty sd dd st tasks.
Proof.
  destruct (update_task c ti de ty sd dd st tasks) as [[e|t'] tasks'] eqn:E.
  - pose proof (fails_clean_update_task _ _ _ _ _ _ _ _ _ _ E) as Hs.
    subst tasks'. exact E.
  - destruct (update_task_inr _ _ _ _ _ _ _ _ _ _ E)
      as (before & t & after & -> & Hb & Hc & -> & ->).
    simpl. rewrite update_task_found.
    + now rewrite apply_update_idempotent.
    + assumption.
    + destruct (apply_update_fields ti de ty sd dd st t) as (F1 & _).
      now rewrite F1.
Qed.

(** ** Searching *)

(** X8.  [get_tasks] returns, without touching the list, exactly the
    stored tasks that have the given status when one is given, the given
    type when one is given and, when a search string is given, a lowered
    title or a lowered description in which the lowered search string
    occurs as a contiguous substring. *)
Theorem get_tasks_returns_the_matches (lower : string -> string)
    (status : option TaskStatus) (type : option TaskType)
    (search : option string) (tasks : store) :
  exists result,
    get_tasks lower status type search tasks = (inr result, tasks)
    /\ forall t,
        In t result <->
        In t tasks
        /\ (forall s, status = Some s -> Task.status t = s)
        /\ (forall ty, type = Some ty -> Task.type t = ty)
        /\ (forall kw, search = Some kw ->
              occurs (lower kw) (lower (Task.title t))
              \/ occurs (lower kw) (lower (Task.description t))).
Proof.
  eexists. split; [reflexivity|]. intros t.
  unfold keep_search, keep_type, keep_status, matches_keyword.
  destruct status as [s|], type as [ty|], search as [kw|];
    repeat rewrite filter_In;
    rewrite ?Bool.orb_true_iff, ?contains_occurs, ?TaskStatus_eqb_eq,
      ?TaskType_eqb_eq;
    (split;
     [ intros H; repeat split; try tauto;
       try (intros x Hx; inversion Hx; subst; tauto); discriminate
     | intros (H1 & H2 & H3 & H4);
       repeat split;
       first [ assumption | exact (H2 _ eq_refl) | exact (H3 _ eq_refl)
             | exact (H4 _ eq_refl) ] ]).
Qed.

(** X9.  When [str.lower] maps the empty string to itself, as it does,
    an empty search string filters nothing: the query returns what it
    returns without a search string. *)
Theorem empty_search_matches_all (lower : string -> string)
    (status : option TaskStatus) (type : option TaskType) (tasks : store) :
  lower "" = "" ->
  get_tasks lower status type (Some "") tasks
  = get_tasks lower status type None tasks.
Proof.
  intros H. unfold get_tasks, keep_search. rewrite H. do 2 f_equal.
  generalize (keep_type type (keep_status status tasks)). intros l.
  assert (Hall : forall t, matches_keyword lower "" t = true).
  { intros t. unfold matches_keyword.
    destruct (lower (Task.title t)); reflexivity. }
  induction l as [|t l IH]; simpl; [reflexivity|]. now rewrite Hall, IH.
Qed.

Lemma empty_search_example :
  ascii_lower "" = ""
  /\ get_tasks ascii_lower None (Some BUG) (Some "")
       [Example.task1; Example.task2]
     = get_tasks ascii_lower None (Some BUG) None [Example.task1; Example.task2].
Proof.
  split; [reflexivity|].
  exact (empty_search_matches_all ascii_lower None (Some BUG)
           [Example.task1; Example.task2] eq_refl).
Defined.

(** ** Read-only rounds *)

Lemma dispatch_get_tasks_read_only (lower repr : string -> string)
    (fromisoformat : string -> result date)
    (arguments : dict string) (tasks : store) :
  snd (_dispatch lower repr fromisoformat "get_tasks" arguments tasks) = tasks.
Proof.
  destruct (dispatch_names lower repr fromisoformat arguments) as (_ & Hg & _).
  rewrite Hg, dispatch_get_tasks_typed. unfold get_tasks_typed.
  rewrite bind_lift.
  destruct (enum_if_present (TaskStatus_call repr) (dict_get "status" arguments));
    [reflexivity|].
  rewrite bind_lift.
  destruct (enum_if_present (TaskType_call repr) (dict_get "type" arguments));
    [reflexivity|].
  destruct (first_unexpected get_tasks_params (dict_keys arguments));
    reflexivity.
Qed.

Lemma run_tool_calls_read_only (lower repr : string -> string)
    (fromisoformat : string -> result date)
    (json_loads : string -> result (dict string)) (json_dumps : json -> string)
    (tool_calls : list ToolCall.t) :
  Forall (fun tc => Function.name (ToolCall.function tc) = "get_tasks")
    tool_calls ->
  forall (messages : list message) (tasks : store),
    snd (run_tool_calls lower repr fromisoformat json_loads json_dumps
        tool_calls messages
           tasks) = tasks.
Proof.
  induction 1 as [|tc rest Hname _ IH]; intros messages tasks; [reflexivity|].
  simpl. unfold bind at 1, run_tool_call. rewrite bind_lift.
  destruct (json_loads (Function.arguments (ToolCall.function tc)))
    as [e|arguments]; [reflexivity|].
  unfold bind, try_except, ret. rewrite Hname.
  pose proof (dispatch_get_tasks_read_only lower repr fromisoformat arguments
      tasks) as Hr.
  destruct (_dispatch lower repr fromisoformat "get_tasks" arguments tasks)
    as [[e|r] tasks1]; simpl in Hr; subst tasks1; apply IH.
Qed.

(** X10.  A conversation never changes the task list when the model's
    first answer cannot be had or asks for nothing but [get_tasks]
    calls (no call at all included): whatever the payloads, the filters and
    the second answer are, the list after [agent] is the list before. *)
Theorem agent_read_only (lower repr : string -> string)
    (fromisoformat : string -> result date)
    (json_loads : string -> result (dict string)) (json_dumps : json -> string)
    (create : request -> result ChatMessage.t) (query model : string)
    (tasks : store) :
  match create (mkRequest model [SystemMessage system_prompt; UserMessage query]
                  true) with
  | inl _ => True
  | inr message =>
      Forall (fun tc => Function.name (ToolCall.function tc) = "get_tasks")
        (ChatMessage.tool_calls message)
  end ->
  snd (agent lower repr fromisoformat json_loads json_dumps create query model
         tasks)
  = tasks.
Proof.
  unfold agent. rewrite bind_lift.
  destruct (create (mkRequest model
                      [SystemMessage system_prompt; UserMessage query] true))
    as [e|message]; [reflexivity|].
  intros H. destruct (ChatMessage.tool_calls message) as [|tc rest] eqn:E;
    [reflexivity|].
  unfold bind at 1.
  pose proof (run_tool_calls_read_only lower repr fromisoformat json_loads
      json_dumps _ H
                ([SystemMessage system_prompt; UserMessage query]
                 ++ [AssistantMessage message])%list tasks) as Hr.
  destruct (run_tool_calls lower repr fromisoformat json_loads json_dumps (tc ::
      rest)
              ([SystemMessage system_prompt; UserMessage query]
               ++ [AssistantMessage message])%list tasks)
    as [[e|ms] tasks1]; simpl in Hr; subst tasks1; [reflexivity|].
  rewrite bind_lift.
  destruct (create (mkRequest model ms false)); reflexivity.
Qed.

Lemma agent_read_only_example :
  let tool_calls := [Example.call "call_1" "get_tasks" (Example.payload []);
                     Example.call "call_2" "get_tasks" Example.not_json] in
  Forall (fun tc => Function.name (ToolCall.function tc) = "get_tasks")
    tool_calls
  /\ snd (agent ascii_lower quote_repr Example.fromisoformat Example.loads
      Example.dumps
            (Example.model_asking tool_calls) "what is open?" "gpt-4o-mini"
            [Example.task1; Example.task2])
     = [Example.task1; Example.task2].
Proof.
  intros tool_calls.
  assert (H : Forall (fun tc => Function.name (ToolCall.function tc)
                                = "get_tasks") tool_calls)
    by (repeat constructor).
  split; [exact H|].
  exact (agent_read_only ascii_lower quote_repr Example.fromisoformat
      Example.loads Example.dumps
           (Example.model_asking tool_calls) "what is open?" "gpt-4o-mini"
           [Example.task1; Example.task2] H).
Defined.

(** ** What a tool call does to the list *)

(** X11.  A tool call changes the number of tasks by at most one: a
    successful [add_task] adds one, a successful [delete_task] removes one,
    and every other call, successful or not, leaves the number as it was. *)
Theorem dispatch_length (lower repr : string -> string)
    (fromisoformat : string -> result date) (name : string)
    (arguments : dict string) (tasks tasks' : store) (outcome : result json) :
  is_dict arguments ->
  _dispatch lower repr fromisoformat name arguments tasks = (outcome, tasks') ->
  List.length tasks' = length_after name outcome (List.length tasks).
Proof.
  intros Hd H. destruct outcome as [e|r].
  - rewrite (fails_clean_dispatch lower repr fromisoformat name arguments Hd _ _
      _ H).
    reflexivity.
  - destruct (dispatch_inr_name _ _ _ _ _ _ _ _ H) as [->|[->|[->| ->]]].
    + destruct (dispatch_add_task_inr _ _ _ _ _ _ _ H)
        as (c & ti & ty & st & sd & dd & _ & _ & _ & _ & _ & ->).
      rewrite List.length_app. simpl. lia.
    + pose proof (dispatch_get_tasks_read_only lower repr fromisoformat
        arguments tasks) as Hr.
      rewrite H in Hr. simpl in Hr. now subst.
    + destruct (dispatch_update_task_inr _ _ _ _ _ _ _ Hd H)
        as (c & ty & st & sd & dd & t' & _ & _ & _ & _ & _ & Hup & _).
      pose proof (update_task_keeps_length c (dict_get "title" arguments)
                    (dict_get "description" arguments) ty sd dd st tasks) as Hl.
      rewrite Hup in Hl. exact Hl.
    + destruct (dispatch_delete_task_inr _ _ _ _ _ _ _ H) as (c & t & _ & Hdel & _).
      destruct (delete_task_inr _ _ _ _ Hdel) as (before & after & -> & -> & _).
      simpl. rewrite !List.length_app. simpl. lia.
Qed.

(** X12.  A call whose arguments are strings and that leaves the schema
    of its tool, by a key that is no property of the tool or by a required
    property that is missing, always raises, and the list is what it was:
    a parameter the model made up and gave a string is never ignored and
    never half applied.  (An entry that holds [None] is another matter for
    [update_task]: see [update_task_drops_none].) *)
Theorem call_outside_schema_fails (lower repr : string -> string)
    (fromisoformat : string -> result date)
    (name : string) (tool : Tool.t) (arguments : dict string) (tasks : store) :
  tool_named name = Some tool ->
  is_dict arguments ->
  (exists k, In k (dict_keys arguments)
             /\ ~ In k (map Property.name (Tool.properties tool)))
  \/ (exists k, In k (Tool.required tool) /\ dict_get k arguments = None) ->
  exists e,
    _dispatch lower repr fromisoformat name arguments tasks = (inl e, tasks).
Proof.
  intros Hn Hd Hout.
  destruct (dispatch_names lower repr fromisoformat arguments) as (Ha & Hg & Hu
      & Hdel).
  unfold tool_named in Hn. unfold TOOLS in Hn. cbn [find Tool.name] in Hn.
  destruct (String.eqb "add_task" name) eqn:E1.
  { apply String.eqb_eq in E1. inversion Hn; subst; clear Hn.
    rewrite Ha, dispatch_add_task_typed. unfold add_task_typed.
    rewrite bind_lift.
    destruct (enum_or_default (TaskType_call repr) TASK
                (dict_get "type" arguments)); [eauto|].
    rewrite bind_lift.
    destruct (enum_or_default (TaskStatus_call repr) PENDING
                (dict_get "status" arguments)); [eauto|].
    rewrite bind_lift.
    destruct (_parse_date fromisoformat (dict_get "start_date" arguments));
        [eauto|].
    rewrite bind_lift.
    destruct (_parse_date fromisoformat (dict_get "due_date" arguments));
        [eauto|].
    destruct (first_unexpected add_task_params (dict_keys arguments)) eqn:Ek;
      [eexists; reflexivity|].
    destruct Hout as [(k & Hin & Hnot)|(k & Hin & Hnone)].
    - exfalso. exact (first_unexpected_some _ _ k Hin Hnot Ek).
    - simpl in Hin. destruct Hin as [<-|[<-|[]]]; rewrite Hnone;
        destruct (dict_get "code" arguments), (dict_get "title" arguments);
        eexists; reflexivity. }
  destruct (String.eqb "get_tasks" name) eqn:E2.
  { apply String.eqb_eq in E2. inversion Hn; subst; clear Hn.
    rewrite Hg, dispatch_get_tasks_typed. unfold get_tasks_typed.
    rewrite bind_lift.
    destruct (enum_if_present (TaskStatus_call repr)
                (dict_get "status" arguments)); [eauto|].
    rewrite bind_lift.
    destruct (enum_if_present (TaskType_call repr) (dict_get "type" arguments));
      [eauto|].
    destruct (first_unexpected get_tasks_params (dict_keys arguments)) eqn:Ek;
      [eexists; reflexivity|].
    destruct Hout as [(k & Hin & Hnot)|(k & [] & _)].
    exfalso. exact (first_unexpected_some _ _ k Hin Hnot Ek). }
  destruct (String.eqb "update_task" name) eqn:E3.
  { apply String.eqb_eq in E3. inversion Hn; subst; clear Hn.
    rewrite Hu, dispatch_update_task_typed by assumption.
    unfold update_task_typed. rewrite bind_lift.
    destruct (enum_if_present (TaskType_call repr) (dict_get "type" arguments));
      [eauto|].
    rewrite bind_lift.
    destruct (enum_if_present (TaskStatus_call repr)
                (dict_get "status" arguments)); [eauto|].
    rewrite bind_lift.
    destruct (_parse_date fromisoformat (dict_get "start_date" arguments));
        [eauto|].
    rewrite bind_lift.
    destruct (_parse_date fromisoformat (dict_get "due_date" arguments));
        [eauto|].
    destruct (first_unexpected update_task_params (dict_keys arguments)) eqn:Ek;
      [eexists; reflexivity|].
    destruct Hout as [(k & Hin & Hnot)|(k & Hin & Hnone)].
    - exfalso. exact (first_unexpected_some _ _ k Hin Hnot Ek).
    - simpl in Hin. destruct Hin as [<-|[]]. rewrite Hnone.
      eexists; reflexivity. }
  destruct (String.eqb "delete_task" name) eqn:E4; [|discriminate].
  apply String.eqb_eq in E4. inversion Hn; subst; clear Hn.
  rewrite Hdel, dispatch_delete_task_typed. unfold delete_task_typed.
  destruct (first_unexpected delete_task_params (dict_keys arguments)) eqn:Ek;
    [eexists; reflexivity|].
  destruct Hout as [(k & Hin & Hnot)|(k & Hin & Hnone)].
  - exfalso. exact (first_unexpected_some _ _ k Hin Hnot Ek).
  - simpl in Hin. destruct Hin as [<-|[]]. rewrite Hnone.
    eexists; reflexivity.
Qed.

Lemma call_outside_schema_example :
  let arguments := [("code", "TASK-001"); ("priority", "high")] in
  tool_named "delete_task" = Some (nth 3 TOOLS (Tool.mk "" "" [] []))
  /\ is_dict arguments
  /\ exists e,
      _dispatch ascii_lower quote_repr Example.fromisoformat "delete_task"
          arguments [Example.task1]
      = (inl e, [Example.task1]).
Proof.
  intros arguments.
  assert (Hd : is_dict arguments)
    by (repeat constructor; simpl; intuition discriminate).
  split; [reflexivity|]. split; [exact Hd|].
  apply (call_outside_schema_fails ascii_lower quote_repr Example.fromisoformat
      "delete_task" _
           arguments [Example.task1] eq_refl Hd).
  left. exists "priority". split; [simpl; tauto|].
  simpl. intuition discriminate.
Defined.

Example call_outside_schema_message :
  _dispatch ascii_lower quote_repr Example.fromisoformat "delete_task"
    [("code", "TASK-001"); ("priority", "high")] [Example.task1]
  = (inl (TypeError
            "delete_task() got an unexpected keyword argument 'priority'"),
     [Example.task1]).
Proof. vm_compute. reflexivity. Qed.




(** ** Field maps *)

Lemma isoformat_injective (d1 d2 : date) :
  Date.valid d1 = true -> Date.valid d2 = true ->
  Date.isoformat d1 = Date.isoformat d2 -> d1 = d2.
Proof.
  intros H1 H2 E.
  pose proof (fromisoformat_isoformat (fun s => s) d1 H1) as F1.
  pose proof (fromisoformat_isoformat (fun s => s) d2 H2) as F2.
  rewrite E in F1. rewrite F1 in F2. now inversion F2.
Qed.

Lemma date_field_injective (d1 d2 : option date) :
  (forall d, d1 = Some d -> Date.valid d = true) ->
  (forall d, d2 = Some d -> Date.valid d = true) ->
  date_field d1 = date_field d2 -> d1 = d2.
Proof.
  intros H1 H2. destruct d1 as [x|], d2 as [y|]; cbn [date_field];
    intros E; try discriminate; [|reflexivity].
  assert (E' : Date.isoformat x = Date.isoformat y)
    by exact (f_equal (fun j => match j with JStr s => s | _ => "" end) E).
  f_equal.
  apply isoformat_injective;
    [apply H1; reflexivity|apply H2; reflexivity|exact E'].
Qed.

(** X13.  The field map determines the task: two tasks (whose dates exist,
    as every date object's does) with the same [to_dict] are equal in
    every field. *)
Theorem to_dict_injective (t1 t2 : Task) :
  dates_valid t1 -> dates_valid t2 -> to_dict t1 = to_dict t2 -> t1 = t2.
Proof.
  intros [S1 D1] [S2 D2]. unfold to_dict. intros H.
  injection H as Hc Ht Hd Hty Hs Hdu Hst.
  apply (f_equal TaskType.of_value) in Hty.
  rewrite !TaskType_of_value_value in Hty.
  apply (f_equal TaskStatus.of_value) in Hst.
  rewrite !TaskStatus_of_value_value in Hst.
  apply date_field_injective in Hs; [|assumption|assumption].
  apply date_field_injective in Hdu; [|assumption|assumption].
  destruct t1, t2; simpl in *. inversion Hty; inversion Hst. congruence.
Qed.

Lemma to_dict_injective_example :
  dates_valid Example.task1
  /\ dates_valid Example.task2
  /\ (to_dict Example.task1 = to_dict Example.task2 ->
      Example.task1 = Example.task2).
Proof.
  assert (H1 : dates_valid Example.task1)
    by (split; intros d H; inversion H; reflexivity).
  assert (H2 : dates_valid Example.task2)
    by (split; intros d H; inversion H; reflexivity).
  split; [exact H1|]. split; [exact H2|].
  exact (to_dict_injective Example.task1 Example.task2 H1 H2).
Defined.

Lemma parse_date_isoformat (repr : string -> string) (d : date) :
  Date.valid d = true ->
  _parse_date (fromisoformat_ymd repr) (Some (Date.isoformat d))
  = inr (Some d).
Proof.
  intros H. unfold _parse_date.
  assert (E : String.eqb (Date.isoformat d) "" = false)
    by (unfold Date.isoformat, Date.pad4; reflexivity).
  now rewrite E, fromisoformat_isoformat.
Qed.

(** X14.  The field map of a task, read as the arguments of an [add_task]
    call (its string entries; a null date is left out), makes the
    dispatcher append a task equal to the original and return the same
    field map. *)
Theorem add_task_from_field_map (lower repr : string -> string) (t : Task)
    (tasks : store) :
  dates_valid t ->
  _dispatch lower repr (fromisoformat_ymd repr) "add_task"
    (string_entries (to_dict t)) tasks
  = (inr (to_dict t), (tasks ++ [t])%list).
Proof.
  intros [Hs Hd].
  destruct (dispatch_names lower repr (fromisoformat_ymd repr)
              (string_entries (to_dict t))) as (Ha & _).
  rewrite Ha, dispatch_add_task_typed. clear Ha.
  destruct t as [c ti de ty sd dd st]. cbn [Task.start_date Task.due_date] in *.
  unfold add_task_typed, to_dict, string_entries.
  cbn [Task.code Task.title Task.description Task.type Task.start_date
       Task.due_date Task.status].
  assert (Hty : enum_or_default (TaskType_call repr) TASK
                  (Some (TaskType.value ty)) = inr ty).
  { unfold enum_or_default, TaskType_call.
    now rewrite TaskType_of_value_value. }
  assert (Hst : enum_or_default (TaskStatus_call repr) PENDING
                  (Some (TaskStatus.value st)) = inr st).
  { unfold enum_or_default, TaskStatus_call.
    now rewrite TaskStatus_of_value_value. }
  destruct sd as [sd|], dd as [dd|];
    cbn [flat_map fst snd app date_field dict_get dict_keys map
         String.eqb Ascii.eqb Bool.eqb first_unexpected find existsb negb orb
         add_task_params str_or_empty];
    rewrite Hty, Hst, ?parse_date_isoformat by auto;
    reflexivity.
Qed.

Lemma add_task_from_field_map_example :
  dates_valid Example.task2
  /\ _dispatch ascii_lower quote_repr Example.fromisoformat "add_task"
       (string_entries (to_dict Example.task2)) [Example.task1]
     = (inr (to_dict Example.task2), [Example.task1; Example.task2]).
Proof.
  assert (H : dates_valid Example.task2)
    by (split; intros d E; inversion E; reflexivity).
  split; [exact H|].
  exact (add_task_from_field_map ascii_lower quote_repr Example.task2
           [Example.task1] H).
Defined.

(** ** Dates in the store *)

Lemma parse_date_valid (repr : string -> string) (v : option string)
    (d : date) :
  _parse_date (fromisoformat_ymd repr) v = inr (Some d) -> Date.valid d = true.
Proof.
  unfold _parse_date. destruct v as [s|]; [|discriminate].
  destruct (String.eqb s ""); [discriminate|].
  destruct (fromisoformat_ymd repr s) as [e|x] eqn:E; [discriminate|].
  intros H; inversion H; subst. exact (fromisoformat_valid _ _ _ E).
Qed.

Lemma apply_update_dates_valid ti de ty sd dd st (t : Task) :
  (forall d, sd = Some d -> Date.valid d = true) ->
  (forall d, dd = Some d -> Date.valid d = true) ->
  dates_valid t -> dates_valid (apply_update ti de ty sd dd st t).
Proof.
  intros Hs Hd [Ts Td].
  destruct (apply_update_fields ti de ty sd dd st t)
    as (_ & _ & _ & _ & F5 & F6 & _).
  split; intros d; [rewrite F5|rewrite F6].
  - destruct sd; [apply Hs|apply Ts].
  - destruct dd; [apply Hd|apply Td].
Qed.

(** X15.  Every date that a tool call stores exists in the calendar: when
    the dates of the stored tasks are dates that exist, they still are
    after any call of the dispatcher, whatever its name and arguments. *)
Theorem dispatch_keeps_dates_valid (lower repr : string -> string)
    (name : string) (arguments : dict string) (tasks : store) :
  is_dict arguments ->
  Forall dates_valid tasks ->
  Forall dates_valid
    (snd (_dispatch lower repr (fromisoformat_ymd repr) name arguments tasks)).
Proof.
  intros Hd Hv.
  destruct (_dispatch lower repr (fromisoformat_ymd repr) name arguments tasks)
    as [[e|r] tasks'] eqn:H.
  - simpl.
    now rewrite (fails_clean_dispatch lower repr (fromisoformat_ymd repr) name
                   arguments Hd _ _ _ H).
  - simpl. destruct (dispatch_inr_name _ _ _ _ _ _ _ _ H) as [->|[->|[->| ->]]].
    + destruct (dispatch_add_task_inr _ _ _ _ _ _ _ H)
        as (c & ti & ty & st & sd & dd & _ & _ & Hsd & Hdd & _ & ->).
      apply Forall_app. split; [assumption|]. constructor; [|constructor].
      split; simpl; intros d ->; eapply parse_date_valid; eassumption.
    + pose proof (dispatch_get_tasks_read_only lower repr
                    (fromisoformat_ymd repr) arguments tasks) as Hr.
      rewrite H in Hr. simpl in Hr. now subst.
    + destruct (dispatch_update_task_inr _ _ _ _ _ _ _ Hd H)
        as (c & ty & st & sd & dd & t' & _ & _ & _ & Hsd & Hdd & Hup & _).
      destruct (update_task_inr _ _ _ _ _ _ _ _ _ _ Hup)
        as (before & t & after & -> & _ & _ & -> & ->).
      apply Forall_app in Hv. destruct Hv as [Hb Ha].
      inversion Ha; subst. apply Forall_app. split; [assumption|].
      constructor; [|assumption].
      apply apply_update_dates_valid; [| |assumption];
        intros d ->; eapply parse_date_valid; eassumption.
    + destruct (dispatch_delete_task_inr _ _ _ _ _ _ _ H) as (c & t & _ & Hdel & _).
      destruct (delete_task_inr _ _ _ _ Hdel) as (before & after & -> & -> & _).
      apply Forall_app in Hv. destruct Hv as [Hb Ha]. inversion Ha; subst.
      apply Forall_app. tauto.
Qed.

Lemma dispatch_keeps_dates_valid_example :
  let arguments := [("code", "TASK-001"); ("due_date", "2025-01-31")] in
  is_dict arguments
  /\ Forall dates_valid [Example.task1]
  /\ Forall dates_valid
       (snd (_dispatch ascii_lower quote_repr Example.fromisoformat
           "update_task" arguments
               [Example.task1])).
Proof.
  intros arguments.
  assert (Hd : is_dict arguments)
    by (repeat constructor; simpl; intuition discriminate).
  assert (Hv : Forall dates_valid [Example.task1]).
  { repeat constructor; intros d H; inversion H; reflexivity. }
  split; [exact Hd|]. split; [exact Hv|].
  exact (dispatch_keeps_dates_valid ascii_lower quote_repr "update_task"
           arguments [Example.task1] Hd Hv).
Defined.

(** ** The loop, call by call *)

(** X16.  The loop stops at the first payload that [json.loads] rejects:
    the calls before it have run, in order, and what they did to the list
    stays done; the exception leaves the loop with their tool messages
    lost; the calls after it are never looked at. *)
Theorem round_stops_at_undecodable_payload (lower repr : string -> string)
    (fromisoformat : string -> result date)
    (json_loads : string -> result (dict string)) (json_dumps : json -> string)
    (before after : list ToolCall.t) (bad : ToolCall.t) (exc : exn)
    (messages : list message) (tasks : store) :
  Forall (decodes json_loads) before ->
  json_loads (Function.arguments (ToolCall.function bad)) = inl exc ->
  exists results tasks',
    round lower repr fromisoformat json_loads json_dumps before tasks results
      tasks'
    /\ run_tool_calls lower repr fromisoformat json_loads json_dumps
         (before ++ bad :: after) messages tasks = (inl exc, tasks').
Proof.
  intros Hb Hbad. revert messages tasks.
  induction Hb as [|tc before [arguments Hloads] _ IH]; intros messages tasks.
  - exists [], tasks. split; [constructor|].
    simpl. unfold bind at 1, run_tool_call. now rewrite bind_lift, Hbad.
  - simpl. unfold bind at 1.
    rewrite (run_tool_call_decoded _ _ _ _ _ _ _ _ _ Hloads).
    destruct (_dispatch lower repr fromisoformat (Function.name
        (ToolCall.function tc))
                arguments tasks) as [outcome tasks1] eqn:E.
    destruct (IH (messages
                  ++ [ToolMessage (ToolCall.id tc)
                        (json_dumps match outcome with
                                    | inr result => result
                                    | inl e => error_payload e
                                    end)])%list tasks1)
      as (results & tasks' & Hround & Hrun).
    eexists; exists tasks'. split; [econstructor; eassumption|exact Hrun].
Qed.

Lemma round_stops_example :
  let before := [Example.call "call_1" "delete_task"
                   (Example.payload [("code", "TASK-001")])] in
  let bad := Example.call "call_2" "get_tasks" Example.not_json in
  let loads := loads_table [(Example.payload [("code", "TASK-001")],
                             [("code", "TASK-001")])] in
  Forall (decodes loads) before
  /\ loads (Function.arguments (ToolCall.function bad))
     = inl (ValueError "Expecting value: line 1 column 1 (char 0)")
  /\ exists results tasks',
      round ascii_lower quote_repr Example.fromisoformat loads Example.dumps
          before
        [Example.task1; Example.task2] results tasks'
      /\ run_tool_calls ascii_lower quote_repr Example.fromisoformat loads
          Example.dumps
           (before ++ bad :: [])%list [] [Example.task1; Example.task2]
         = (inl (ValueError "Expecting value: line 1 column 1 (char 0)"),
            tasks').
Proof.
  intros before bad loads.
  assert (Hb : Forall (decodes loads) before)
    by (repeat constructor; eexists; vm_compute; reflexivity).
  split; [exact Hb|]. split; [reflexivity|].
  exact (round_stops_at_undecodable_payload ascii_lower quote_repr
      Example.fromisoformat loads
           Example.dumps before [] bad _ [] [Example.task1; Example.task2] Hb
           eq_refl).
Defined.

Example round_stops_after_delete :
  run_tool_calls ascii_lower quote_repr Example.fromisoformat
    (loads_table [(Example.payload [("code", "TASK-001")],
                   [("code", "TASK-001")])]) Example.dumps
    [ Example.call "call_1" "delete_task"
        (Example.payload [("code", "TASK-001")]);
      Example.call "call_2" "get_tasks" Example.not_json ]
    [] [Example.task1; Example.task2]
  = (inl (ValueError "Expecting value: line 1 column 1 (char 0)"),
     [Example.task2]).
Proof. vm_compute. reflexivity. Qed.

(** X17.  Whenever the loop completes, the conversation has grown by
    exactly one tool message per requested call, in the order of the calls
    and each answering its call's identifier; the messages it started from
    are untouched. *)
Theorem one_tool_message_per_call (lower repr : string -> string)
    (fromisoformat : string -> result date)
    (json_loads : string -> result (dict string)) (json_dumps : json -> string)
    (tool_calls : list ToolCall.t) (messages messages' : list message)
    (tasks tasks' : store) :
  run_tool_calls lower repr fromisoformat json_loads json_dumps tool_calls
    messages tasks
  = (inr messages', tasks') ->
  exists results,
    messages' = (messages ++ results)%list
    /\ map answers results = map (fun tc => Some (ToolCall.id tc)) tool_calls.
Proof.
  revert messages tasks.
  induction tool_calls as [|tc rest IH]; intros messages tasks; simpl.
  - intros H; inversion H; subst. exists []. now rewrite app_nil_r.
  - unfold bind at 1, run_tool_call. rewrite bind_lift.
    destruct (json_loads (Function.arguments (ToolCall.function tc)))
      as [e|arguments]; [discriminate|].
    unfold bind at 1, try_except, ret.
    destruct (_dispatch lower repr fromisoformat (Function.name
        (ToolCall.function tc))
                arguments tasks) as [[e|r] tasks1];
      intros H; destruct (IH _ _ H) as (results & -> & Hids);
      eexists; (split; [rewrite <- app_assoc; reflexivity|]);
      simpl; now rewrite Hids.
Qed.

Lemma one_tool_message_example :
  let messages' :=
    [ ToolMessage "call_1"
        (Example.dumps
           (JObj [("error", JStr "'finished' is not a valid TaskStatus")]));
      ToolMessage "call_2" (Example.dumps (JArr [to_dict Example.task1])) ] in
  run_tool_calls ascii_lower quote_repr Example.fromisoformat Example.loads
      Example.dumps
    Example.scenario_d [] [Example.task1] = (inr messages', [Example.task1])
  /\ exists results,
      messages' = ([] ++ results)%list
      /\ map answers results
         = map (fun tc => Some (ToolCall.id tc)) Example.scenario_d.
Proof.
  intros messages'.
  assert (H : run_tool_calls ascii_lower quote_repr Example.fromisoformat
      Example.loads Example.dumps
                Example.scenario_d [] [Example.task1]
              = (inr messages', [Example.task1])) by (vm_compute; reflexivity).
  split; [exact H|].
  exact (one_tool_message_per_call ascii_lower quote_repr Example.fromisoformat
      Example.loads
           Example.dumps Example.scenario_d [] messages' [Example.task1]
           [Example.task1] H).
Defined.

Lemma dispatch_length_example :
  let arguments := [("code", "TASK-001")] in
  is_dict arguments
  /\ _dispatch ascii_lower quote_repr Example.fromisoformat "delete_task"
      arguments
       [Example.task2; Example.task1]
     = (inr (to_dict Example.task1), [Example.task2])
  /\ List.length [Example.task2]
     = length_after "delete_task" (inr (to_dict Example.task1))
         (List.length [Example.task2; Example.task1]).
Proof.
  intros arguments.
  assert (Hd : is_dict arguments)
    by (repeat constructor; simpl; intuition discriminate).
  assert (H : _dispatch ascii_lower quote_repr Example.fromisoformat
      "delete_task" arguments
                [Example.task2; Example.task1]
              = (inr (to_dict Example.task1), [Example.task2]))
    by (vm_compute; reflexivity).
  split; [exact Hd|]. split; [exact H|].
  exact (dispatch_length ascii_lower quote_repr Example.fromisoformat
      "delete_task" arguments
           [Example.task2; Example.task1] [Example.task2]
           (inr (to_dict Example.task1)) Hd H).
Defined.
